(** * Gasless relay tool (tools/gasless_relay.py): shallow embedding

    The development follows the Python module [tools/gasless_relay.py]:
    the class [GaslessRelayTool] with its two exposed operations
    [estimate_gas_cost] and [execute_gasless_transfer] and their helpers.

    - Python [int] is [Z]; a byte is a [Z] in [0, 256); [bytes] is [list Z].
    - Python [str] is the list of its Unicode code points ([pystr]).
    - A raising computation returns [Err e]; code that also talks to the
      outside world runs in the trace monad [M], which records the calls
      made before the result (or the exception) is produced.
    - The calls into the [json], [decimal] and [neo3] libraries are modelled
      by the modules [Py], [PyDecimal] and [Neo3]. *)

From Stdlib Require Import ZArith List Bool Lia String Ascii QArith Qpower.
Import ListNotations.
Open Scope Z_scope.

(** ** Exceptions and results *)

Inductive exn : Type :=
| RuntimeError (msg : string)
| ValueError (msg : string)
| NameError (name : string)
| AttributeError (name : string)
| UnicodeEncodeError
| OverflowError
| InvalidOperation          (* decimal.InvalidOperation *)
| DivisionByZero            (* decimal.DivisionByZero *)
| DecimalOverflow           (* decimal.Overflow *)
| ExternalError (what : string).  (* raised inside a collaborator call *)

Inductive result (A : Type) : Type :=
| Ok (a : A)
| Err (e : exn).
Arguments Ok {A} a.
Arguments Err {A} e.

Definition rbind {A B} (r : result A) (f : A -> result B) : result B :=
  match r with
  | Ok a => f a
  | Err e => Err e
  end.

Definition rmap {A B} (f : A -> B) (r : result A) : result B :=
  rbind r (fun a => Ok (f a)).

Notation "x <-? r ;; k" := (rbind r (fun x => k))
  (at level 61, r at next level, right associativity).

(** ** Python strings, bytes and [json.dumps] *)

Module Py.

(** A [str] is its sequence of code points; a [bytes] its sequence of
    octets. *)
Definition pystr := list Z.
Definition bytes := list Z.

Definition wf_char (c : Z) : Prop := 0 <= c < 1114112.
Definition wf_str (s : pystr) : Prop := Forall wf_char s.
Definition is_ascii (s : pystr) : Prop := Forall (fun c => 0 <= c < 128) s.

(** A Rocq literal read as an ASCII Python literal. *)
Fixpoint lit (s : string) : pystr :=
  match s with
  | EmptyString => []
  | String a r => Z.of_N (N_of_ascii a) :: lit r
  end.

Fixpoint str_eqb (a b : pystr) : bool :=
  match a, b with
  | [], [] => true
  | x :: a', y :: b' => (x =? y) && str_eqb a' b'
  | _, _ => false
  end.

(** [a < b] on [str]: lexicographic on code points. *)
Fixpoint str_ltb (a b : pystr) : bool :=
  match a, b with
  | [], [] => false
  | [], _ :: _ => true
  | _ :: _, [] => false
  | x :: a', y :: b' => (x <? y) || ((x =? y) && str_ltb a' b')
  end.

Fixpoint startswith (p s : pystr) : bool :=
  match p, s with
  | [], _ => true
  | _ :: _, [] => false
  | x :: p', y :: s' => (x =? y) && startswith p' s'
  end.

(** The double quote, as a one-character string. *)
Definition dq : pystr := [34].

(** [s.encode('utf-8')]: a lone surrogate raises [UnicodeEncodeError]. *)
Definition utf8_char (c : Z) : result bytes :=
  if c <? 128 then Ok [c]
  else if c <? 2048 then Ok [192 + c / 64; 128 + c mod 64]
  else if (55296 <=? c) && (c <=? 57343) then Err UnicodeEncodeError
  else if c <? 65536 then
    Ok [224 + c / 4096; 128 + (c / 64) mod 64; 128 + c mod 64]
  else
    Ok [240 + c / 262144; 128 + (c / 4096) mod 64;
        128 + (c / 64) mod 64; 128 + c mod 64].

Fixpoint encode_utf8 (s : pystr) : result bytes :=
  match s with
  | [] => Ok []
  | c :: r =>
      match utf8_char c, encode_utf8 r with
      | Ok b, Ok br => Ok (b ++ br)
      | Err e, _ => Err e
      | _, Err e => Err e
      end
  end.

(** [str(n)] / [repr(n)] of an [int]. *)
Definition digit_char (d : Z) : Z := 48 + d.

Fixpoint digits_of (fuel : nat) (n : Z) (acc : pystr) : pystr :=
  match fuel with
  | O => acc
  | S f =>
      if n <? 10 then digit_char n :: acc
      else digits_of f (n / 10) (digit_char (n mod 10) :: acc)
  end.

Definition str_of_nonneg (n : Z) : pystr :=
  digits_of (S (Z.to_nat (Z.log2 n))) n [].

Definition str_of_int (n : Z) : pystr :=
  if n <? 0 then 45 :: str_of_nonneg (- n) else str_of_nonneg n.

(** [int.from_bytes(b, 'little')] (unsigned). *)
Fixpoint int_from_bytes_little (b : bytes) : Z :=
  match b with
  | [] => 0
  | x :: r => x + 256 * int_from_bytes_little r
  end.

(** *** json.dumps *)

(** The values the intent dictionary holds. *)
Inductive json_value : Type :=
| JStr (s : pystr)
| JInt (n : Z).

(** A [dict] with [str] keys, in insertion order. *)
Definition pydict := list (pystr * json_value).

Definition hex_digit (d : Z) : Z :=
  if d <? 10 then 48 + d else 87 + d.

(** ['\\u{0:04x}'.format(n)] *)
Definition u_escape (n : Z) : pystr :=
  [92; 117; hex_digit ((n / 4096) mod 16); hex_digit ((n / 256) mod 16);
   hex_digit ((n / 16) mod 16); hex_digit (n mod 16)].

(** The replacement made by [json.encoder.py_encode_basestring_ascii] for
    one character: printable ASCII other than the quote and the backslash
    is kept, the named control characters get their short escape, anything
    else a [\uXXXX] escape (a surrogate pair above the BMP). *)
Definition escape_char (c : Z) : pystr :=
  if c =? 92 then [92; 92]
  else if c =? 34 then [92; 34]
  else if (32 <=? c) && (c <=? 126) then [c]
  else if c =? 8 then [92; 98]
  else if c =? 12 then [92; 102]
  else if c =? 10 then [92; 110]
  else if c =? 13 then [92; 114]
  else if c =? 9 then [92; 116]
  else if c <? 65536 then u_escape c
  else
    let n := c - 65536 in
    u_escape (Z.lor 55296 (Z.land (Z.shiftr n 10) 1023))
      ++ u_escape (Z.lor 56320 (Z.land n 1023)).

Definition encode_basestring_ascii (s : pystr) : pystr :=
  [34] ++ flat_map escape_char s ++ [34].

Definition encode_value (v : json_value) : pystr :=
  match v with
  | JStr s => encode_basestring_ascii s
  | JInt n => str_of_int n
  end.

(** [sorted(dct.items())]: insertion sort on the keys (keys of a dict are
    distinct, so the values are never compared). *)
Fixpoint insert_item (kv : pystr * json_value) (l : pydict) : pydict :=
  match l with
  | [] => [kv]
  | kv' :: r =>
      if str_ltb (fst kv') (fst kv) then kv' :: insert_item kv r
      else kv :: l
  end.

Definition sorted_items (d : pydict) : pydict :=
  fold_right insert_item [] d.

Fixpoint join (sep : pystr) (parts : list pystr) : pystr :=
  match parts with
  | [] => []
  | [p] => p
  | p :: r => p ++ sep ++ join sep r
  end.

(** [json.dumps(d, sort_keys=sort_keys, separators=(item_sep, key_sep))]
    for a dictionary of strings and integers. *)
Definition dumps_with (item_sep key_sep : pystr) (sort_keys : bool)
    (d : pydict) : pystr :=
  let items := if sort_keys then sorted_items d else d in
  [123] ++
  join item_sep
    (map (fun kv => encode_basestring_ascii (fst kv) ++ key_sep
                      ++ encode_value (snd kv)) items)
  ++ [125].

(** The default separators of [json.dumps] when [indent] is [None]. *)
Definition default_item_separator : pystr := lit ", ".
Definition default_key_separator : pystr := lit ": ".

Definition dumps (sort_keys : bool) (d : pydict) : pystr :=
  dumps_with default_item_separator default_key_separator sort_keys d.

(** A string of Unicode scalar values: valid code points, none of them a
    surrogate.  These are the strings a JSON document or a UTF-8 byte
    sequence can carry. *)
Definition scalar_char (c : Z) : Prop :=
  0 <= c < 55296 \/ 57343 < c < 1114112.
Definition scalar_str (s : pystr) : Prop := Forall scalar_char s.

(** A [bytes] value holds octets. *)
Definition octets (b : bytes) : Prop := Forall (fun x => 0 <= x < 256) b.

(** The characters [str(n)] is made of. *)
Definition is_digit (c : Z) : Prop := 48 <= c <= 57.
Definition is_int_char (c : Z) : Prop := c = 45 \/ is_digit c.

(** The digits of [n], least significant first: [digits_of] read from its
    end. *)
Fixpoint rdigits (fuel : nat) (n : Z) : pystr :=
  match fuel with
  | O => []
  | S f => if n <? 10 then [digit_char n]
           else digit_char (n mod 10) :: rdigits f (n / 10)
  end.

(** The two-character escapes of [escape_char]: a character and the
    letter that follows the backslash. *)
Definition short_escape (c x : Z) : Prop :=
  (c = 92 /\ x = 92) \/ (c = 34 /\ x = 34) \/ (c = 8 /\ x = 98) \/
  (c = 12 /\ x = 102) \/ (c = 10 /\ x = 110) \/ (c = 13 /\ x = 114) \/
  (c = 9 /\ x = 116).

End Py.

(** ** [decimal.Decimal] under the default context *)

Module PyDecimal.

(** A finite decimal is [coef * 10 ^ exp]; the sign of a zero is not
    observable in this program (a [Decimal] only reaches [int()], [<] and
    further arithmetic), so the coefficient carries the sign. *)
Inductive Decimal : Type :=
| Fin (coef exp : Z)
| Inf (negative : bool)
| NaN.

(** [decimal.getcontext()]: prec=28, rounding=ROUND_HALF_EVEN,
    Emin=-999999, Emax=999999, clamp=0,
    traps=[InvalidOperation, DivisionByZero, Overflow]. *)
Definition prec : Z := 28.
Definition Emax : Z := 999999.
Definition Emin : Z := -999999.
Definition Etiny : Z := Emin - prec + 1.
Definition Etop : Z := Emax - prec + 1.

Fixpoint ndigits_aux (fuel : nat) (n : Z) : Z :=
  match fuel with
  | O => 1
  | S f => if n <? 10 then 1 else 1 + ndigits_aux f (n / 10)
  end.

(** [len(self._int)]: the number of decimal digits of the coefficient. *)
Definition ndigits (n : Z) : Z :=
  ndigits_aux (S (Z.to_nat (Z.log2 (Z.abs n)))) (Z.abs n).

(** Drop the last [drop] digits of [a >= 0], rounding half to even. *)
Definition round_half_even (a drop : Z) : Z :=
  let p := 10 ^ drop in
  let q := a / p in
  let r := a mod p in
  if (2 * r >? p) || ((2 * r =? p) && Z.odd q) then q + 1 else q.

(** [Decimal._fix(context)]: round the exact result to the context. *)
Definition fix_ (c e : Z) : result Decimal :=
  if c =? 0 then Ok (Fin 0 (Z.min (Z.max e Etiny) Emax))
  else
    let a := Z.abs c in
    let exp_min0 := ndigits a + e - prec in
    if exp_min0 >? Etop then Err DecimalOverflow
    else
      let exp_min := Z.max exp_min0 Etiny in
      if e <? exp_min then
        let q := round_half_even a (exp_min - e) in
        let '(coeff, exp') :=
          if ndigits q >? prec then (q / 10, exp_min + 1) else (q, exp_min) in
        if exp' >? Etop then Err DecimalOverflow
        else Ok (Fin (Z.sgn c * coeff) exp')
      else Ok (Fin c e).

(** [Decimal(n)] for an [int] is exact. *)
Definition of_int (n : Z) : Decimal := Fin n 0.

(** The loop of [__truediv__] on an exact quotient: strip trailing zeros
    while the exponent is below the ideal one. *)
Fixpoint strip_to_ideal (fuel : nat) (coeff exp ideal : Z) : Z * Z :=
  match fuel with
  | O => (coeff, exp)
  | S f =>
      if (exp <? ideal) && (coeff mod 10 =? 0)
      then strip_to_ideal f (coeff / 10) (exp + 1) ideal
      else (coeff, exp)
  end.

(** [x / y] *)
Definition div (x y : Decimal) : result Decimal :=
  match x, y with
  | NaN, _ | _, NaN => Ok NaN
  | Inf _, Inf _ => Err InvalidOperation
  | Inf s, Fin c _ => Ok (Inf (xorb s (c <? 0)))
  | Fin _ _, Inf _ => Ok (Fin 0 Etiny)
  | Fin c1 e1, Fin c2 e2 =>
      if c2 =? 0 then
        if c1 =? 0 then Err InvalidOperation else Err DivisionByZero
      else if c1 =? 0 then fix_ 0 (e1 - e2)
      else
        let shift := ndigits c2 - ndigits c1 + prec + 1 in
        let exp := e1 - e2 - shift in
        let num := if 0 <=? shift then Z.abs c1 * 10 ^ shift else Z.abs c1 in
        let den := if 0 <=? shift then Z.abs c2
                   else Z.abs c2 * 10 ^ (- shift) in
        let q := num / den in
        let r := num mod den in
        let '(coeff, exp') :=
          if r =? 0 then strip_to_ideal (Z.to_nat shift) q exp (e1 - e2)
          else (if q mod 5 =? 0 then q + 1 else q, exp) in
        fix_ (Z.sgn c1 * Z.sgn c2 * coeff) exp'
  end.

(** [x * y] *)
Definition mul (x y : Decimal) : result Decimal :=
  match x, y with
  | NaN, _ | _, NaN => Ok NaN
  | Inf s1, Inf s2 => Ok (Inf (xorb s1 s2))
  | Inf s, Fin c _ | Fin c _, Inf s =>
      if c =? 0 then Err InvalidOperation else Ok (Inf (xorb s (c <? 0)))
  | Fin c1 e1, Fin c2 e2 => fix_ (c1 * c2) (e1 + e2)
  end.

(** [x + y]: the exact sum, rounded. *)
Definition add (x y : Decimal) : result Decimal :=
  match x, y with
  | NaN, _ | _, NaN => Ok NaN
  | Inf s1, Inf s2 => if eqb s1 s2 then Ok (Inf s1) else Err InvalidOperation
  | Inf s, Fin _ _ | Fin _ _, Inf s => Ok (Inf s)
  | Fin c1 e1, Fin c2 e2 =>
      let e := Z.min e1 e2 in
      fix_ (c1 * 10 ^ (e1 - e) + c2 * 10 ^ (e2 - e)) e
  end.

(** [x < y]: an ordering comparison with a NaN signals InvalidOperation. *)
Definition lt (x y : Decimal) : result bool :=
  match x, y with
  | NaN, _ | _, NaN => Err InvalidOperation
  | Inf s1, Inf s2 => Ok (s1 && negb s2)
  | Inf s, Fin _ _ => Ok s
  | Fin _ _, Inf s => Ok (negb s)
  | Fin c1 e1, Fin c2 e2 =>
      let e := Z.min e1 e2 in
      Ok (c1 * 10 ^ (e1 - e) <? c2 * 10 ^ (e2 - e))
  end.

(** [int(x)]: truncation towards zero. *)
Definition to_int (x : Decimal) : result Z :=
  match x with
  | NaN => Err (ValueError "cannot convert NaN to integer")
  | Inf _ => Err OverflowError
  | Fin c e => if 0 <=? e then Ok (c * 10 ^ e) else Ok (Z.quot c (10 ^ (- e)))
  end.

(** The rational a finite decimal denotes. *)
Definition value (c e : Z) : Q := (inject_Z c * Qpower (inject_Z 10) e)%Q.

End PyDecimal.

(** ** The [neo3] library: [UInt160], [ScriptBuilder], NeoVM opcodes *)

Module Neo3.
Import Py.

(** [types.UInt160]: 20 bytes, stored little-endian. *)
Record UInt160 : Type := mkUInt160 { to_array160 : bytes }.

Definition hex_val (c : Z) : option Z :=
  if (48 <=? c) && (c <=? 57) then Some (c - 48)
  else if (97 <=? c) && (c <=? 102) then Some (c - 87)
  else if (65 <=? c) && (c <=? 70) then Some (c - 55)
  else None.

Definition is_space (c : Z) : bool :=
  (c =? 32) || ((9 <=? c) && (c <=? 13)).

(** [bytearray.fromhex(s)]: two hexadecimal digits per byte, in either
    case; ASCII whitespace between bytes is skipped. *)
Fixpoint fromhex (s : pystr) : result bytes :=
  match s with
  | [] => Ok []
  | c :: r =>
      if is_space c then fromhex r
      else
        match r with
        | [] => Err (ValueError "non-hexadecimal number found in fromhex()")
        | d :: r' =>
            match hex_val c, hex_val d with
            | Some h, Some l => rmap (cons (16 * h + l)) (fromhex r')
            | _, _ =>
                Err (ValueError "non-hexadecimal number found in fromhex()")
            end
        end
  end.

(** [UInt160.from_string(value)]: an optional [0x] prefix, then exactly 40
    characters holding the big-endian hexadecimal form. *)
Definition from_string (value : pystr) : result UInt160 :=
  let value := if startswith (lit "0x") value then skipn 2 value else value in
  if negb (Z.of_nat (List.length value) =? 40)
  then Err (ValueError "Invalid UInt160 Format")
  else
    reversed_data <-? fromhex value ;;
    let data := rev reversed_data in
    if negb (Z.of_nat (List.length data) =? 20)
    then Err (ValueError "Invalid UInt160 Format")
    else Ok (mkUInt160 data).

(** The opcodes the tool emits, with their NeoVM byte values. *)
Inductive OpCode : Type := ASSERT | DUP | PACK.

Definition opcode_byte (op : OpCode) : Z :=
  match op with
  | ASSERT => 57     (* 0x39 *)
  | DUP => 74        (* 0x4A *)
  | PACK => 192      (* 0xC0 *)
  end.

Definition PUSHINT8 : Z := 0.
Definition PUSHINT16 : Z := 1.
Definition PUSHINT32 : Z := 2.
Definition PUSHINT64 : Z := 3.
Definition PUSHINT128 : Z := 4.
Definition PUSHINT256 : Z := 5.
Definition PUSHDATA1 : Z := 12.
Definition PUSHDATA2 : Z := 13.
Definition PUSHDATA4 : Z := 14.
Definition PUSH0 : Z := 16.
Definition SYSCALL : Z := 65.

(** One record per builder call. *)
Inductive instr : Type :=
| IPushData (b : bytes)        (* emit_push(bytes) *)
| IPushInt (n : Z)             (* emit_push(int) *)
| IOp (op : OpCode)            (* emit(op) *)
| ISyscall (number : Z).       (* emit_syscall(int) *)

(** [k] bytes of [z], little-endian two's complement. *)
Fixpoint le_bytes (k : nat) (z : Z) : bytes :=
  match k with
  | O => []
  | S k' => z mod 256 :: le_bytes k' (z / 256)
  end.

(** [z] fits a signed integer of [k] bytes. *)
Definition fits (k : Z) (z : Z) : bool :=
  (- 2 ^ (8 * k - 1) <=? z) && (z <? 2 ^ (8 * k - 1)).

(** [emit_push(int)]: one opcode for -1..16, else the smallest of the
    PUSHINT8..PUSHINT256 forms holding the value. *)
Definition encode_push_int (z : Z) : result bytes :=
  if (-1 <=? z) && (z <=? 16) then Ok [PUSH0 + z]
  else if fits 1 z then Ok (PUSHINT8 :: le_bytes 1 z)
  else if fits 2 z then Ok (PUSHINT16 :: le_bytes 2 z)
  else if fits 4 z then Ok (PUSHINT32 :: le_bytes 4 z)
  else if fits 8 z then Ok (PUSHINT64 :: le_bytes 8 z)
  else if fits 16 z then Ok (PUSHINT128 :: le_bytes 16 z)
  else if fits 32 z then Ok (PUSHINT256 :: le_bytes 32 z)
  else Err (ValueError "Input number exceeds maximum data size of 32 bytes").

(** [emit_push(bytes)]: PUSHDATA1/2/4 by length. *)
Definition encode_push_data (b : bytes) : result bytes :=
  let n := Z.of_nat (List.length b) in
  if n <? 256 then Ok (PUSHDATA1 :: le_bytes 1 n ++ b)
  else if n <? 65536 then Ok (PUSHDATA2 :: le_bytes 2 n ++ b)
  else if n <? 4294967296 then Ok (PUSHDATA4 :: le_bytes 4 n ++ b)
  else Err (ValueError "Input data exceeds maximum size").

(** [n.to_bytes(4, 'little')]: an unsigned integer of four bytes. *)
Definition to_bytes4 (n : Z) : result bytes :=
  if (0 <=? n) && (n <? 2 ^ 32) then Ok (le_bytes 4 n) else Err OverflowError.

Definition encode_instr (i : instr) : result bytes :=
  match i with
  | IPushData b => encode_push_data b
  | IPushInt n => encode_push_int n
  | IOp op => Ok [opcode_byte op]
  | ISyscall n => rmap (cons SYSCALL) (to_bytes4 n)
  end.

(** The bytes of a sequence of builder calls. *)
Fixpoint encode_program (prog : list instr) : result bytes :=
  match prog with
  | [] => Ok []
  | i :: r =>
      b <-? encode_instr i ;;
      br <-? encode_program r ;;
      Ok (b ++ br)
  end.

(** [vm.ScriptBuilder]: the calls made so far, oldest first, and the bytes
    written for them. *)
Record ScriptBuilder : Type := mkBuilder {
  emitted : list instr;
  buffer : bytes
}.

Definition new_builder : ScriptBuilder := mkBuilder [] [].

(** Every [emit_*] call appends the encoding of its record, or raises. *)
Definition emit_instr (i : instr) (sb : ScriptBuilder) : result ScriptBuilder :=
  b <-? encode_instr i ;;
  Ok (mkBuilder (emitted sb ++ [i]) (buffer sb ++ b)).

Definition emit_push_bytes (b : bytes) := emit_instr (IPushData b).
Definition emit_push_int (n : Z) := emit_instr (IPushInt n).
Definition emit_push_uint160 (h : UInt160) := emit_instr (IPushData (to_array160 h)).
Definition emit (op : OpCode) := emit_instr (IOp op).

(** [emit_syscall(syscall_number)] writes the SYSCALL opcode followed by
    [syscall_number.to_bytes(4, 'little')].  It is declared for an [int]
    (a [Syscall] is one); called with a [str], the attribute lookup
    [to_bytes] fails before anything is written. *)
Inductive syscall_argument : Type :=
| SyscallNumber (n : Z)
| SyscallName (name : string).

Definition emit_syscall (syscall_number : syscall_argument)
    (sb : ScriptBuilder) : result ScriptBuilder :=
  match syscall_number with
  | SyscallNumber n => emit_instr (ISyscall n) sb
  | SyscallName _ => Err (AttributeError "to_bytes")
  end.

Definition to_array (sb : ScriptBuilder) : bytes := buffer sb.

(** The builder's buffer holds the bytes of the calls it recorded. *)
Definition builder_ok (sb : ScriptBuilder) : Prop :=
  encode_program (emitted sb) = Ok (buffer sb).

(** The first byte of an encoded call tells its kind. *)
Definition head_of_kind (i : instr) (h : Z) : Prop :=
  match i with
  | IPushData _ => 12 <= h <= 14
  | IPushInt _ => 0 <= h <= 5 \/ 15 <= h <= 32
  | IOp op => h = opcode_byte op
  | ISyscall _ => h = SYSCALL
  end.

(** *** Operand-stack effect of the pushes and of PACK *)

#[warnings="-register-all"]
Inductive stackitem : Type :=
| SInt (n : Z)
| SBytes (b : bytes)
| SArray (items : list stackitem).

(** The stack is a list with its top first.  PACK pops a count [n], then
    pops [n] items into a new array, the first popped at index 0. *)
Definition exec_instr (i : instr) (st : list stackitem)
  : option (list stackitem) :=
  match i with
  | IPushData b => Some (SBytes b :: st)
  | IPushInt n => Some (SInt n :: st)
  | IOp DUP => match st with x :: r => Some (x :: x :: r) | [] => None end
  | IOp PACK =>
      match st with
      | SInt n :: r =>
          if (0 <=? n) && (n <=? Z.of_nat (List.length r))
          then Some (SArray (firstn (Z.to_nat n) r) :: skipn (Z.to_nat n) r)
          else None
      | _ => None
      end
  | _ => None
  end.

Fixpoint exec (prog : list instr) (st : list stackitem)
  : option (list stackitem) :=
  match prog with
  | [] => Some st
  | i :: r => match exec_instr i st with
              | Some st' => exec r st'
              | None => None
              end
  end.

(** The data a call pushes are octets. *)
Definition data_octets (i : instr) : Prop :=
  match i with
  | IPushData b => Py.octets b
  | _ => True
  end.

End Neo3.

(** ** The tool: configuration, collaborators, trace monad *)

Module GaslessRelay.
Import Py PyDecimal Neo3.

(** [config.NeoNetworkConfig] *)
Record NeoNetworkConfig : Type := {
  rpc_url : pystr;
  flamingo_api : pystr;
  relay_contract_hash : pystr;
  agent_wallet_wif : pystr;
  min_agent_gas_balance : Decimal;
  slippage_bps : Z
}.

(** What the tool uses of [account.Account]. *)
Record Account : Type := {
  address : pystr;
  script_hash : UInt160
}.

(** [payloads.Witness] and [payloads.Transaction] *)
Record Witness : Type := {
  invocation_script : bytes;
  verification_script : bytes
}.

Record Transaction : Type := {
  version : Z;
  nonce : Z;
  system_fee : Z;
  network_fee : Z;
  valid_until_block : Z;
  attributes : list unit;
  script : bytes;
  witnesses : list Witness
}.

Definition set_witnesses (tx : Transaction) (ws : list Witness) : Transaction :=
  {| version := version tx; nonce := nonce tx; system_fee := system_fee tx;
     network_fee := network_fee tx; valid_until_block := valid_until_block tx;
     attributes := attributes tx; script := script tx; witnesses := ws |}.

(** The instance: [self.config] and [self.agent_acct] (the RPC client is
    part of the collaborators below). *)
Record GaslessRelayTool : Type := {
  config : NeoNetworkConfig;
  agent_acct : Account
}.

(** A Python [float] takes part in the computation only through
    [Decimal(str(x))]; it is represented by that decimal. *)
Definition pyfloat := Decimal.

(** The body of the [try] in [_get_price_from_flamingo]: either one of
    [requests.get], [raise_for_status], [resp.json] or [float] raises, or
    the JSON object is read and holds a price or none. *)
Inductive price_reply : Type :=
| PriceFetchRaises
| PriceData (price : option pyfloat).

(** The collaborators, as they answer during one call: the price and swap
    endpoints, the ledger RPC node, the signature library and the agent's
    signing key. *)
Record World : Type := {
  price_feed : pystr -> price_reply;
  recover_signer : bytes -> pystr -> result pystr;
  balance_of : UInt160 -> result bytes;
  swap : pystr -> pystr -> result unit;
  sign_tx : Transaction -> Transaction;
  send_raw_transaction : Transaction -> result pystr
}.

(** What a call does that can be seen from outside, in order. *)
Inductive event : Type :=
| PriceRequested (pair : pystr)
| SignatureChecked (payload : bytes) (signature : pystr)
| BalanceQueried (account : UInt160)
| SwapRequested (amount recipient : pystr)
| ScriptBuilt (script : bytes)
| TransactionAssembled (tx : Transaction)
| TransactionSubmitted (tx : Transaction).

(** A computation: the events so far and the value or the exception. *)
Definition M (A : Type) : Type := list event * result A.

Definition ret {A} (a : A) : M A := ([], Ok a).
Definition raise {A} (e : exn) : M A := ([], Err e).
Definition emit_event (ev : event) : M unit := ([ev], Ok tt).
Definition lift {A} (r : result A) : M A := ([], r).

Definition bind {A B} (m : M A) (f : A -> M B) : M B :=
  match m with
  | (t, Ok a) => let '(t', r) := f a in (t ++ t', r)
  | (t, Err e) => (t, Err e)
  end.

(** [try: m except Exception: return h] *)
Definition try_except {A} (m : M A) (h : A) : M A :=
  match m with
  | (t, Ok a) => (t, Ok a)
  | (t, Err _) => (t, Ok h)
  end.

Definition trace {A} (m : M A) : list event := fst m.
Definition outcome {A} (m : M A) : result A := snd m.

Notation "x <- m ;; k" := (bind m (fun x => k))
  (at level 61, m at next level, right associativity).
Notation "m ;;; k" := (bind m (fun _ => k))
  (at level 61, right associativity).

(** *** estimate_gas_cost *)

Record FeeQuote : Type := {
  q_fee_in_asset : Z;
  q_asset_decimals : Z;
  q_burn_amount : Z;
  q_intent_id : option pystr;
  q_source : pystr
}.

Definition _get_price_from_flamingo (w : World) (base quote : pystr)
  : M (option pyfloat) :=
  let pair := base ++ lit "_" ++ quote in
  emit_event (PriceRequested pair) ;;;
  match price_feed w pair with
  | PriceData (Some p) => ret (Some p)
  | PriceData None => ret (Some (Fin 0 (-1)))    (* float(0) = 0.0 *)
  | PriceFetchRaises => ret None
  end.

Definition _get_asset_decimals (symbol : pystr) : Z := 8.

Definition estimate_gas_cost (self : GaslessRelayTool) (w : World)
    (asset_symbol : pystr) (fee_gas : pyfloat) (intent_id : option pystr)
  : M FeeQuote :=
  price <- _get_price_from_flamingo w asset_symbol (lit "GAS") ;;
  match price with
  | None => raise (RuntimeError "Failed to fetch price from Flamingo")
  | Some price =>
      fee_in_asset <- lift (div fee_gas price) ;;
      buffer <- lift (t <-? mul fee_in_asset
                               (of_int (slippage_bps (config self))) ;;
                      div t (of_int 10000)) ;;
      fee_in_asset <- lift (add fee_in_asset buffer) ;;
      let decimals := _get_asset_decimals asset_symbol in
      fee_raw <- lift (t <-? mul fee_in_asset (of_int (10 ^ decimals)) ;;
                       to_int t) ;;
      ret {| q_fee_in_asset := fee_raw;
             q_asset_decimals := decimals;
             q_burn_amount := fee_raw;
             q_intent_id := intent_id;
             q_source := lit "flamingo_oracle" |}
  end.

(** *** _ensure_agent_has_gas and its helpers *)

Definition _get_gas_balance (w : World) (script_hash : UInt160) : M Decimal :=
  try_except
    (emit_event (BalanceQueried script_hash) ;;;
     state <- lift (balance_of w script_hash) ;;
     let balance_raw := int_from_bytes_little state in
     lift (div (of_int balance_raw) (of_int (10 ^ 8))))
    (of_int 0).

Definition _swap_flm_to_gas (self : GaslessRelayTool) (w : World)
    (target_gas : Decimal) : M unit :=
  amount <- lift (t <-? mul target_gas (of_int 100) ;;
                  t <-? mul t (of_int (10 ^ 8)) ;;
                  to_int t) ;;
  let amount := str_of_int amount in
  let recipient := address (agent_acct self) in
  emit_event (SwapRequested amount recipient) ;;;
  lift (swap w amount recipient).

Definition _ensure_agent_has_gas (self : GaslessRelayTool) (w : World)
  : M unit :=
  balance <- _get_gas_balance w (script_hash (agent_acct self)) ;;
  below <- lift (lt balance (min_agent_gas_balance (config self))) ;;
  if below then _swap_flm_to_gas self w (Fin 1 (-2))   (* Decimal("0.01") *)
  else ret tt.

(** *** _build_relay_script *)

(** The local [builder] as lines 215-240 leave it: the three addresses
    parsed, the six arguments, the call flags, the count and PACK, the
    method name and the contract hash pushed. *)
Definition relay_script_builder (self : GaslessRelayTool)
    (from_addr to_addr asset_hash : pystr) (net_amount burn_amount : Z)
    (intent_id : pystr) : result ScriptBuilder :=
  from_script_hash <-? from_string from_addr ;;
  to_script_hash <-? from_string to_addr ;;
  asset_script_hash <-? from_string asset_hash ;;
  let builder := new_builder in
  intent_bytes <-? encode_utf8 intent_id ;;
  builder <-? emit_push_bytes intent_bytes builder ;;
  builder <-? emit_push_int burn_amount builder ;;
  builder <-? emit_push_int net_amount builder ;;
  builder <-? emit_push_uint160 asset_script_hash builder ;;
  builder <-? emit_push_uint160 to_script_hash builder ;;
  builder <-? emit_push_uint160 from_script_hash builder ;;
  builder <-? emit_push_int 0 builder ;;
  builder <-? emit_push_int 7 builder ;;
  builder <-? emit PACK builder ;;
  method_name <-? encode_utf8 (lit "transferWithFeeFromAmount") ;;
  builder <-? emit_push_bytes method_name builder ;;
  contract_hash <-? from_string (relay_contract_hash (config self)) ;;
  builder <-? emit_push_uint160 contract_hash builder ;;
  Ok builder.

Definition _build_relay_script (self : GaslessRelayTool)
    (from_addr to_addr asset_hash : pystr) (net_amount burn_amount : Z)
    (intent_id : pystr) : result bytes :=
  builder <-? relay_script_builder self from_addr to_addr asset_hash
                net_amount burn_amount intent_id ;;
  builder <-? emit_syscall (SyscallName "System.Contract.Call") builder ;;
  Ok (to_array builder).

(** *** _build_custom_witness *)

(** Name resolution inside a function body: the function's local names,
    then the names bound at module level; a name bound in neither raises
    [NameError].  A name is bound to a [str] or to some other object. *)
Inductive pyobj : Type :=
| PStr (s : pystr)
| PObject.

Definition namespace := list (string * pyobj).

Fixpoint lookup (name : string) (ns : namespace) : option pyobj :=
  match ns with
  | [] => None
  | (n, v) :: r => if String.eqb n name then Some v else lookup name r
  end.

Definition load_name (locals globals : namespace) (name : string)
  : result pyobj :=
  match lookup name locals with
  | Some v => Ok v
  | None => match lookup name globals with
            | Some v => Ok v
            | None => Err (NameError name)
            end
  end.

(** [obj.encode('utf-8')] *)
Definition encode_method (o : pyobj) : result bytes :=
  match o with
  | PStr s => encode_utf8 s
  | PObject => Err (AttributeError "encode")
  end.

(** The names the module binds: its imports and its one class. *)
Definition module_globals : namespace :=
  map (fun n => (n, PObject))
    ["asyncio"; "Dict"; "Any"; "Optional"; "Decimal"; "requests"; "types";
     "account"; "payloads"; "noderpc"; "vm_builder"; "signing"; "contract";
     "json"; "GaslessRelayTool"]%string.

(** The three builders the body creates, as local variables of the
    call. *)
Record WitnessBuilders : Type := {
  builder : ScriptBuilder;
  invocation_script_builder : ScriptBuilder;
  verification_script_builder : ScriptBuilder
}.

(** A statement of the body: it may change the builders, and it yields a
    value or raises; the builders stay as they were when the exception was
    raised. *)
Definition Stmt (A : Type) : Type :=
  WitnessBuilders -> WitnessBuilders * result A.

Definition sret {A} (a : A) : Stmt A := fun b => (b, Ok a).
Definition eval {A} (r : result A) : Stmt A := fun b => (b, r).
Definition sbind {A B} (m : Stmt A) (f : A -> Stmt B) : Stmt B :=
  fun b =>
    match m b with
    | (b', Ok a) => f a b'
    | (b', Err e) => (b', Err e)
    end.

(** [verification_script_builder.<method>(...)] *)
Definition on_verification_script_builder
    (method : ScriptBuilder -> result ScriptBuilder) : Stmt unit :=
  fun b =>
    match method (verification_script_builder b) with
    | Ok sb =>
        ({| builder := builder b;
            invocation_script_builder := invocation_script_builder b;
            verification_script_builder := sb |}, Ok tt)
    | Err e => (b, Err e)
    end.

(** [payloads.Witness(invocation_script=..., verification_script=...)] on
    the two builders. *)
Definition new_witness : Stmt Witness :=
  fun b =>
    (b, Ok {| invocation_script := to_array (invocation_script_builder b);
              verification_script :=
                to_array (verification_script_builder b) |}).

Notation "x <~ m ;; k" := (sbind m (fun x => k))
  (at level 61, m at next level, right associativity).
Notation "m ;;~ k" := (sbind m (fun _ => k))
  (at level 61, right associativity).

(** The body of [_build_custom_witness], run in a given module namespace:
    the builders as the call leaves them, and the witness or the
    exception.  Its parameters are [self], [user_addr] and
    [contract_hash_str]; the name [intent_id] is read but is not one of
    them.  The push of the signature into [invocation_script_builder] is
    commented out in the source. *)
Definition _build_custom_witness_run (globals : namespace)
    (user_addr contract_hash_str : pystr) : WitnessBuilders * result Witness :=
  let locals : namespace :=
    [("self", PObject); ("user_addr", PStr user_addr);
     ("contract_hash_str", PStr contract_hash_str);
     ("builder", PObject); ("invocation_script_builder", PObject);
     ("verification_script_builder", PObject)]%string in
  (intent_id <~ eval (load_name locals globals "intent_id") ;;
   intent_bytes <~ eval (encode_method intent_id) ;;
   on_verification_script_builder (emit_push_bytes intent_bytes) ;;~
   on_verification_script_builder (emit DUP) ;;~
   user_bytes <~ eval (encode_utf8 user_addr) ;;
   on_verification_script_builder (emit_push_bytes user_bytes) ;;~
   verify_bytes <~ eval (encode_utf8 (lit "verify")) ;;
   on_verification_script_builder (emit_push_bytes verify_bytes) ;;~
   contract_bytes <~ eval (encode_utf8 contract_hash_str) ;;
   on_verification_script_builder (emit_push_bytes contract_bytes) ;;~
   on_verification_script_builder (emit_push_int 0) ;;~
   on_verification_script_builder (emit_push_int 3) ;;~
   on_verification_script_builder (emit PACK) ;;~
   on_verification_script_builder
     (emit_syscall (SyscallName "System.Contract.Call")) ;;~
   on_verification_script_builder (emit ASSERT) ;;~
   new_witness)
    {| builder := new_builder;
       invocation_script_builder := new_builder;
       verification_script_builder := new_builder |}.

Definition _build_custom_witness_body (globals : namespace)
    (user_addr contract_hash_str : pystr) : result Witness :=
  snd (_build_custom_witness_run globals user_addr contract_hash_str).

Definition _build_custom_witness (user_addr contract_hash_str : pystr)
  : result Witness :=
  _build_custom_witness_body module_globals user_addr contract_hash_str.

(** *** _send_raw_transaction *)

Definition _send_raw_transaction (w : World) (tx : Transaction) : M pystr :=
  emit_event (TransactionSubmitted tx) ;;;
  lift (send_raw_transaction w tx).

(** *** execute_gasless_transfer *)

Record TransferResult : Type := {
  r_txid : pystr;
  r_net_amount : Z;
  r_burn_amount : Z;
  r_status : pystr;
  r_intent_id : pystr
}.

(** [intent_data], in the order the dictionary literal lists its keys. *)
Definition intent_data (from_addr to_addr : pystr) (gross_amount fee_in_asset : Z)
    (intent_id : pystr) : pydict :=
  [(lit "from", JStr from_addr);
   (lit "to", JStr to_addr);
   (lit "gross_amount", JInt gross_amount);
   (lit "fee_in_asset", JInt fee_in_asset);
   (lit "intent_id", JStr intent_id)].

(** [json.dumps(intent_data, sort_keys=True).encode()] *)
Definition intent_payload (from_addr to_addr : pystr)
    (gross_amount fee_in_asset : Z) (intent_id : pystr) : result bytes :=
  encode_utf8
    (dumps true (intent_data from_addr to_addr gross_amount fee_in_asset
                   intent_id)).

Definition execute_gasless_transfer (self : GaslessRelayTool) (w : World)
    (from_addr to_addr asset_hash : pystr) (gross_amount fee_in_asset : Z)
    (user_signature intent_id : pystr) : M TransferResult :=
  let net_amount := gross_amount - fee_in_asset in
  payload <- lift (intent_payload from_addr to_addr gross_amount fee_in_asset
                     intent_id) ;;
  emit_event (SignatureChecked payload user_signature) ;;;
  user_address <- lift (recover_signer w payload user_signature) ;;
  if negb (str_eqb user_address from_addr)
  then raise (ValueError "Invalid user signature for intent")
  else
    _ensure_agent_has_gas self w ;;;
    script <- lift (_build_relay_script self from_addr to_addr asset_hash
                      net_amount fee_in_asset intent_id) ;;
    emit_event (ScriptBuilt script) ;;;
    let tx := {| version := 0;
                 nonce := 12345;
                 system_fee := 120000;
                 network_fee := 100000;
                 valid_until_block := 999999;
                 attributes := [];
                 script := script;
                 witnesses := [] |} in
    emit_event (TransactionAssembled tx) ;;;
    witness <- lift (_build_custom_witness from_addr
                       (relay_contract_hash (config self))) ;;
    let tx := set_witnesses tx [witness] in
    let tx := sign_tx w tx in
    txid <- _send_raw_transaction w tx ;;
    ret {| r_txid := txid;
           r_net_amount := net_amount;
           r_burn_amount := fee_in_asset;
           r_status := lit "sent";
           r_intent_id := intent_id |}.

(** *** Successive calls on one instance *)

Record Request : Type := {
  req_from : pystr;
  req_to : pystr;
  req_asset : pystr;
  req_gross : Z;
  req_fee : Z;
  req_signature : pystr;
  req_intent_id : pystr
}.

(** One call as a step on the instance: the method assigns to no attribute
    of [self], so the instance comes back as it went in. *)
Definition call (self : GaslessRelayTool) (w : World) (rq : Request)
  : GaslessRelayTool * M TransferResult :=
  (self,
   execute_gasless_transfer self w (req_from rq) (req_to rq) (req_asset rq)
     (req_gross rq) (req_fee rq) (req_signature rq) (req_intent_id rq)).

(** Calls made one after the other on the same instance, each with the
    answers the collaborators give during it. *)
Fixpoint run_calls (self : GaslessRelayTool) (calls : list (World * Request))
  : list (M TransferResult) :=
  match calls with
  | [] => []
  | (w, rq) :: rest =>
      let '(self', m) := call self w rq in
      m :: run_calls self' rest
  end.

End GaslessRelay.


(** ** config.py: the default configuration *)

Module Config.
Import Py PyDecimal GaslessRelay.

(** [NeoNetworkConfig()] with every field at its declared default. *)
Definition default_config : NeoNetworkConfig :=
  {| rpc_url := lit "https://rpc.testnet.neo.org";
     flamingo_api := lit "https://api.flamingo.finance";
     relay_contract_hash := lit "0x1a2b3c...def";
     agent_wallet_wif :=
       lit "L4nZC5YBZ4PzU1JHb4YSDH25UyL8n8826hN297w2L7J8K9L9M9N9";
     min_agent_gas_balance := Fin 1 (-3);
     slippage_bps := 50 |}.

End Config.

(** ** mcp_server.py: the two tool handlers *)

Module McpServer.
Import Py PyDecimal GaslessRelay.

(** The [params] dictionary of a tool call, read through the schema the
    tool is registered with: each declared property is absent or holds a
    value of its declared type ([string], [number], [integer], nullable
    [string]). *)
Record EstimateParams : Type := {
  p_asset_symbol : option pystr;
  p_fee_gas : option pyfloat;
  p_est_intent_id : option (option pystr)
}.

Record ExecuteParams : Type := {
  p_from_addr : option pystr;
  p_to_addr : option pystr;
  p_asset_hash : option pystr;
  p_gross_amount : option Z;
  p_fee_in_asset : option Z;
  p_user_signature : option pystr;
  p_intent_id : option pystr
}.

(** A handler either raises [KeyError] while it reads its parameters, or
    calls the tool. *)
Inductive handler_run (A : Type) : Type :=
| KeyError (key : string)
| Called (m : M A).
Arguments KeyError {A} key.
Arguments Called {A} m.

(** [params.get(key, default)] *)
Definition get {A} (v : option A) (default : A) : A :=
  match v with
  | Some a => a
  | None => default
  end.

(** [params[key]], then the rest of the call. *)
Definition subscript {A B} (key : string) (v : option A)
    (k : A -> handler_run B) : handler_run B :=
  match v with
  | Some a => k a
  | None => KeyError key
  end.

Definition estimate_gas_cost_tool (tool_instance : GaslessRelayTool)
    (w : World) (params : EstimateParams) : handler_run FeeQuote :=
  Called
    (estimate_gas_cost tool_instance w
       (get (p_asset_symbol params) (lit "NEO"))
       (get (p_fee_gas params) (Fin 12 (-5)))          (* 0.00012 *)
       (get (p_est_intent_id params) None)).

Definition execute_gasless_transfer_tool (tool_instance : GaslessRelayTool)
    (w : World) (params : ExecuteParams) : handler_run TransferResult :=
  subscript "from_addr" (p_from_addr params) (fun from_addr =>
  subscript "to_addr" (p_to_addr params) (fun to_addr =>
  subscript "asset_hash" (p_asset_hash params) (fun asset_hash =>
  subscript "gross_amount" (p_gross_amount params) (fun gross_amount =>
  subscript "fee_in_asset" (p_fee_in_asset params) (fun fee_in_asset =>
  subscript "user_signature" (p_user_signature params) (fun user_signature =>
  subscript "intent_id" (p_intent_id params) (fun intent_id =>
  Called
    (execute_gasless_transfer tool_instance w from_addr to_addr asset_hash
       gross_amount fee_in_asset user_signature intent_id)))))))).

(** [key in params] *)
Definition contains {A} (v : option A) : bool :=
  match v with
  | Some _ => true
  | None => false
  end.

(** The keys [execute_gasless_transfer_tool] subscripts, in the order the
    call evaluates its arguments, each with whether [params] has it. *)
Definition execute_keys (params : ExecuteParams) : list (string * bool) :=
  [("from_addr"%string, contains (p_from_addr params));
   ("to_addr"%string, contains (p_to_addr params));
   ("asset_hash"%string, contains (p_asset_hash params));
   ("gross_amount"%string, contains (p_gross_amount params));
   ("fee_in_asset"%string, contains (p_fee_in_asset params));
   ("user_signature"%string, contains (p_user_signature params));
   ("intent_id"%string, contains (p_intent_id params))].

(** What a handler run shows from outside: the events, and the response
    if there is one. *)
Definition run_trace {A} (r : handler_run A) : list event :=
  match r with
  | KeyError _ => []
  | Called m => trace m
  end.

Definition response {A} (r : handler_run A) : option A :=
  match r with
  | Called (_, Ok a) => Some a
  | _ => None
  end.

End McpServer.

(** ** The wording of the specification, for comparison *)

Module SpecWords.
Import Py GaslessRelay.

(** The canonical intent payload as the specification words it: the same
    five keys, sorted, with no whitespace between the tokens. *)
Definition spec_canonical_payload (from_addr to_addr : pystr)
    (gross_amount fee_in_asset : Z) (intent_id : pystr) : result bytes :=
  encode_utf8
    (dumps_with (lit ",") (lit ":") true
       (intent_data from_addr to_addr gross_amount fee_in_asset intent_id)).

(** The calls of the relay script that come before the system invocation,
    as the specification words them: the six arguments, the call flags,
    then a count equal to the number of arguments pushed (six). *)
Definition spec_relay_calls (intent_bytes : bytes) (burn net : Z)
    (asset to_ from_ contract : bytes) : list Neo3.instr :=
  [Neo3.IPushData intent_bytes; Neo3.IPushInt burn; Neo3.IPushInt net;
   Neo3.IPushData asset; Neo3.IPushData to_; Neo3.IPushData from_;
   Neo3.IPushInt 0; Neo3.IPushInt 6; Neo3.IOp Neo3.PACK;
   Neo3.IPushData (lit "transferWithFeeFromAmount");
   Neo3.IPushData contract].

End SpecWords.

(** ** A test bench: the values of tests/test_gasless_relay.py with stubbed
    collaborators *)

Module Bench.
Import Py PyDecimal Neo3 GaslessRelay.

Definition from_addr : pystr := lit "0xAb4b3c4d5e6f7a8b9c0d1e2f3a4b5c6d7e8f9a0b".
Definition from_addr_lower : pystr :=
  lit "0xab4b3c4d5e6f7a8b9c0d1e2f3a4b5c6d7e8f9a0b".
Definition from_addr_bare : pystr :=
  lit "ab4b3c4d5e6f7a8b9c0d1e2f3a4b5c6d7e8f9a0b".
Definition to_addr : pystr := lit "0x1234567890123456789012345678901234567890".
Definition asset_hash : pystr :=
  lit "0xef4073a0f2b305a3d2a8c4e8b6d5c736c7c7c7c7".
Definition intent_id : pystr := lit "uuid-123".
Definition user_signature : pystr := lit "a1b2c3d4e5f6".

Definition bench_config : NeoNetworkConfig :=
  {| rpc_url := lit "https://testnet-rpc.neo.org";
     flamingo_api := lit "https://api.flamingo.finance";
     relay_contract_hash := lit "0x1a2b3c4d5e6f7a8b9c0d1e2f3a4b5c6d7e8f9a0b";
     agent_wallet_wif := lit "L4nZC5YBZ4PzU1JHb4YSDH25UyL8n8826hN297w2L7J8K9L9M9N9";
     min_agent_gas_balance := Fin 1 (-3);       (* Decimal("0.001") *)
     slippage_bps := 50 |}.

Definition bench_tool : GaslessRelayTool :=
  {| config := bench_config;
     agent_acct := {| address := lit "NAgentAddress";
                      script_hash := mkUInt160 (repeat 1 20) |} |}.

(** Collaborators that all answer: the price feed quotes [price], the
    signature library recovers the bench sender, the agent holds
    [balance_raw] units of the fee token. *)
Definition bench_world (price : price_reply) (balance_raw : bytes) : World :=
  {| price_feed := fun _ => price;
     recover_signer := fun _ _ => Ok from_addr;
     balance_of := fun _ => Ok balance_raw;
     swap := fun _ _ => Ok tt;
     sign_tx := fun tx => tx;
     send_raw_transaction := fun _ => Ok (lit "0xdeadbeef") |}.

(** 0.001 and 0.0005 of the fee token, as the eight-byte state. *)
Definition balance_at_minimum : bytes := [160; 134; 1; 0; 0; 0; 0; 0].
Definition balance_below_minimum : bytes := [80; 195; 0; 0; 0; 0; 0; 0].

Definition price_42_7 : price_reply := PriceData (Some (Fin 427 (-1))).
Definition price_minus_42_7 : price_reply := PriceData (Some (Fin (-427) (-1))).

Definition world_ok : World := bench_world price_42_7 balance_at_minimum.
Definition world_no_price : World :=
  bench_world PriceFetchRaises balance_at_minimum.
Definition world_negative_price : World :=
  bench_world price_minus_42_7 balance_at_minimum.

(** The agent holds less of the fee token than the configured minimum. *)
Definition world_low_balance : World :=
  bench_world price_42_7 balance_below_minimum.

(** The signature library recovers another address than the sender. *)
Definition world_other_signer : World :=
  {| price_feed := fun _ => price_42_7;
     recover_signer := fun _ _ => Ok to_addr;
     balance_of := fun _ => Ok balance_at_minimum;
     swap := fun _ _ => Ok tt;
     sign_tx := fun tx => tx;
     send_raw_transaction := fun _ => Ok (lit "0xdeadbeef") |}.

(** The agent is below the minimum and the swap endpoint refuses. *)
Definition world_swap_fails : World :=
  {| price_feed := fun _ => price_42_7;
     recover_signer := fun _ _ => Ok from_addr;
     balance_of := fun _ => Ok balance_below_minimum;
     swap := fun _ _ => Err (ExternalError "swap: 503");
     sign_tx := fun tx => tx;
     send_raw_transaction := fun _ => Ok (lit "0xdeadbeef") |}.

(** The RPC node does not answer the balance query. *)
Definition world_rpc_down : World :=
  {| price_feed := fun _ => price_42_7;
     recover_signer := fun _ _ => Ok from_addr;
     balance_of := fun _ => Err (ExternalError "rpc: timeout");
     swap := fun _ _ => Ok tt;
     sign_tx := fun tx => tx;
     send_raw_transaction := fun _ => Ok (lit "0xdeadbeef") |}.

(** A tool built on [NeoNetworkConfig()] as config.py declares it. *)
Definition default_tool : GaslessRelayTool :=
  {| config := Config.default_config;
     agent_acct := {| address := lit "NAgentAddress";
                      script_hash := mkUInt160 (repeat 1 20) |} |}.

(** What [estimate_gas_cost("NEO", 0.00012)] quotes at the price 42.7. *)
Definition bench_quote : FeeQuote :=
  {| q_fee_in_asset := 282; q_asset_decimals := 8; q_burn_amount := 282;
     q_intent_id := None; q_source := lit "flamingo_oracle" |}.

Definition bench_request (gross fee : Z) : Request :=
  {| req_from := from_addr; req_to := to_addr; req_asset := asset_hash;
     req_gross := gross; req_fee := fee;
     req_signature := user_signature; req_intent_id := intent_id |}.

(** The builder of the call
    [_build_relay_script(..., gross - fee, fee, ...)] on the bench, as the
    call of [emit_syscall] finds it. *)
Definition bench_builder (gross fee : Z) : ScriptBuilder :=
  match relay_script_builder bench_tool from_addr to_addr asset_hash
          (gross - fee) fee intent_id with
  | Ok sb => sb
  | Err _ => new_builder
  end.

(** The payload the bench call signs. *)
Definition bench_payload (gross fee : Z) : bytes :=
  match intent_payload from_addr to_addr gross fee intent_id with
  | Ok p => p
  | Err _ => []
  end.

Definition bench_execute (w : World) (gross fee : Z) : M TransferResult :=
  execute_gasless_transfer bench_tool w from_addr to_addr asset_hash
    gross fee user_signature intent_id.

End Bench.

Import Py PyDecimal Neo3 GaslessRelay.

(** * Properties *)

(** ** The trace monad *)

Lemma trace_bind {A B} (m : M A) (f : A -> M B) :
  trace (bind m f) =
  trace m ++ match outcome m with
             | Ok a => trace (f a)
             | Err _ => []
             end.
Proof.
  destruct m as [t [a | e]]; unfold bind, trace, outcome; simpl.
  - destruct (f a); reflexivity.
  - now rewrite app_nil_r.
Qed.

Lemma outcome_bind {A B} (m : M A) (f : A -> M B) :
  outcome (bind m f) =
  match outcome m with
  | Ok a => outcome (f a)
  | Err e => Err e
  end.
Proof.
  destruct m as [t [a | e]]; unfold bind, outcome; simpl; [| reflexivity].
  destruct (f a); reflexivity.
Qed.

Lemma trace_lift {A} (r : result A) : trace (lift r) = [].
Proof. reflexivity. Qed.

Lemma outcome_lift {A} (r : result A) : outcome (lift r) = r.
Proof. reflexivity. Qed.

Lemma bind_lift_ok {A B} (a : A) (f : A -> M B) : bind (lift (Ok a)) f = f a.
Proof. unfold bind, lift. destruct (f a); reflexivity. Qed.

Lemma bind_lift_err {A B} (e : exn) (f : A -> M B) :
  bind (lift (Err e)) f = ([], Err e).
Proof. reflexivity. Qed.

Lemma bind_emit_event {B} (ev : event) (f : unit -> M B) :
  bind (emit_event ev) f = (ev :: trace (f tt), outcome (f tt)).
Proof. unfold bind, emit_event. destruct (f tt); reflexivity. Qed.

Lemma str_eqb_refl (s : pystr) : str_eqb s s = true.
Proof.
  induction s as [| c s IH]; simpl; [reflexivity |].
  now rewrite Z.eqb_refl, IH.
Qed.

Lemma str_eqb_eq (a b : pystr) : str_eqb a b = true <-> a = b.
Proof.
  split; [| intros ->; apply str_eqb_refl].
  revert b; induction a as [| x a IH]; destruct b as [| y b]; simpl;
    try discriminate; [reflexivity |].
  intros H. apply andb_true_iff in H as [Hx Hr].
  apply Z.eqb_eq in Hx. subst. f_equal. now apply IH.
Qed.

(** ** The witness builder *)

(** The name [intent_id] is bound neither in the function nor in the
    module. *)
Lemma intent_id_unbound :
  lookup "intent_id" module_globals = None.
Proof. reflexivity. Qed.

(** C4: [_build_custom_witness] takes [user_addr] and [contract_hash_str]
    only and reads the unbound name [intent_id] in its first builder call:
    for every input it raises [NameError] and returns no witness. *)
Theorem build_custom_witness_raises_name_error :
  forall user_addr contract_hash_str,
    _build_custom_witness user_addr contract_hash_str
    = Err (NameError "intent_id").
Proof. intros. reflexivity. Qed.

(** No statement of the body touches [invocation_script_builder]. *)
Lemma eval_keeps_invocation {A} (r : result A) (b : WitnessBuilders) :
  invocation_script_builder (fst (eval r b)) = invocation_script_builder b.
Proof. reflexivity. Qed.

Lemma on_verification_keeps_invocation
    (method : ScriptBuilder -> result ScriptBuilder) (b : WitnessBuilders) :
  invocation_script_builder (fst (on_verification_script_builder method b))
  = invocation_script_builder b.
Proof.
  unfold on_verification_script_builder.
  destruct (method (verification_script_builder b)); reflexivity.
Qed.

Lemma sbind_keeps_invocation {A B} (m : Stmt A) (f : A -> Stmt B) :
  (forall b, invocation_script_builder (fst (m b))
             = invocation_script_builder b) ->
  (forall a b, invocation_script_builder (fst (f a b))
               = invocation_script_builder b) ->
  forall b, invocation_script_builder (fst (sbind m f b))
            = invocation_script_builder b.
Proof.
  intros Hm Hf b. unfold sbind. specialize (Hm b).
  destruct (m b) as [b' [a | e]]; cbn [fst] in *.
  - now rewrite Hf.
  - exact Hm.
Qed.

(** A witness that comes back was made by the last statement, from the
    builders as they were then. *)
Lemma sbind_returns_invocation {A} (m : Stmt A) (f : A -> Stmt Witness) :
  (forall a b b' wit,
      f a b = (b', Ok wit) ->
      invocation_script wit = to_array (invocation_script_builder b')) ->
  forall b b' wit,
    sbind m f b = (b', Ok wit) ->
    invocation_script wit = to_array (invocation_script_builder b').
Proof.
  intros Hf b b' wit. unfold sbind.
  destruct (m b) as [b1 [a | e]]; [apply Hf | discriminate].
Qed.

Lemma new_witness_returns_invocation (b b' : WitnessBuilders) (wit : Witness) :
  new_witness b = (b', Ok wit) ->
  invocation_script wit = to_array (invocation_script_builder b').
Proof.
  unfold new_witness. intros H. injection H as <- <-. reflexivity.
Qed.

Ltac body_statements :=
  repeat first
    [ apply eval_keeps_invocation
    | apply on_verification_keeps_invocation
    | apply sbind_keeps_invocation; intros
    | reflexivity ].


(** With [intent_id] bound to a string at module level the call gets as
    far as [emit_syscall], which is handed the name of the service, and
    stops there; the invocation builder is as empty as before. *)
Example witness_body_with_intent_id_bound :
  _build_custom_witness_run
    (("intent_id"%string, PStr Bench.intent_id) :: module_globals)
    Bench.from_addr (relay_contract_hash Bench.bench_config)
  = ({| builder := new_builder;
        invocation_script_builder := new_builder;
        verification_script_builder :=
          verification_script_builder
            (fst (_build_custom_witness_run
                    (("intent_id"%string, PStr Bench.intent_id)
                     :: module_globals)
                    Bench.from_addr (relay_contract_hash Bench.bench_config)))
     |},
     Err (AttributeError "to_bytes")) /\
  emitted
    (verification_script_builder
       (fst (_build_custom_witness_run
               (("intent_id"%string, PStr Bench.intent_id) :: module_globals)
               Bench.from_addr (relay_contract_hash Bench.bench_config))))
  = [IPushData Bench.intent_id; IOp DUP; IPushData Bench.from_addr;
     IPushData (lit "verify");
     IPushData (relay_contract_hash Bench.bench_config);
     IPushInt 0; IPushInt 3; IOp PACK].
Proof. split; vm_compute; reflexivity. Qed.

(** ** Decimal comparison and the value it compares *)

Lemma value_scaled (c e k : Z) :
  k <= e ->
  (value c e == inject_Z (c * 10 ^ (e - k)) * Qpower (inject_Z 10) k)%Q.
Proof.
  intros Hk. unfold value.
  rewrite inject_Z_mult, Zpower_Qpower by lia.
  rewrite <- Qmult_assoc, <- Qpower_plus by discriminate.
  replace (e - k + k) with e by lia. reflexivity.
Qed.

(** [lt] on finite decimals compares the rationals they denote. *)
Lemma lt_fin_value (c1 e1 c2 e2 : Z) :
  lt (Fin c1 e1) (Fin c2 e2) = Ok true <-> (value c1 e1 < value c2 e2)%Q.
Proof.
  unfold lt. set (k := Z.min e1 e2).
  rewrite (value_scaled c1 e1 k), (value_scaled c2 e2 k) by (subst k; lia).
  rewrite Qmult_lt_r by (apply Qpower_0_lt; reflexivity).
  rewrite <- Zlt_Qlt. split.
  - intros H. injection H as H. now apply Z.ltb_lt.
  - intros H. apply Z.ltb_lt in H. now rewrite H.
Qed.

Lemma fix_finite (c e : Z) (d : Decimal) :
  fix_ c e = Ok d -> exists c' e', d = Fin c' e'.
Proof.
  unfold fix_. intros H.
  repeat match type of H with
         | context [if ?b then _ else _] => destruct b
         | context [let '(_, _) := ?p in _] => destruct p
         end;
    try discriminate; injection H as <-; eauto.
Qed.

Lemma div_fin_finite (c1 e1 c2 e2 : Z) (d : Decimal) :
  div (Fin c1 e1) (Fin c2 e2) = Ok d -> exists c' e', d = Fin c' e'.
Proof.
  unfold div. intros H.
  destruct (c2 =? 0); [destruct (c1 =? 0); discriminate |].
  destruct (c1 =? 0); [now apply fix_finite in H |].
  match type of H with
  | context [let '(_, _) := ?p in _] => destruct p
  end.
  now apply fix_finite in H.
Qed.

(** ** The agent gas guard *)

(** The balance query is always made, and it always yields a finite
    balance: a failed query or conversion counts as a balance of zero. *)
Lemma get_gas_balance_finite (w : World) (h : UInt160) :
  exists c e, _get_gas_balance w h = ([BalanceQueried h], Ok (Fin c e)).
Proof.
  unfold _get_gas_balance.
  destruct (balance_of w h) as [state | err];
    cbv beta iota delta [bind emit_event lift try_except of_int app].
  - destruct (div (Fin (int_from_bytes_little state) 0) (Fin (10 ^ 8) 0))
      as [d | err] eqn:Hd.
    + apply div_fin_finite in Hd as (c & e & ->). eauto.
    + eauto.
  - eauto.
Qed.

Lemma swap_flm_to_gas_run (self : GaslessRelayTool) (w : World) :
  _swap_flm_to_gas self w (Fin 1 (-2)) =
  ([SwapRequested (lit "100000000") (address (agent_acct self))],
   swap w (lit "100000000") (address (agent_acct self))).
Proof.
  unfold _swap_flm_to_gas.
  replace (t <-? mul (Fin 1 (-2)) (of_int 100) ;;
           t0 <-? mul t (of_int (10 ^ 8)) ;; to_int t0)
    with (Ok 100000000 : result Z) by (vm_compute; reflexivity).
  cbv beta iota delta [bind emit_event lift app].
  destruct (swap w _ _); reflexivity.
Qed.

(** The three ways [_ensure_agent_has_gas] can run. *)
Lemma ensure_agent_has_gas_run (self : GaslessRelayTool) (w : World) :
  let h := script_hash (agent_acct self) in
  exists c e,
    _get_gas_balance w h = ([BalanceQueried h], Ok (Fin c e)) /\
    _ensure_agent_has_gas self w =
    match lt (Fin c e) (min_agent_gas_balance (config self)) with
    | Ok true =>
        ([BalanceQueried h;
          SwapRequested (lit "100000000") (address (agent_acct self))],
         swap w (lit "100000000") (address (agent_acct self)))
    | Ok false => ([BalanceQueried h], Ok tt)
    | Err err => ([BalanceQueried h], Err err)
    end.
Proof.
  intros h. destruct (get_gas_balance_finite w h) as (c & e & Hb).
  exists c, e. split; [exact Hb |].
  unfold _ensure_agent_has_gas. fold h. rewrite Hb.
  unfold bind at 1. unfold lift at 1.
  destruct (lt (Fin c e) (min_agent_gas_balance (config self)))
    as [[|] | err]; [rewrite swap_flm_to_gas_run | |]; reflexivity.
Qed.

(** C8: with a finite configured minimum, [_ensure_agent_has_gas] asks for
    a swap exactly when the queried balance denotes a number strictly below
    the minimum; a balance equal to the minimum triggers no swap. *)
Theorem ensure_agent_has_gas_swaps_iff_below :
  forall self w mc me,
    min_agent_gas_balance (config self) = Fin mc me ->
    exists bc be,
      outcome (_get_gas_balance w (script_hash (agent_acct self)))
      = Ok (Fin bc be) /\
      ((exists amount recipient,
           In (SwapRequested amount recipient)
              (trace (_ensure_agent_has_gas self w)))
       <-> (value bc be < value mc me)%Q) /\
      ((value bc be == value mc me)%Q ->
       forall amount recipient,
         ~ In (SwapRequested amount recipient)
              (trace (_ensure_agent_has_gas self w))).
Proof.
  intros self w mc me Hmin.
  destruct (ensure_agent_has_gas_run self w) as (bc & be & Hb & Hrun).
  exists bc, be. rewrite Hb. split; [reflexivity |].
  rewrite Hmin in Hrun.
  assert (Hiff : (exists amount recipient,
                     In (SwapRequested amount recipient)
                        (trace (_ensure_agent_has_gas self w)))
                 <-> (value bc be < value mc me)%Q).
  { rewrite <- lt_fin_value. rewrite Hrun.
    destruct (lt (Fin bc be) (Fin mc me)) as [[|] | err] eqn:Hlt; simpl.
    - split; [reflexivity |]. intros _. do 2 eexists. right. left. reflexivity.
    - split; [| discriminate].
      intros (a & r & [H | []]). discriminate.
    - discriminate. }
  split; [exact Hiff |].
  intros Heq amount recipient Hin.
  assert (Hlt : (value bc be < value mc me)%Q) by (apply Hiff; eauto).
  rewrite Heq in Hlt. exact (Qlt_irrefl _ Hlt).
Qed.

(** C8, on the values of the unit tests: 0.001 held against a minimum of
    0.001 requests no swap. *)
Lemma ensure_agent_has_gas_swaps_iff_below_witness :
  min_agent_gas_balance (config Bench.bench_tool) = Fin 1 (-3) /\
  exists bc be,
    outcome (_get_gas_balance Bench.world_ok
               (script_hash (agent_acct Bench.bench_tool)))
    = Ok (Fin bc be) /\
    ((exists amount recipient,
         In (SwapRequested amount recipient)
            (trace (_ensure_agent_has_gas Bench.bench_tool Bench.world_ok)))
     <-> (value bc be < value 1 (-3))%Q) /\
    ((value bc be == value 1 (-3))%Q ->
     forall amount recipient,
       ~ In (SwapRequested amount recipient)
            (trace (_ensure_agent_has_gas Bench.bench_tool Bench.world_ok))).
Proof.
  split; [reflexivity |].
  apply (ensure_agent_has_gas_swaps_iff_below Bench.bench_tool Bench.world_ok
           1 (-3)).
  reflexivity.
Defined.

(** ** The signed payload *)

Lemma encode_utf8_ascii (s : pystr) : is_ascii s -> encode_utf8 s = Ok s.
Proof.
  induction 1 as [| c s Hc _ IH]; simpl; [reflexivity |].
  rewrite IH. unfold utf8_char.
  destruct (Z.ltb_spec c 128); [reflexivity | lia].
Qed.

Lemma is_ascii_app (a b : pystr) : is_ascii a -> is_ascii b -> is_ascii (a ++ b).
Proof. intros Ha Hb. apply Forall_app. now split. Qed.

Lemma is_ascii_check (s : pystr) :
  forallb (fun c => (0 <=? c) && (c <? 128)) s = true -> is_ascii s.
Proof.
  intros H. apply Forall_forall. intros c Hc.
  rewrite forallb_forall in H. specialize (H c Hc). lia.
Qed.

Lemma hex_digit_ascii (d : Z) : 0 <= d < 16 -> 0 <= hex_digit d < 128.
Proof. intros Hd. unfold hex_digit. destruct (d <? 10); lia. Qed.

Lemma u_escape_ascii (n : Z) : is_ascii (u_escape n).
Proof.
  unfold u_escape.
  repeat constructor; try lia;
    apply hex_digit_ascii; apply Z.mod_pos_bound; lia.
Qed.

Lemma escape_char_ascii (c : Z) : is_ascii (escape_char c).
Proof.
  unfold escape_char.
  repeat match goal with
         | |- context [if ?b then _ else _] => destruct b eqn:?
         end;
    try (repeat constructor; lia);
    try apply u_escape_ascii;
    try (apply is_ascii_app; apply u_escape_ascii).
Qed.

Lemma encode_basestring_ascii_ascii (s : pystr) :
  is_ascii (encode_basestring_ascii s).
Proof.
  unfold encode_basestring_ascii.
  apply is_ascii_app; [repeat constructor; lia |].
  apply is_ascii_app; [| repeat constructor; lia].
  induction s as [| c s IH]; simpl; [constructor |].
  apply is_ascii_app; [apply escape_char_ascii | exact IH].
Qed.

Lemma digits_of_ascii (fuel : nat) :
  forall n acc, 0 <= n -> is_ascii acc -> is_ascii (digits_of fuel n acc).
Proof.
  induction fuel as [| f IH]; intros n acc Hn Hacc; simpl; [exact Hacc |].
  destruct (Z.ltb_spec n 10).
  - constructor; [unfold digit_char; lia | exact Hacc].
  - apply IH; [apply Z.div_pos; lia |].
    constructor; [| exact Hacc].
    unfold digit_char. pose proof (Z.mod_pos_bound n 10). lia.
Qed.

Lemma str_of_int_ascii (n : Z) : is_ascii (str_of_int n).
Proof.
  unfold str_of_int, str_of_nonneg.
  destruct (Z.ltb_spec n 0).
  - constructor; [lia |]. apply digits_of_ascii; [lia | constructor].
  - apply digits_of_ascii; [lia | constructor].
Qed.

Lemma sorted_intent_items (from_addr to_addr : pystr) (gross fee : Z)
    (intent_id : pystr) :
  sorted_items (intent_data from_addr to_addr gross fee intent_id) =
  [(lit "fee_in_asset", JInt fee);
   (lit "from", JStr from_addr);
   (lit "gross_amount", JInt gross);
   (lit "intent_id", JStr intent_id);
   (lit "to", JStr to_addr)].
Proof. reflexivity. Qed.

(** The text [json.dumps(intent_data, sort_keys=True)] produces. *)
Lemma intent_json_text (from_addr to_addr : pystr) (gross fee : Z)
    (intent_id : pystr) :
  dumps true (intent_data from_addr to_addr gross fee intent_id) =
  lit "{" ++
  dq ++ lit "fee_in_asset" ++ dq ++ lit ": " ++ str_of_int fee ++ lit ", " ++
  dq ++ lit "from" ++ dq ++ lit ": "
     ++ encode_basestring_ascii from_addr ++ lit ", " ++
  dq ++ lit "gross_amount" ++ dq ++ lit ": " ++ str_of_int gross ++ lit ", " ++
  dq ++ lit "intent_id" ++ dq ++ lit ": "
     ++ encode_basestring_ascii intent_id ++ lit ", " ++
  dq ++ lit "to" ++ dq ++ lit ": " ++ encode_basestring_ascii to_addr ++
  lit "}".
Proof.
  unfold dumps, dumps_with. rewrite sorted_intent_items.
  cbn [map join fst snd encode_value].
  unfold default_item_separator, default_key_separator.
  change (encode_basestring_ascii (lit "fee_in_asset"))
    with (dq ++ lit "fee_in_asset" ++ dq).
  change (encode_basestring_ascii (lit "from")) with (dq ++ lit "from" ++ dq).
  change (encode_basestring_ascii (lit "gross_amount"))
    with (dq ++ lit "gross_amount" ++ dq).
  change (encode_basestring_ascii (lit "intent_id"))
    with (dq ++ lit "intent_id" ++ dq).
  change (encode_basestring_ascii (lit "to")) with (dq ++ lit "to" ++ dq).
  change [123] with (lit "{"). change [125] with (lit "}").
  repeat rewrite <- app_assoc. reflexivity.
Qed.

Ltac ascii_parts :=
  repeat first
    [ apply encode_basestring_ascii_ascii
    | apply str_of_int_ascii
    | apply is_ascii_check; reflexivity
    | apply is_ascii_app ].

(** C3: the bytes handed to the signature check are the JSON object with
    the five keys fee_in_asset, from, gross_amount, intent_id, to in this
    (sorted) order, written with the default separators of [json.dumps]:
    a comma and a space between items, a colon and a space after each
    key. *)
Theorem intent_payload_sorted_default_separators :
  forall self w from_addr to_addr asset_hash gross fee sig intent_id,
    let payload :=
      lit "{" ++
      dq ++ lit "fee_in_asset" ++ dq ++ lit ": " ++ str_of_int fee
         ++ lit ", " ++
      dq ++ lit "from" ++ dq ++ lit ": "
         ++ encode_basestring_ascii from_addr ++ lit ", " ++
      dq ++ lit "gross_amount" ++ dq ++ lit ": " ++ str_of_int gross
         ++ lit ", " ++
      dq ++ lit "intent_id" ++ dq ++ lit ": "
         ++ encode_basestring_ascii intent_id ++ lit ", " ++
      dq ++ lit "to" ++ dq ++ lit ": " ++ encode_basestring_ascii to_addr ++
      lit "}" in
    intent_payload from_addr to_addr gross fee intent_id = Ok payload /\
    exists rest,
      trace (execute_gasless_transfer self w from_addr to_addr asset_hash
               gross fee sig intent_id)
      = SignatureChecked payload sig :: rest.
Proof.
  intros self w from_addr to_addr asset_hash gross fee sig intent_id payload.
  assert (Hp : intent_payload from_addr to_addr gross fee intent_id
               = Ok payload).
  { subst payload. unfold intent_payload. rewrite intent_json_text.
    apply encode_utf8_ascii. ascii_parts. }
  split; [exact Hp |].
  unfold execute_gasless_transfer. rewrite Hp.
  rewrite bind_lift_ok, bind_emit_event. simpl trace. eauto.
Qed.

Lemma in_check (x : Z) (l : list Z) : existsb (Z.eqb x) l = true -> In x l.
Proof.
  intros H. apply existsb_exists in H as (y & Hy & Hxy).
  apply Z.eqb_eq in Hxy. now subst.
Qed.

Lemma not_in_check (x : Z) (l : list Z) :
  existsb (Z.eqb x) l = false -> ~ In x l.
Proof.
  intros H Hin. apply Bool.not_true_iff_false in H. apply H.
  apply existsb_exists. exists x. split; [exact Hin | apply Z.eqb_refl].
Qed.

(** C3, as worded (no whitespace between the tokens), fails on the values
    of the unit tests: the signed payload differs from the compact form and
    holds space characters although no field value does. *)
Lemma intent_payload_not_compact :
  exists signed compact,
    intent_payload Bench.from_addr Bench.to_addr 400000000 341 Bench.intent_id
    = Ok signed /\
    SpecWords.spec_canonical_payload Bench.from_addr Bench.to_addr
      400000000 341 Bench.intent_id = Ok compact /\
    signed <> compact /\
    In 32 signed /\ ~ In 32 compact /\
    ~ In 32 (Bench.from_addr ++ Bench.to_addr ++ Bench.intent_id).
Proof.
  eexists. eexists.
  split; [vm_compute; reflexivity |].
  split; [vm_compute; reflexivity |].
  split; [discriminate |].
  split; [apply in_check; vm_compute; reflexivity |].
  split; apply not_in_check; vm_compute; reflexivity.
Qed.

(** ** execute_gasless_transfer, step by step *)

Lemma intent_payload_ok (from_addr to_addr : pystr) (gross fee : Z)
    (intent_id : pystr) :
  exists payload,
    intent_payload from_addr to_addr gross fee intent_id = Ok payload.
Proof.
  unfold intent_payload. rewrite intent_json_text.
  eexists. apply encode_utf8_ascii. ascii_parts.
Qed.

Lemma bind_run {A B} (m : M A) (f : A -> M B) :
  bind m f =
  match outcome m with
  | Ok a => (trace m ++ trace (f a), outcome (f a))
  | Err e => (trace m, Err e)
  end.
Proof.
  destruct m as [t [a | e]]; unfold bind, trace, outcome; simpl;
    [destruct (f a) |]; reflexivity.
Qed.

(** [emit_syscall] is handed the name of the service, a [str]: whatever
    the builder holds by then, the call raises [AttributeError]. *)
Lemma emit_syscall_name_raises (name : string) (sb : ScriptBuilder) :
  emit_syscall (SyscallName name) sb = Err (AttributeError "to_bytes").
Proof. reflexivity. Qed.

(** No call of [_build_relay_script] returns: it raises while it parses and
    pushes its arguments, or else at [emit_syscall]. *)
Lemma build_relay_script_run (self : GaslessRelayTool)
    (from_addr to_addr asset_hash : pystr) (net burn : Z) (intent_id : pystr) :
  _build_relay_script self from_addr to_addr asset_hash net burn intent_id =
  match relay_script_builder self from_addr to_addr asset_hash net burn
          intent_id with
  | Ok _ => Err (AttributeError "to_bytes")
  | Err e => Err e
  end.
Proof.
  unfold _build_relay_script.
  destruct (relay_script_builder self from_addr to_addr asset_hash net burn
              intent_id); reflexivity.
Qed.

Lemma build_relay_script_raises (self : GaslessRelayTool)
    (from_addr to_addr asset_hash : pystr) (net burn : Z) (intent_id : pystr) :
  exists err,
    _build_relay_script self from_addr to_addr asset_hash net burn intent_id
    = Err err.
Proof.
  rewrite build_relay_script_run.
  destruct (relay_script_builder self from_addr to_addr asset_hash net burn
              intent_id); eauto.
Qed.

(** Every path through [execute_gasless_transfer].  The amounts are not
    looked at on any of them. *)
Lemma execute_run (self : GaslessRelayTool) (w : World)
    (from_addr to_addr asset_hash : pystr) (gross fee : Z)
    (sig intent_id : pystr) (payload : bytes) :
  intent_payload from_addr to_addr gross fee intent_id = Ok payload ->
  execute_gasless_transfer self w from_addr to_addr asset_hash gross fee
    sig intent_id =
  match recover_signer w payload sig with
  | Err e => ([SignatureChecked payload sig], Err e)
  | Ok user_address =>
      if negb (str_eqb user_address from_addr)
      then ([SignatureChecked payload sig],
            Err (ValueError "Invalid user signature for intent"))
      else
        let funded := _ensure_agent_has_gas self w in
        match outcome funded with
        | Err e => (SignatureChecked payload sig :: trace funded, Err e)
        | Ok _ =>
            match _build_relay_script self from_addr to_addr asset_hash
                    (gross - fee) fee intent_id with
            | Err e => (SignatureChecked payload sig :: trace funded, Err e)
            | Ok s =>
                (SignatureChecked payload sig :: trace funded ++
                 [ScriptBuilt s;
                  TransactionAssembled
                    {| version := 0; nonce := 12345; system_fee := 120000;
                       network_fee := 100000; valid_until_block := 999999;
                       attributes := []; script := s; witnesses := [] |}],
                 Err (NameError "intent_id"))
            end
        end
  end.
Proof.
  intros Hp. unfold execute_gasless_transfer. rewrite Hp.
  rewrite bind_lift_ok, bind_emit_event.
  destruct (recover_signer w payload sig) as [user_address | e];
    [rewrite bind_lift_ok | reflexivity].
  destruct (negb (str_eqb user_address from_addr)); [reflexivity |].
  rewrite bind_run. cbv zeta.
  destruct (outcome (_ensure_agent_has_gas self w)) as [[] | e];
    [| reflexivity].
  destruct (_build_relay_script self from_addr to_addr asset_hash
              (gross - fee) fee intent_id) as [s | e];
    [rewrite bind_lift_ok | rewrite bind_lift_err; simpl; now rewrite app_nil_r].
  rewrite bind_emit_event, bind_emit_event.
  replace (_build_custom_witness from_addr (relay_contract_hash (config self)))
    with (@Err Witness (NameError "intent_id")) by reflexivity.
  reflexivity.
Qed.

Lemma ensure_agent_has_gas_events (self : GaslessRelayTool) (w : World)
    (ev : event) :
  In ev (trace (_ensure_agent_has_gas self w)) ->
  ev = BalanceQueried (script_hash (agent_acct self)) \/
  exists amount recipient, ev = SwapRequested amount recipient.
Proof.
  destruct (ensure_agent_has_gas_run self w) as (c & e & _ & ->).
  destruct (lt (Fin c e) (min_agent_gas_balance (config self)))
    as [[|] | err]; simpl; intuition eauto.
Qed.

Lemma ensure_agent_has_gas_queries (self : GaslessRelayTool) (w : World) :
  In (BalanceQueried (script_hash (agent_acct self)))
     (trace (_ensure_agent_has_gas self w)).
Proof.
  destruct (ensure_agent_has_gas_run self w) as (c & e & _ & ->).
  destruct (lt (Fin c e) (min_agent_gas_balance (config self)))
    as [[|] | err]; simpl; auto.
Qed.

(** A call whose signature verifies: the signature check, the funding
    step, and then the exception of the funding step or of
    [_build_relay_script]. *)
Lemma execute_verified_run (self : GaslessRelayTool) (w : World)
    (from_addr to_addr asset_hash : pystr) (gross fee : Z)
    (sig intent_id : pystr) (payload : bytes) :
  intent_payload from_addr to_addr gross fee intent_id = Ok payload ->
  recover_signer w payload sig = Ok from_addr ->
  execute_gasless_transfer self w from_addr to_addr asset_hash gross fee
    sig intent_id =
  (SignatureChecked payload sig :: trace (_ensure_agent_has_gas self w),
   match outcome (_ensure_agent_has_gas self w) with
   | Err e => Err e
   | Ok _ =>
       match _build_relay_script self from_addr to_addr asset_hash
               (gross - fee) fee intent_id with
       | Err e => Err e
       | Ok _ => Err (NameError "intent_id")
       end
   end).
Proof.
  intros Hp Hsig.
  rewrite (execute_run _ _ _ _ _ _ _ _ _ _ Hp), Hsig, str_eqb_refl.
  cbn [negb]. cbv zeta.
  destruct (outcome (_ensure_agent_has_gas self w)) as [[] | e];
    [| reflexivity].
  destruct (build_relay_script_raises self from_addr to_addr asset_hash
              (gross - fee) fee intent_id) as [err ->].
  reflexivity.
Qed.

(** The events of a call are the signature check and those of the funding
    step. *)
Lemma execute_events (self : GaslessRelayTool) (w : World)
    (from_addr to_addr asset_hash : pystr) (gross fee : Z)
    (sig intent_id : pystr) (ev : event) :
  In ev (trace (execute_gasless_transfer self w from_addr to_addr asset_hash
                  gross fee sig intent_id)) ->
  (exists payload, ev = SignatureChecked payload sig) \/
  ev = BalanceQueried (script_hash (agent_acct self)) \/
  exists amount recipient, ev = SwapRequested amount recipient.
Proof.
  destruct (intent_payload_ok from_addr to_addr gross fee intent_id)
    as [payload Hp].
  rewrite (execute_run _ _ _ _ _ _ _ _ _ _ Hp).
  destruct (build_relay_script_raises self from_addr to_addr asset_hash
              (gross - fee) fee intent_id) as [err ->].
  destruct (recover_signer w payload sig) as [ua | e];
    [destruct (negb (str_eqb ua from_addr)) |]; cbv zeta;
    [| destruct (outcome (_ensure_agent_has_gas self w)) as [[] | e] |];
    cbn [trace fst]; intros [<- | Hin]; eauto; try contradiction;
    right; exact (ensure_agent_has_gas_events _ _ _ Hin).
Qed.

(** ** No transaction is assembled *)

(** C9: the constructor call of lines 125-134 is never reached.  For an
    accepted request (the signature verifies and the agent is funded) the
    call stops in [_build_relay_script], with the exception raised there,
    after the signature check and the funding step; no transaction is
    assembled, for this or for any other request. *)
Theorem accepted_request_assembles_no_transaction :
  forall self w from_addr to_addr asset_hash gross fee sig intent_id payload,
    intent_payload from_addr to_addr gross fee intent_id = Ok payload ->
    recover_signer w payload sig = Ok from_addr ->
    outcome (_ensure_agent_has_gas self w) = Ok tt ->
    (exists err,
        _build_relay_script self from_addr to_addr asset_hash (gross - fee)
          fee intent_id = Err err /\
        execute_gasless_transfer self w from_addr to_addr asset_hash gross
          fee sig intent_id
        = (SignatureChecked payload sig
           :: trace (_ensure_agent_has_gas self w), Err err)) /\
    (forall tx,
        ~ In (TransactionAssembled tx)
             (trace (execute_gasless_transfer self w from_addr to_addr
                       asset_hash gross fee sig intent_id))).
Proof.
  intros self w from_addr to_addr asset_hash gross fee sig intent_id payload
    Hp Hsig Hfund.
  split.
  - destruct (build_relay_script_raises self from_addr to_addr asset_hash
                (gross - fee) fee intent_id) as [err Herr].
    exists err. split; [exact Herr |].
    rewrite (execute_verified_run _ _ _ _ _ _ _ _ _ _ Hp Hsig), Hfund, Herr.
    reflexivity.
  - intros tx Hin. apply execute_events in Hin
      as [[p H] | [H | (a & r & H)]]; discriminate.
Qed.

(** C9 on the bench: the accepted request of the end-to-end test, gross
    amount 400000000 and fee 341. *)
Lemma accepted_request_assembles_no_transaction_witness :
  intent_payload Bench.from_addr Bench.to_addr 400000000 341 Bench.intent_id
  = Ok (Bench.bench_payload 400000000 341) /\
  recover_signer Bench.world_ok (Bench.bench_payload 400000000 341)
    Bench.user_signature = Ok Bench.from_addr /\
  outcome (_ensure_agent_has_gas Bench.bench_tool Bench.world_ok) = Ok tt /\
  (exists err,
      _build_relay_script Bench.bench_tool Bench.from_addr Bench.to_addr
        Bench.asset_hash (400000000 - 341) 341 Bench.intent_id = Err err /\
      execute_gasless_transfer Bench.bench_tool Bench.world_ok
        Bench.from_addr Bench.to_addr Bench.asset_hash 400000000 341
        Bench.user_signature Bench.intent_id
      = (SignatureChecked (Bench.bench_payload 400000000 341)
           Bench.user_signature
         :: trace (_ensure_agent_has_gas Bench.bench_tool Bench.world_ok),
         Err err)) /\
  (forall tx,
      ~ In (TransactionAssembled tx)
           (trace (execute_gasless_transfer Bench.bench_tool Bench.world_ok
                     Bench.from_addr Bench.to_addr Bench.asset_hash
                     400000000 341 Bench.user_signature Bench.intent_id))).
Proof.
  assert (Hp : intent_payload Bench.from_addr Bench.to_addr 400000000 341
                 Bench.intent_id = Ok (Bench.bench_payload 400000000 341))
    by (vm_compute; reflexivity).
  assert (Hf : outcome (_ensure_agent_has_gas Bench.bench_tool
                          Bench.world_ok) = Ok tt)
    by (vm_compute; reflexivity).
  split; [exact Hp |]. split; [reflexivity |]. split; [exact Hf |].
  exact (accepted_request_assembles_no_transaction Bench.bench_tool
           Bench.world_ok Bench.from_addr Bench.to_addr Bench.asset_hash
           400000000 341 Bench.user_signature Bench.intent_id
           (Bench.bench_payload 400000000 341) Hp eq_refl Hf).
Defined.

(** The accepted request of the end-to-end test, run: the signature is
    checked, the balance queried, and [emit_syscall] raises. *)
Example accepted_request_on_the_bench :
  Bench.bench_execute Bench.world_ok 400000000 341
  = ([SignatureChecked (Bench.bench_payload 400000000 341)
        Bench.user_signature;
      BalanceQueried (script_hash (agent_acct Bench.bench_tool))],
     Err (AttributeError "to_bytes")).
Proof. vm_compute. reflexivity. Qed.

(** ** No net-amount check *)

(** C1 (amended): [execute_gasless_transfer] never looks at the sign of
    [gross_amount - fee_in_asset].  When [fee_in_asset >= gross_amount] and
    the signature verifies, the call is not turned away before the funding
    step: the agent's balance is queried over the network, and a swap is
    requested when the guard asks for one.  No transaction is assembled or
    submitted for such a request. *)
Theorem fee_not_below_gross_still_processed :
  forall self w from_addr to_addr asset_hash gross fee sig intent_id payload,
    fee >= gross ->
    intent_payload from_addr to_addr gross fee intent_id = Ok payload ->
    recover_signer w payload sig = Ok from_addr ->
    let run := execute_gasless_transfer self w from_addr to_addr asset_hash
                 gross fee sig intent_id in
    (exists rest,
        trace run = SignatureChecked payload sig
                    :: trace (_ensure_agent_has_gas self w) ++ rest) /\
    In (BalanceQueried (script_hash (agent_acct self))) (trace run) /\
    (forall tx, ~ In (TransactionAssembled tx) (trace run)) /\
    (forall tx, ~ In (TransactionSubmitted tx) (trace run)).
Proof.
  intros self w from_addr to_addr asset_hash gross fee sig intent_id payload
    Hfee Hp Hsig run.
  assert (Hno : forall ev,
             In ev (trace run) ->
             (forall tx, ev <> TransactionAssembled tx) /\
             (forall tx, ev <> TransactionSubmitted tx)).
  { intros ev Hin. apply execute_events in Hin
      as [[p ->] | [-> | (a & r & ->)]]; split; discriminate. }
  subst run. rewrite (execute_verified_run _ _ _ _ _ _ _ _ _ _ Hp Hsig) in *.
  cbn [trace fst] in *.
  split; [exists []; now rewrite app_nil_r |].
  split; [right; apply ensure_agent_has_gas_queries |].
  split; intros tx Hin; apply Hno in Hin as [H1 H2];
    [exact (H1 tx eq_refl) | exact (H2 tx eq_refl)].
Qed.

(** C1 (amended) on the bench: gross amount 100, fee 341. *)
Lemma fee_not_below_gross_still_processed_witness :
  341 >= 100 /\
  intent_payload Bench.from_addr Bench.to_addr 100 341 Bench.intent_id
  = Ok (Bench.bench_payload 100 341) /\
  recover_signer Bench.world_ok (Bench.bench_payload 100 341)
    Bench.user_signature = Ok Bench.from_addr /\
  (exists rest,
      trace (Bench.bench_execute Bench.world_ok 100 341)
      = SignatureChecked (Bench.bench_payload 100 341) Bench.user_signature
        :: trace (_ensure_agent_has_gas Bench.bench_tool Bench.world_ok)
           ++ rest) /\
  In (BalanceQueried (script_hash (agent_acct Bench.bench_tool)))
     (trace (Bench.bench_execute Bench.world_ok 100 341)) /\
  (forall tx,
      ~ In (TransactionAssembled tx)
           (trace (Bench.bench_execute Bench.world_ok 100 341))) /\
  (forall tx,
      ~ In (TransactionSubmitted tx)
           (trace (Bench.bench_execute Bench.world_ok 100 341))).
Proof.
  assert (Hp : intent_payload Bench.from_addr Bench.to_addr 100 341
                 Bench.intent_id = Ok (Bench.bench_payload 100 341))
    by (vm_compute; reflexivity).
  split; [lia |]. split; [exact Hp |]. split; [reflexivity |].
  apply (fee_not_below_gross_still_processed Bench.bench_tool Bench.world_ok
           Bench.from_addr Bench.to_addr Bench.asset_hash 100 341
           Bench.user_signature Bench.intent_id (Bench.bench_payload 100 341));
    [lia | exact Hp | reflexivity].
Defined.

(** C1, as worded, fails on the bench: with gross amount 100 and fee 341
    the call is not turned away before any network call.  The signature
    is checked and the agent's balance is queried; the exception that ends
    the call afterwards is not about the amounts. *)
Lemma fee_above_gross_not_rejected_early :
  341 >= 100 /\
  Bench.bench_execute Bench.world_ok 100 341
  = ([SignatureChecked (Bench.bench_payload 100 341) Bench.user_signature;
      BalanceQueried (script_hash (agent_acct Bench.bench_tool))],
     Err (AttributeError "to_bytes")).
Proof.
  split; [lia |]. vm_compute. reflexivity.
Qed.

(** ** No record of intent ids *)

Lemma run_calls_independent (self : GaslessRelayTool)
    (calls : list (World * Request)) :
  run_calls self calls = map (fun c => snd (call self (fst c) (snd c))) calls.
Proof.
  induction calls as [| [w rq] rest IH]; simpl; [reflexivity |].
  now rewrite IH.
Qed.

(** C2 (amended): the tool keeps no record of intent ids.  Whatever calls
    were made before on the same instance, among them calls that carried
    the same [intent_id], a call whose signature verifies is not turned
    away as a replay: it passes the signature check and goes through the
    funding step, where the balance is queried, and a swap requested when
    the guard asks for one, once more. *)
Theorem replayed_intent_reaches_funding_again :
  forall self history w rq failed payload,
    intent_payload (req_from rq) (req_to rq) (req_gross rq) (req_fee rq)
      (req_intent_id rq) = Ok payload ->
    recover_signer w payload (req_signature rq) = Ok (req_from rq) ->
    let replayed := last (run_calls self (history ++ [(w, rq)])) failed in
    (exists rest,
        trace replayed
        = SignatureChecked payload (req_signature rq)
          :: trace (_ensure_agent_has_gas self w) ++ rest) /\
    In (BalanceQueried (script_hash (agent_acct self))) (trace replayed) /\
    (forall amount recipient,
        In (SwapRequested amount recipient)
           (trace (_ensure_agent_has_gas self w)) ->
        In (SwapRequested amount recipient) (trace replayed)).
Proof.
  intros self history w rq failed payload Hp Hsig replayed.
  assert (Hlast : replayed
                  = execute_gasless_transfer self w (req_from rq) (req_to rq)
                      (req_asset rq) (req_gross rq) (req_fee rq)
                      (req_signature rq) (req_intent_id rq)).
  { subst replayed. rewrite run_calls_independent, map_app. cbn [map].
    apply last_last. }
  rewrite Hlast, (execute_verified_run _ _ _ _ _ _ _ _ _ _ Hp Hsig).
  cbn [trace fst].
  split; [exists []; now rewrite app_nil_r |].
  split; [right; apply ensure_agent_has_gas_queries |].
  intros amount recipient Hin. right. exact Hin.
Qed.

(** C2 (amended) on the bench: the request of the end-to-end test after a
    first call with the same request, hence the same intent id, while the
    agent is short of the fee token. *)
Lemma replayed_intent_reaches_funding_again_witness :
  intent_payload (req_from (Bench.bench_request 400000000 341))
    (req_to (Bench.bench_request 400000000 341))
    (req_gross (Bench.bench_request 400000000 341))
    (req_fee (Bench.bench_request 400000000 341))
    (req_intent_id (Bench.bench_request 400000000 341))
  = Ok (Bench.bench_payload 400000000 341) /\
  recover_signer Bench.world_low_balance (Bench.bench_payload 400000000 341)
    (req_signature (Bench.bench_request 400000000 341))
  = Ok (req_from (Bench.bench_request 400000000 341)) /\
  let replayed :=
    last (run_calls Bench.bench_tool
            ([(Bench.world_low_balance, Bench.bench_request 400000000 341)]
             ++ [(Bench.world_low_balance,
                  Bench.bench_request 400000000 341)]))
         ([], Err (RuntimeError "no call")) in
  (exists rest,
      trace replayed
      = SignatureChecked (Bench.bench_payload 400000000 341)
          (req_signature (Bench.bench_request 400000000 341))
        :: trace (_ensure_agent_has_gas Bench.bench_tool
                    Bench.world_low_balance) ++ rest) /\
  In (BalanceQueried (script_hash (agent_acct Bench.bench_tool)))
     (trace replayed) /\
  (forall amount recipient,
      In (SwapRequested amount recipient)
         (trace (_ensure_agent_has_gas Bench.bench_tool
                   Bench.world_low_balance)) ->
      In (SwapRequested amount recipient) (trace replayed)).
Proof.
  assert (Hp : intent_payload (req_from (Bench.bench_request 400000000 341))
                 (req_to (Bench.bench_request 400000000 341))
                 (req_gross (Bench.bench_request 400000000 341))
                 (req_fee (Bench.bench_request 400000000 341))
                 (req_intent_id (Bench.bench_request 400000000 341))
               = Ok (Bench.bench_payload 400000000 341))
    by (vm_compute; reflexivity).
  split; [exact Hp |]. split; [reflexivity |].
  exact (replayed_intent_reaches_funding_again Bench.bench_tool
           [(Bench.world_low_balance, Bench.bench_request 400000000 341)]
           Bench.world_low_balance (Bench.bench_request 400000000 341)
           ([], Err (RuntimeError "no call"))
           (Bench.bench_payload 400000000 341) Hp eq_refl).
Defined.

(** C2, as worded, fails on the bench: the second of two calls with the
    intent id uuid-123 is not turned away as a replay.  It is processed
    like the first: the signature is checked, the balance queried and,
    the agent being short of the fee token, the swap requested again. *)
Lemma second_call_same_intent_reexecuted :
  exists first second,
    run_calls Bench.bench_tool
      [(Bench.world_low_balance, Bench.bench_request 400000000 341);
       (Bench.world_low_balance, Bench.bench_request 400000000 341)]
    = [first; second] /\
    req_intent_id (Bench.bench_request 400000000 341) = lit "uuid-123" /\
    second = first /\
    trace second =
      [SignatureChecked (Bench.bench_payload 400000000 341)
         Bench.user_signature;
       BalanceQueried (script_hash (agent_acct Bench.bench_tool));
       SwapRequested (lit "100000000")
         (address (agent_acct Bench.bench_tool))].
Proof.
  do 2 eexists.
  split; [reflexivity |]. split; [reflexivity |]. split; [reflexivity |].
  vm_compute. reflexivity.
Qed.

(** ** The fee quote and the price *)

Lemma get_price_run (w : World) (base quote : pystr) :
  _get_price_from_flamingo w base quote =
  ([PriceRequested (base ++ lit "_" ++ quote)],
   Ok match price_feed w (base ++ lit "_" ++ quote) with
      | PriceData (Some p) => Some p
      | PriceData None => Some (Fin 0 (-1))
      | PriceFetchRaises => None
      end).
Proof.
  unfold _get_price_from_flamingo. rewrite bind_emit_event.
  destruct (price_feed w (base ++ lit "_" ++ quote)) as [| [p |]];
    reflexivity.
Qed.

(** The quote for a price the feed did answer. *)
Lemma estimate_with_price (self : GaslessRelayTool) (w : World)
    (asset_symbol : pystr) (fee_gas : pyfloat) (intent_id : option pystr)
    (price : pyfloat) :
  _get_price_from_flamingo w asset_symbol (lit "GAS")
  = ([PriceRequested (asset_symbol ++ lit "_" ++ lit "GAS")],
     Ok (Some price)) ->
  outcome (estimate_gas_cost self w asset_symbol fee_gas intent_id) =
  (fee_in_asset <-? div fee_gas price ;;
   buffer <-? (t <-? mul fee_in_asset (of_int (slippage_bps (config self))) ;;
               div t (of_int 10000)) ;;
   fee_in_asset <-? add fee_in_asset buffer ;;
   fee_raw <-? (t <-? mul fee_in_asset (of_int (10 ^ 8)) ;; to_int t) ;;
   Ok {| q_fee_in_asset := fee_raw;
         q_asset_decimals := 8;
         q_burn_amount := fee_raw;
         q_intent_id := intent_id;
         q_source := lit "flamingo_oracle" |}).
Proof.
  intros Hprice. unfold estimate_gas_cost. rewrite Hprice.
  rewrite outcome_bind. unfold outcome at 1. cbn [snd].
  unfold _get_asset_decimals.
  repeat (rewrite outcome_bind, outcome_lift;
          match goal with
          | |- match ?r with _ => _ end = _ => destruct r; cbn [rbind]
          end; [| reflexivity]).
  reflexivity.
Qed.

(** With a zero price the arithmetic yields no fee, whatever the fee in
    the native token: the division raises, or an infinity or a NaN reaches
    [int()]. *)
Lemma zero_price_no_fee (fee_gas : Decimal) (e slippage : Z) :
  exists err,
    (fee_in_asset <-? div fee_gas (Fin 0 e) ;;
     buffer <-? (t <-? mul fee_in_asset (of_int slippage) ;;
                 div t (of_int 10000)) ;;
     fee_in_asset <-? add fee_in_asset buffer ;;
     t <-? mul fee_in_asset (of_int (10 ^ 8)) ;;
     to_int t) = Err err.
Proof.
  destruct fee_gas as [c e' | s |]; cbn [div Z.eqb rbind].
  - destruct (c =? 0); cbn [rbind]; eauto.
  - unfold of_int. cbn [mul rbind].
    destruct (slippage =? 0); cbn [rbind div]; [eauto |].
    cbn [add rbind]. destruct (eqb _ _); cbn [rbind]; [| eauto].
    cbn [mul]. change (10 ^ 8 =? 0) with false. cbn [rbind to_int]. eauto.
  - cbn [mul div add rbind to_int]. eauto.
Qed.

(** C7 (amended): [estimate_gas_cost] returns no quote when the price
    fetch fails (it raises RuntimeError "Failed to fetch price from
    Flamingo") and when the price read is zero or missing from the answer
    (the decimal arithmetic raises). *)
Theorem estimate_gas_cost_raises_without_price :
  forall self w asset_symbol fee_gas intent_id,
    let reply := price_feed w (asset_symbol ++ lit "_" ++ lit "GAS") in
    (reply = PriceFetchRaises \/ reply = PriceData None \/
     exists e, reply = PriceData (Some (Fin 0 e))) ->
    exists err,
      outcome (estimate_gas_cost self w asset_symbol fee_gas intent_id)
      = Err err /\
      (reply = PriceFetchRaises ->
       err = RuntimeError "Failed to fetch price from Flamingo").
Proof.
  intros self w asset_symbol fee_gas intent_id reply Hreply.
  pose proof (get_price_run w asset_symbol (lit "GAS")) as Hrun.
  fold reply in Hrun.
  destruct Hreply as [H | [H | [e H]]]; rewrite H in Hrun.
  - exists (RuntimeError "Failed to fetch price from Flamingo").
    split; [| reflexivity].
    unfold estimate_gas_cost. rewrite Hrun. reflexivity.
  - rewrite (estimate_with_price _ _ _ _ _ _ Hrun).
    destruct (zero_price_no_fee fee_gas (-1) (slippage_bps (config self)))
      as [err Herr].
    exists err. split; [| intros H'; rewrite H in H'; discriminate].
    revert Herr.
    repeat match goal with
           | |- context [rbind ?r _] => destruct r; cbn [rbind]
           end; congruence.
  - rewrite (estimate_with_price _ _ _ _ _ _ Hrun).
    destruct (zero_price_no_fee fee_gas e (slippage_bps (config self)))
      as [err Herr].
    exists err. split; [| intros H'; rewrite H in H'; discriminate].
    revert Herr.
    repeat match goal with
           | |- context [rbind ?r _] => destruct r; cbn [rbind]
           end; congruence.
Qed.

(** C7 (amended) on the bench: the price endpoint fails. *)
Lemma estimate_gas_cost_raises_without_price_witness :
  (price_feed Bench.world_no_price (lit "NEO" ++ lit "_" ++ lit "GAS")
   = PriceFetchRaises \/
   price_feed Bench.world_no_price (lit "NEO" ++ lit "_" ++ lit "GAS")
   = PriceData None \/
   exists e,
     price_feed Bench.world_no_price (lit "NEO" ++ lit "_" ++ lit "GAS")
     = PriceData (Some (Fin 0 e))) /\
  exists err,
    outcome (estimate_gas_cost Bench.bench_tool Bench.world_no_price
               (lit "NEO") (Fin 12 (-5)) None) = Err err /\
    (price_feed Bench.world_no_price (lit "NEO" ++ lit "_" ++ lit "GAS")
     = PriceFetchRaises ->
     err = RuntimeError "Failed to fetch price from Flamingo").
Proof.
  assert (H : price_feed Bench.world_no_price
                (lit "NEO" ++ lit "_" ++ lit "GAS") = PriceFetchRaises \/
              price_feed Bench.world_no_price
                (lit "NEO" ++ lit "_" ++ lit "GAS") = PriceData None \/
              exists e,
                price_feed Bench.world_no_price
                  (lit "NEO" ++ lit "_" ++ lit "GAS")
                = PriceData (Some (Fin 0 e)))
    by (left; reflexivity).
  split; [exact H |].
  exact (estimate_gas_cost_raises_without_price Bench.bench_tool
           Bench.world_no_price (lit "NEO") (Fin 12 (-5)) None H).
Defined.

(** C7, as worded, fails on the bench: for the negative price -42.7 and
    the default fee 0.00012 a quote is returned, with the negative fee
    -282. *)
Lemma negative_price_yields_quote :
  price_feed Bench.world_negative_price (lit "NEO_GAS")
  = PriceData (Some (Fin (-427) (-1))) /\
  estimate_gas_cost Bench.bench_tool Bench.world_negative_price (lit "NEO")
    (Fin 12 (-5)) None =
  ([PriceRequested (lit "NEO_GAS")],
   Ok {| q_fee_in_asset := -282;
         q_asset_decimals := 8;
         q_burn_amount := -282;
         q_intent_id := None;
         q_source := lit "flamingo_oracle" |}).
Proof.
  split; [reflexivity |]. vm_compute. reflexivity.
Qed.

(** The quote of the unit test: price 42.7, fee 0.00012, 50 basis points. *)
Example estimate_gas_cost_unit_test :
  outcome (estimate_gas_cost Bench.bench_tool Bench.world_ok (lit "NEO")
             (Fin 12 (-5)) None)
  = Ok {| q_fee_in_asset := 282;
          q_asset_decimals := 8;
          q_burn_amount := 282;
          q_intent_id := None;
          q_source := lit "flamingo_oracle" |}.
Proof. vm_compute. reflexivity. Qed.

(** ** The encoding of builder calls *)

Lemma le_bytes_length (k : nat) (z : Z) : List.length (le_bytes k z) = k.
Proof. revert z; induction k as [| k IH]; intros z; simpl; [| rewrite IH]; reflexivity. Qed.

Lemma le_bytes_mod (k : nat) :
  forall z1 z2, le_bytes k z1 = le_bytes k z2 ->
                z1 mod 256 ^ Z.of_nat k = z2 mod 256 ^ Z.of_nat k.
Proof.
  induction k as [| k IH]; intros z1 z2 H.
  - simpl. now rewrite !Z.mod_1_r.
  - simpl in H. injection H as H0 Hr. apply IH in Hr.
    rewrite Nat2Z.inj_succ, Z.pow_succ_r by lia.
    rewrite !Z.rem_mul_r by lia. congruence.
Qed.

Lemma le_bytes_inj_signed (k : nat) (z1 z2 : Z) :
  (0 < k)%nat ->
  - 2 ^ (8 * Z.of_nat k - 1) <= z1 < 2 ^ (8 * Z.of_nat k - 1) ->
  - 2 ^ (8 * Z.of_nat k - 1) <= z2 < 2 ^ (8 * Z.of_nat k - 1) ->
  le_bytes k z1 = le_bytes k z2 -> z1 = z2.
Proof.
  intros Hk H1 H2 H. apply le_bytes_mod in H.
  assert (Hp : 256 ^ Z.of_nat k = 2 * 2 ^ (8 * Z.of_nat k - 1)).
  { change 256 with (2 ^ 8). rewrite <- Z.pow_mul_r by lia.
    rewrite <- Z.pow_succ_r by lia. f_equal. lia. }
  set (h := 2 ^ (8 * Z.of_nat k - 1)) in *.
  assert (0 < h) by (apply Z.pow_pos_nonneg; lia).
  rewrite Hp in H.
  assert (E : forall z, - h <= z < h -> z = (z + h) mod (2 * h) - h).
  { intros z Hz. rewrite Z.mod_small; lia. }
  rewrite (E z1 H1), (E z2 H2).
  f_equal.
  rewrite <- (Z.add_mod_idemp_l z1), <- (Z.add_mod_idemp_l z2) by lia.
  now rewrite H.
Qed.

Lemma le_bytes_inj_unsigned (k : nat) (z1 z2 : Z) :
  0 <= z1 < 256 ^ Z.of_nat k -> 0 <= z2 < 256 ^ Z.of_nat k ->
  le_bytes k z1 = le_bytes k z2 -> z1 = z2.
Proof.
  intros H1 H2 H. apply le_bytes_mod in H.
  now rewrite !Z.mod_small in H by lia.
Qed.

Lemma app_inj_length {A} (a1 a2 b1 b2 : list A) :
  List.length a1 = List.length a2 -> a1 ++ b1 = a2 ++ b2 -> a1 = a2 /\ b1 = b2.
Proof.
  revert a2; induction a1 as [| x a1 IH]; destruct a2 as [| y a2]; simpl;
    try discriminate; [auto |].
  intros Hl H. injection Hl as Hl. injection H as -> H.
  destruct (IH _ Hl H) as [-> ->]. auto.
Qed.

Lemma le_bytes_fits_inj (k : nat) (z1 z2 : Z) :
  (0 < k)%nat ->
  fits (Z.of_nat k) z1 = true -> fits (Z.of_nat k) z2 = true ->
  le_bytes k z1 = le_bytes k z2 -> z1 = z2.
Proof.
  unfold fits. intros Hk H1 H2. apply le_bytes_inj_signed; [exact Hk | lia | lia].
Qed.

(** Splitting off a fixed-width field. *)
Lemma le_bytes_field (k : nat) (z1 z2 : Z) (r1 r2 : bytes) :
  le_bytes k z1 ++ r1 = le_bytes k z2 ++ r2 ->
  le_bytes k z1 = le_bytes k z2 /\ r1 = r2.
Proof. apply app_inj_length. now rewrite !le_bytes_length. Qed.

Lemma Ok_inj {A} (a b : A) : Ok a = Ok b -> a = b.
Proof. congruence. Qed.

Lemma encode_push_data_head (b x : bytes) :
  encode_push_data b = Ok x -> exists h t, x = h :: t /\ 12 <= h <= 14.
Proof.
  unfold encode_push_data, PUSHDATA1, PUSHDATA2, PUSHDATA4. intros H.
  repeat match type of H with
         | context [if ?c then _ else _] => destruct c
         end; try discriminate; injection H as <-;
    do 2 eexists; (split; [reflexivity | lia]).
Qed.

Lemma encode_push_int_head (z : Z) (x : bytes) :
  encode_push_int z = Ok x ->
  exists h t, x = h :: t /\ (0 <= h <= 5 \/ 15 <= h <= 32).
Proof.
  unfold encode_push_int, PUSHINT8, PUSHINT16, PUSHINT32, PUSHINT64,
    PUSHINT128, PUSHINT256, PUSH0. intros H.
  destruct ((-1 <=? z) && (z <=? 16)) eqn:Hs.
  - apply Ok_inj in H. subst x. apply andb_true_iff in Hs as [Ha Hb].
    apply Z.leb_le in Ha. apply Z.leb_le in Hb.
    do 2 eexists. split; [reflexivity | lia].
  - repeat match type of H with
           | context [if ?c then _ else _] => destruct c
           end; try discriminate; injection H as <-;
      do 2 eexists; (split; [reflexivity | lia]).
Qed.

Lemma cons_inj {A} (a b : A) (l m : list A) :
  a :: l = b :: m -> a = b /\ l = m.
Proof. intros H. injection H as -> ->. auto. Qed.

(** An opcode, a length field of [k] bytes, the data, then the rest. *)
Lemma data_frame_inj (k : nat) (op1 op2 : Z) (b1 b2 r1 r2 : bytes) :
  Z.of_nat (List.length b1) < 256 ^ Z.of_nat k ->
  Z.of_nat (List.length b2) < 256 ^ Z.of_nat k ->
  (op1 :: le_bytes k (Z.of_nat (List.length b1)) ++ b1) ++ r1 =
  (op2 :: le_bytes k (Z.of_nat (List.length b2)) ++ b2) ++ r2 ->
  b1 = b2 /\ r1 = r2.
Proof.
  intros H1 H2 H. rewrite <- !app_comm_cons, <- !app_assoc in H.
  apply cons_inj in H as [_ H].
  apply le_bytes_field in H as [Hn H].
  apply le_bytes_inj_unsigned in Hn; [| lia | lia].
  apply app_inj_length in H; [exact H | lia].
Qed.

Lemma frame_opcode {A} (op1 op2 : A) (x1 x2 r1 r2 : list A) :
  (op1 :: x1) ++ r1 = (op2 :: x2) ++ r2 -> op1 = op2.
Proof. rewrite <- !app_comm_cons. intros H. now apply cons_inj in H. Qed.

Lemma encode_push_data_prefix_free (b1 b2 x1 x2 r1 r2 : bytes) :
  encode_push_data b1 = Ok x1 -> encode_push_data b2 = Ok x2 ->
  x1 ++ r1 = x2 ++ r2 -> b1 = b2 /\ r1 = r2.
Proof.
  unfold encode_push_data.
  intros H1 H2 H.
  destruct (Z.ltb_spec (Z.of_nat (List.length b1)) 256);
    [| destruct (Z.ltb_spec (Z.of_nat (List.length b1)) 65536);
       [| destruct (Z.ltb_spec (Z.of_nat (List.length b1)) 4294967296);
          [| discriminate]]];
  (destruct (Z.ltb_spec (Z.of_nat (List.length b2)) 256);
    [| destruct (Z.ltb_spec (Z.of_nat (List.length b2)) 65536);
       [| destruct (Z.ltb_spec (Z.of_nat (List.length b2)) 4294967296);
          [| discriminate]]]);
  apply Ok_inj in H1; apply Ok_inj in H2; subst x1 x2;
  try (apply frame_opcode in H; discriminate);
  (eapply data_frame_inj; [| | exact H]; assumption).
Qed.

(** The two shapes of a pushed integer. *)
Lemma encode_push_int_shape (z : Z) (x : bytes) :
  encode_push_int z = Ok x ->
  (-1 <= z <= 16 /\ x = [PUSH0 + z]) \/
  (exists i : nat,
      (i <= 5)%nat /\ fits (Z.of_nat (2 ^ i)) z = true /\
      x = Z.of_nat i :: le_bytes (2 ^ i) z).
Proof.
  unfold encode_push_int. intros H.
  destruct ((-1 <=? z) && (z <=? 16)) eqn:Hs.
  { left. apply Ok_inj in H. apply andb_true_iff in Hs as [Ha Hb].
    apply Z.leb_le in Ha. apply Z.leb_le in Hb. auto. }
  right.
  destruct (fits 1 z) eqn:F1;
    [apply Ok_inj in H; exists 0%nat; repeat split; [lia | exact F1 | now subst] |].
  destruct (fits 2 z) eqn:F2;
    [apply Ok_inj in H; exists 1%nat; repeat split; [lia | exact F2 | now subst] |].
  destruct (fits 4 z) eqn:F4;
    [apply Ok_inj in H; exists 2%nat; repeat split; [lia | exact F4 | now subst] |].
  destruct (fits 8 z) eqn:F8;
    [apply Ok_inj in H; exists 3%nat; repeat split; [lia | exact F8 | now subst] |].
  destruct (fits 16 z) eqn:F16;
    [apply Ok_inj in H; exists 4%nat; repeat split; [lia | exact F16 | now subst] |].
  destruct (fits 32 z) eqn:F32;
    [apply Ok_inj in H; exists 5%nat; repeat split; [lia | exact F32 | now subst] |].
  discriminate.
Qed.

Lemma encode_push_int_prefix_free (z1 z2 : Z) (x1 x2 r1 r2 : bytes) :
  encode_push_int z1 = Ok x1 -> encode_push_int z2 = Ok x2 ->
  x1 ++ r1 = x2 ++ r2 -> z1 = z2 /\ r1 = r2.
Proof.
  intros H1 H2 H.
  apply encode_push_int_shape in H1 as [[Hz1 ->] | (i1 & Hi1 & F1 & ->)];
    apply encode_push_int_shape in H2 as [[Hz2 ->] | (i2 & Hi2 & F2 & ->)];
    rewrite <- !app_comm_cons in H; apply cons_inj in H as [Hop H];
    unfold PUSH0 in Hop; try lia.
  - simpl in H. split; [lia | exact H].
  - apply Nat2Z.inj in Hop. subst i2.
    apply le_bytes_field in H as [Hz H]. split; [| exact H].
    apply (le_bytes_fits_inj (2 ^ i1)); try assumption.
    apply Nat.neq_0_lt_0. apply Nat.pow_nonzero. discriminate.
Qed.

Lemma to_bytes4_ok (n : Z) (b : bytes) :
  to_bytes4 n = Ok b -> 0 <= n < 2 ^ 32 /\ b = le_bytes 4 n.
Proof.
  unfold to_bytes4.
  destruct ((0 <=? n) && (n <? 2 ^ 32)) eqn:E; [| discriminate].
  intros H. apply Ok_inj in H. split; [lia | now subst].
Qed.

Lemma encode_instr_head (i : instr) (x : bytes) :
  encode_instr i = Ok x -> exists h t, x = h :: t /\ head_of_kind i h.
Proof.
  destruct i as [b | z | op | name]; cbn [encode_instr head_of_kind];
    intros H.
  - now apply encode_push_data_head in H.
  - now apply encode_push_int_head in H.
  - apply Ok_inj in H. subst. eauto.
  - unfold rmap in H.
    destruct (to_bytes4 name); cbn [rbind] in H; [| discriminate].
    apply Ok_inj in H. subst. eauto.
Qed.

Lemma opcode_byte_range (op : OpCode) :
  opcode_byte op = 57 \/ opcode_byte op = 74 \/ opcode_byte op = 192.
Proof. destruct op; simpl; auto. Qed.

Lemma opcode_byte_inj (op1 op2 : OpCode) :
  opcode_byte op1 = opcode_byte op2 -> op1 = op2.
Proof. destruct op1, op2; simpl; intros H; try reflexivity; discriminate. Qed.

(** No encoding of a call is a prefix of the encoding of another. *)
Lemma encode_instr_prefix_free (i1 i2 : instr) (x1 x2 r1 r2 : bytes) :
  encode_instr i1 = Ok x1 -> encode_instr i2 = Ok x2 ->
  x1 ++ r1 = x2 ++ r2 -> i1 = i2 /\ r1 = r2.
Proof.
  intros H1 H2 H.
  destruct (encode_instr_head _ _ H1) as (h1 & t1 & E1 & K1).
  destruct (encode_instr_head _ _ H2) as (h2 & t2 & E2 & K2).
  assert (Hh : h1 = h2).
  { subst x1 x2. now apply frame_opcode in H. }
  subst h2.
  destruct i1 as [b1 | z1 | op1 | n1], i2 as [b2 | z2 | op2 | n2];
    cbn [head_of_kind] in K1, K2; unfold SYSCALL in *;
    try (pose proof (opcode_byte_range op1));
    try (pose proof (opcode_byte_range op2));
    try lia.
  - destruct (encode_push_data_prefix_free _ _ _ _ _ _ H1 H2 H) as [-> ->].
    auto.
  - destruct (encode_push_int_prefix_free _ _ _ _ _ _ H1 H2 H) as [-> ->].
    auto.
  - assert (op1 = op2) by (apply opcode_byte_inj; congruence). subst op2.
    cbn [encode_instr] in H1, H2.
    apply Ok_inj in H1. apply Ok_inj in H2. subst x1 x2.
    apply cons_inj in H as [_ H]. auto.
  - cbn [encode_instr] in H1, H2. unfold rmap in H1, H2.
    destruct (to_bytes4 n1) as [s1 |] eqn:L1; cbn [rbind] in H1;
      [| discriminate].
    destruct (to_bytes4 n2) as [s2 |] eqn:L2; cbn [rbind] in H2;
      [| discriminate].
    apply to_bytes4_ok in L1 as [R1 ->]. apply to_bytes4_ok in L2 as [R2 ->].
    apply Ok_inj in H1. apply Ok_inj in H2. subst x1 x2.
    rewrite <- !app_comm_cons in H. apply cons_inj in H as [_ H].
    apply le_bytes_field in H as [H ->].
    apply le_bytes_inj_unsigned in H; [now subst | exact R1 | exact R2].
Qed.

Lemma encode_program_ok_inv (i : instr) (r : list instr) (s : bytes) :
  encode_program (i :: r) = Ok s ->
  exists b br, encode_instr i = Ok b /\ encode_program r = Ok br /\ s = b ++ br.
Proof.
  cbn [encode_program].
  destruct (encode_instr i) as [b |]; cbn [rbind]; [| discriminate].
  destruct (encode_program r) as [br |]; cbn [rbind]; [| discriminate].
  intros H. apply Ok_inj in H. eauto.
Qed.

(** The bytes of a script determine the calls that wrote it. *)
Lemma encode_program_inj (l1 : list instr) :
  forall l2 s, encode_program l1 = Ok s -> encode_program l2 = Ok s -> l1 = l2.
Proof.
  induction l1 as [| i1 r1 IH]; intros [| i2 r2] s H1 H2.
  - reflexivity.
  - simpl in H1. apply Ok_inj in H1. subst s.
    apply encode_program_ok_inv in H2 as (b & br & Hb & _ & E).
    apply encode_instr_head in Hb as (h & t & -> & _). discriminate.
  - simpl in H2. apply Ok_inj in H2. subst s.
    apply encode_program_ok_inv in H1 as (b & br & Hb & _ & E).
    apply encode_instr_head in Hb as (h & t & -> & _). discriminate.
  - apply encode_program_ok_inv in H1 as (b1 & br1 & Hb1 & Hr1 & ->).
    apply encode_program_ok_inv in H2 as (b2 & br2 & Hb2 & Hr2 & E).
    destruct (encode_instr_prefix_free _ _ _ _ _ _ Hb1 Hb2 E) as [-> Hr].
    subst br2. f_equal. eapply IH; eassumption.
Qed.

(** ** The builder *)

Lemma encode_program_snoc (l : list instr) (i : instr) (s b : bytes) :
  encode_program l = Ok s -> encode_instr i = Ok b ->
  encode_program (l ++ [i]) = Ok (s ++ b).
Proof.
  revert s; induction l as [| j l IH]; intros s Hl Hi.
  - cbn [encode_program] in Hl. apply Ok_inj in Hl. subst s.
    cbn [app encode_program]. rewrite Hi. cbn [rbind]. now rewrite app_nil_r.
  - apply encode_program_ok_inv in Hl as (bj & br & Hj & Hr & ->).
    cbn [app encode_program]. rewrite Hj, (IH _ Hr Hi). cbn [rbind].
    now rewrite app_assoc.
Qed.

Lemma emit_instr_spec (i : instr) (sb sb' : ScriptBuilder) :
  emit_instr i sb = Ok sb' ->
  emitted sb' = emitted sb ++ [i] /\
  (builder_ok sb -> builder_ok sb').
Proof.
  unfold emit_instr. destruct (encode_instr i) as [b |] eqn:Hb;
    cbn [rbind]; [| discriminate].
  intros H. apply Ok_inj in H. subst sb'. cbn [emitted buffer].
  split; [reflexivity |]. unfold builder_ok. cbn [emitted buffer].
  intros Hok. now apply encode_program_snoc.
Qed.

Lemma new_builder_ok : builder_ok new_builder.
Proof. reflexivity. Qed.

Ltac bind_step :=
  match goal with
  | |- rbind ?r _ = Ok _ -> _ =>
      let E := fresh "E" in
      destruct r eqn:E; cbn [rbind]; [| discriminate]
  end.

Ltac emit_facts :=
  repeat match goal with
         | E : emit_push_bytes _ _ = Ok _ |- _ => unfold emit_push_bytes in E
         | E : emit_push_int _ _ = Ok _ |- _ => unfold emit_push_int in E
         | E : emit_push_uint160 _ _ = Ok _ |- _ => unfold emit_push_uint160 in E
         | E : emit _ _ = Ok _ |- _ => unfold emit in E
         | E : emit_instr _ _ = Ok _ |- _ =>
             apply emit_instr_spec in E;
             let He := fresh "He" in let Hk := fresh "Hk" in
             destruct E as [He Hk]
         end.

(** What [_build_relay_script] has emitted when it comes to the system
    invocation. *)
Lemma relay_script_builder_emitted (self : GaslessRelayTool)
    (from_addr to_addr asset_hash : pystr) (net burn : Z) (intent_id : pystr)
    (sb : ScriptBuilder) :
  relay_script_builder self from_addr to_addr asset_hash net burn intent_id
  = Ok sb ->
  exists f t a c ib,
    from_string from_addr = Ok f /\ from_string to_addr = Ok t /\
    from_string asset_hash = Ok a /\
    from_string (relay_contract_hash (config self)) = Ok c /\
    encode_utf8 intent_id = Ok ib /\
    emitted sb =
      [IPushData ib; IPushInt burn; IPushInt net;
       IPushData (to_array160 a); IPushData (to_array160 t);
       IPushData (to_array160 f);
       IPushInt 0; IPushInt 7; IOp PACK;
       IPushData (lit "transferWithFeeFromAmount");
       IPushData (to_array160 c)] /\
    builder_ok sb.
Proof.
  unfold relay_script_builder.
  replace (encode_utf8 (lit "transferWithFeeFromAmount"))
    with (Ok (lit "transferWithFeeFromAmount"))
    by (symmetry; apply encode_utf8_ascii, is_ascii_check; reflexivity).
  cbn [rbind].
  do 16 bind_step.
  intros H. apply Ok_inj in H. subst sb.
  emit_facts.
  do 5 eexists. repeat (split; [first [eassumption | reflexivity] |]).
  pose proof new_builder_ok as Hnew.
  split.
  - repeat match goal with
           | He : emitted _ = _ |- _ => rewrite He; clear He
           end.
    reflexivity.
  - repeat match goal with
           | Hk : builder_ok ?x -> _, H : builder_ok ?x |- _ =>
               specialize (Hk H)
           end.
    assumption.
Qed.

(** ** UTF-8 *)

Ltac split_conses H :=
  repeat match type of H with
         | _ :: _ = _ :: _ =>
             let Hh := fresh "Hh" in
             apply cons_inj in H as [Hh H]
         end.

Lemma utf8_char_prefix_free (c1 c2 : Z) (b1 b2 r1 r2 : bytes) :
  wf_char c1 -> wf_char c2 ->
  utf8_char c1 = Ok b1 -> utf8_char c2 = Ok b2 ->
  b1 ++ r1 = b2 ++ r2 -> c1 = c2 /\ r1 = r2.
Proof.
  unfold wf_char, utf8_char. intros W1 W2 H1 H2 H.
  destruct (Z.ltb_spec c1 128);
    [| destruct (Z.ltb_spec c1 2048);
       [| destruct ((55296 <=? c1) && (c1 <=? 57343)); [discriminate |];
          destruct (Z.ltb_spec c1 65536)]];
  (destruct (Z.ltb_spec c2 128);
    [| destruct (Z.ltb_spec c2 2048);
       [| destruct ((55296 <=? c2) && (c2 <=? 57343)); [discriminate |];
          destruct (Z.ltb_spec c2 65536)]]);
  apply Ok_inj in H1; apply Ok_inj in H2; subst b1 b2;
  cbn [app] in H; split_conses H;
  try (exfalso; Z.div_mod_to_equations; lia);
  (split; [Z.div_mod_to_equations; lia | exact H]).
Qed.

Lemma encode_utf8_cons (c : Z) (s : pystr) (b : bytes) :
  encode_utf8 (c :: s) = Ok b ->
  exists bc bs, utf8_char c = Ok bc /\ encode_utf8 s = Ok bs /\ b = bc ++ bs.
Proof.
  cbn [encode_utf8]. destruct (utf8_char c) as [bc |]; [| discriminate].
  destruct (encode_utf8 s) as [bs |]; [| discriminate].
  intros H. apply Ok_inj in H. eauto.
Qed.

Lemma utf8_char_nonempty (c : Z) (b : bytes) : utf8_char c = Ok b -> b <> [].
Proof.
  unfold utf8_char. intros H.
  repeat match type of H with
         | context [if ?x then _ else _] => destruct x
         end; try discriminate; apply Ok_inj in H; subst b; discriminate.
Qed.

(** [encode('utf-8')] is injective on strings. *)
Lemma encode_utf8_inj (s1 : pystr) :
  forall s2 b, wf_str s1 -> wf_str s2 ->
               encode_utf8 s1 = Ok b -> encode_utf8 s2 = Ok b -> s1 = s2.
Proof.
  induction s1 as [| c1 s1 IH]; intros [| c2 s2] b W1 W2 H1 H2.
  - reflexivity.
  - cbn [encode_utf8] in H1. apply Ok_inj in H1. subst b.
    apply encode_utf8_cons in H2 as (bc & bs & Hc & _ & E).
    apply utf8_char_nonempty in Hc. destruct bc; [congruence | discriminate].
  - cbn [encode_utf8] in H2. apply Ok_inj in H2. subst b.
    apply encode_utf8_cons in H1 as (bc & bs & Hc & _ & E).
    apply utf8_char_nonempty in Hc. destruct bc; [congruence | discriminate].
  - apply encode_utf8_cons in H1 as (bc1 & bs1 & Hc1 & Hs1 & ->).
    apply encode_utf8_cons in H2 as (bc2 & bs2 & Hc2 & Hs2 & E).
    inversion W1 as [| ? ? Wc1 Ws1]; inversion W2 as [| ? ? Wc2 Ws2]; subst.
    destruct (utf8_char_prefix_free _ _ _ _ _ _ Wc1 Wc2 Hc1 Hc2 E) as [-> ->].
    f_equal. eapply IH; eassumption.
Qed.

(** ** The relay script *)

(** The bytes in the builder are the encoding of eleven builder calls. *)
Lemma relay_script_builder_calls (self : GaslessRelayTool)
    (from_addr to_addr asset_hash : pystr) (net burn : Z) (intent_id : pystr)
    (sb : ScriptBuilder) :
  relay_script_builder self from_addr to_addr asset_hash net burn intent_id
  = Ok sb ->
  exists f t a c ib,
    from_string from_addr = Ok f /\ from_string to_addr = Ok t /\
    from_string asset_hash = Ok a /\
    from_string (relay_contract_hash (config self)) = Ok c /\
    encode_utf8 intent_id = Ok ib /\
    emitted sb =
      [IPushData ib; IPushInt burn; IPushInt net;
       IPushData (to_array160 a); IPushData (to_array160 t);
       IPushData (to_array160 f);
       IPushInt 0; IPushInt 7; IOp PACK;
       IPushData (lit "transferWithFeeFromAmount");
       IPushData (to_array160 c)] /\
    encode_program
      [IPushData ib; IPushInt burn; IPushInt net;
       IPushData (to_array160 a); IPushData (to_array160 t);
       IPushData (to_array160 f);
       IPushInt 0; IPushInt 7; IOp PACK;
       IPushData (lit "transferWithFeeFromAmount");
       IPushData (to_array160 c)] = Ok (to_array sb).
Proof.
  intros Hsb.
  apply relay_script_builder_emitted in Hsb
    as (f & t & a & c & ib & Hf & Ht & Ha & Hc & Hi & He & Hok).
  exists f, t, a, c, ib. repeat (split; [assumption |]).
  unfold builder_ok in Hok. now rewrite He in Hok.
Qed.

(** C5 (amended): when [_build_relay_script] comes to the system
    invocation, its builder holds the encoding of these calls, in this
    order: push intent_id, burn_amount, net_amount, the asset hash, the
    recipient hash, the sender hash; push the call flags 0; push the count
    7; PACK; push the method name; push the relay contract hash.  The
    count is seven: PACK takes the call flags and the six arguments, and
    the array it leaves holds these seven values, call flags first. *)
Theorem relay_script_pushes_six_arguments_packs_seven :
  forall self from_addr to_addr asset_hash net burn intent_id sb,
    relay_script_builder self from_addr to_addr asset_hash net burn intent_id
    = Ok sb ->
    exists f t a c ib,
      from_string from_addr = Ok f /\ from_string to_addr = Ok t /\
      from_string asset_hash = Ok a /\
      from_string (relay_contract_hash (config self)) = Ok c /\
      encode_utf8 intent_id = Ok ib /\
      let calls :=
        [IPushData ib; IPushInt burn; IPushInt net;
         IPushData (to_array160 a); IPushData (to_array160 t);
         IPushData (to_array160 f);
         IPushInt 0; IPushInt 7; IOp PACK;
         IPushData (lit "transferWithFeeFromAmount");
         IPushData (to_array160 c)] in
      emitted sb = calls /\
      encode_program calls = Ok (to_array sb) /\
      exec (firstn 9 calls) [] =
      Some [SArray [SInt 0; SBytes (to_array160 f); SBytes (to_array160 t);
                    SBytes (to_array160 a); SInt net; SInt burn; SBytes ib]].
Proof.
  intros self from_addr to_addr asset_hash net burn intent_id sb H.
  apply relay_script_builder_calls in H
    as (f & t & a & c & ib & Hf & Ht & Ha & Hc & Hi & Hem & He).
  exists f, t, a, c, ib. do 5 (split; [assumption |]).
  cbv zeta. split; [exact Hem |]. split; [exact He | reflexivity].
Qed.

(** C5 (amended) on the bench, with the amounts of the unit test. *)
Lemma relay_script_pushes_six_arguments_packs_seven_witness :
  relay_script_builder Bench.bench_tool Bench.from_addr Bench.to_addr
    Bench.asset_hash 399999659 341 Bench.intent_id
  = Ok (Bench.bench_builder 400000000 341) /\
  exists f t a c ib,
    from_string Bench.from_addr = Ok f /\ from_string Bench.to_addr = Ok t /\
    from_string Bench.asset_hash = Ok a /\
    from_string (relay_contract_hash (config Bench.bench_tool)) = Ok c /\
    encode_utf8 Bench.intent_id = Ok ib /\
    let calls :=
      [IPushData ib; IPushInt 341; IPushInt 399999659;
       IPushData (to_array160 a); IPushData (to_array160 t);
       IPushData (to_array160 f);
       IPushInt 0; IPushInt 7; IOp PACK;
       IPushData (lit "transferWithFeeFromAmount");
       IPushData (to_array160 c)] in
    emitted (Bench.bench_builder 400000000 341) = calls /\
    encode_program calls = Ok (to_array (Bench.bench_builder 400000000 341)) /\
    exec (firstn 9 calls) [] =
    Some [SArray [SInt 0; SBytes (to_array160 f); SBytes (to_array160 t);
                  SBytes (to_array160 a); SInt 399999659; SInt 341;
                  SBytes ib]].
Proof.
  assert (H : relay_script_builder Bench.bench_tool Bench.from_addr
                Bench.to_addr Bench.asset_hash 399999659 341 Bench.intent_id
              = Ok (Bench.bench_builder 400000000 341))
    by (vm_compute; reflexivity).
  split; [exact H |].
  exact (relay_script_pushes_six_arguments_packs_seven Bench.bench_tool
           Bench.from_addr Bench.to_addr Bench.asset_hash 399999659 341
           Bench.intent_id (Bench.bench_builder 400000000 341) H).
Defined.

(** C5, as worded, fails on the bench: the count pushed before PACK is 7,
    not 6, so the bytes written differ from those with a count of six, and
    the packed array has seven elements, the call flags among them. *)
Lemma relay_script_count_is_not_six :
  exists f t a c ib sb spec_script packed,
    from_string Bench.from_addr = Ok f /\ from_string Bench.to_addr = Ok t /\
    from_string Bench.asset_hash = Ok a /\
    from_string (relay_contract_hash (config Bench.bench_tool)) = Ok c /\
    encode_utf8 Bench.intent_id = Ok ib /\
    relay_script_builder Bench.bench_tool Bench.from_addr Bench.to_addr
      Bench.asset_hash 399999659 341 Bench.intent_id = Ok sb /\
    encode_program
      (SpecWords.spec_relay_calls ib 341 399999659 (to_array160 a)
         (to_array160 t) (to_array160 f) (to_array160 c)) = Ok spec_script /\
    to_array sb <> spec_script /\
    nth_error (emitted sb) 7 = Some (IPushInt 7) /\
    nth_error (to_array sb) 85 = Some (PUSH0 + 7) /\
    nth_error spec_script 85 = Some (PUSH0 + 6) /\
    exec (firstn 9 (emitted sb)) [] = Some [SArray packed] /\
    List.length packed = 7%nat /\
    packed <> [SBytes (to_array160 f); SBytes (to_array160 t);
               SBytes (to_array160 a); SInt 399999659; SInt 341; SBytes ib].
Proof.
  do 8 eexists.
  do 7 (split; [vm_compute; reflexivity |]).
  split; [discriminate |].
  do 5 (split; [vm_compute; reflexivity |]).
  discriminate.
Qed.

Lemma is_ascii_wf (s : pystr) : is_ascii s -> wf_str s.
Proof.
  unfold is_ascii, wf_str, wf_char. apply Forall_impl. intros c Hc. lia.
Qed.

Lemma to_array160_inj (a b : UInt160) :
  to_array160 a = to_array160 b -> a = b.
Proof.
  destruct a as [x], b as [y]. cbn [to_array160]. now intros ->.
Qed.

(** C6 (amended): the bytes [_build_relay_script] has written when it
    comes to the system invocation are a function of its arguments and of
    the configured relay contract hash, and of the address strings only
    through the 20-byte hashes they denote.  Two calls that get that far
    have written the same bytes exactly when they agree on net_amount,
    burn_amount, intent_id and on the hashes parsed from from_addr,
    to_addr, asset_hash and the relay contract hash. *)
Theorem relay_script_equal_iff_same_parsed_arguments :
  forall self1 from1 to1 asset1 net1 burn1 intent1 sb1
         self2 from2 to2 asset2 net2 burn2 intent2 sb2,
    wf_str intent1 -> wf_str intent2 ->
    relay_script_builder self1 from1 to1 asset1 net1 burn1 intent1 = Ok sb1 ->
    relay_script_builder self2 from2 to2 asset2 net2 burn2 intent2 = Ok sb2 ->
    (to_array sb1 = to_array sb2 <->
     net1 = net2 /\ burn1 = burn2 /\ intent1 = intent2 /\
     from_string from1 = from_string from2 /\
     from_string to1 = from_string to2 /\
     from_string asset1 = from_string asset2 /\
     from_string (relay_contract_hash (config self1))
     = from_string (relay_contract_hash (config self2))).
Proof.
  intros self1 from1 to1 asset1 net1 burn1 intent1 sb1
         self2 from2 to2 asset2 net2 burn2 intent2 sb2 W1 W2 H1 H2.
  apply relay_script_builder_calls in H1
    as (f1 & t1 & a1 & c1 & i1 & Hf1 & Ht1 & Ha1 & Hc1 & Hi1 & _ & He1).
  apply relay_script_builder_calls in H2
    as (f2 & t2 & a2 & c2 & i2 & Hf2 & Ht2 & Ha2 & Hc2 & Hi2 & _ & He2).
  rewrite Hf1, Hf2, Ht1, Ht2, Ha1, Ha2, Hc1, Hc2.
  split.
  - intros Heq. rewrite Heq in He1.
    pose proof (encode_program_inj _ _ _ He1 He2) as E.
    injection E as Ei Eb En Ea Et Ef Ec.
    apply to_array160_inj in Ea, Et, Ef, Ec.
    subst. rewrite <- Hi2 in Hi1.
    assert (intent1 = intent2).
    { destruct (encode_utf8 intent2) as [b |] eqn:Hb; [| discriminate].
      now apply (encode_utf8_inj intent1 intent2 b). }
    auto 10.
  - intros (-> & -> & -> & Ef & Et & Ea & Ec).
    apply Ok_inj in Ef, Et, Ea, Ec. subst.
    rewrite Hi1 in Hi2. apply Ok_inj in Hi2. subst.
    rewrite He1 in He2. now apply Ok_inj in He2.
Qed.

(** C6 (amended) on the bench: the sender written with its prefix and in
    mixed case, and without prefix in lower case. *)
Lemma relay_script_equal_iff_same_parsed_arguments_witness :
  wf_str Bench.intent_id /\
  relay_script_builder Bench.bench_tool Bench.from_addr Bench.to_addr
    Bench.asset_hash 399999659 341 Bench.intent_id
  = Ok (Bench.bench_builder 400000000 341) /\
  relay_script_builder Bench.bench_tool Bench.from_addr_bare Bench.to_addr
    Bench.asset_hash 399999659 341 Bench.intent_id
  = Ok (Bench.bench_builder 400000000 341) /\
  (to_array (Bench.bench_builder 400000000 341)
   = to_array (Bench.bench_builder 400000000 341) <->
   399999659 = 399999659 /\ 341 = 341 /\ Bench.intent_id = Bench.intent_id /\
   from_string Bench.from_addr = from_string Bench.from_addr_bare /\
   from_string Bench.to_addr = from_string Bench.to_addr /\
   from_string Bench.asset_hash = from_string Bench.asset_hash /\
   from_string (relay_contract_hash (config Bench.bench_tool))
   = from_string (relay_contract_hash (config Bench.bench_tool))).
Proof.
  assert (W : wf_str Bench.intent_id).
  { apply is_ascii_wf, is_ascii_check. reflexivity. }
  assert (H1 : relay_script_builder Bench.bench_tool Bench.from_addr
                 Bench.to_addr Bench.asset_hash 399999659 341 Bench.intent_id
               = Ok (Bench.bench_builder 400000000 341))
    by (vm_compute; reflexivity).
  assert (H2 : relay_script_builder Bench.bench_tool Bench.from_addr_bare
                 Bench.to_addr Bench.asset_hash 399999659 341 Bench.intent_id
               = Ok (Bench.bench_builder 400000000 341))
    by (vm_compute; reflexivity).
  split; [exact W |]. split; [exact H1 |]. split; [exact H2 |].
  exact (relay_script_equal_iff_same_parsed_arguments
           _ _ _ _ _ _ _ _ _ _ _ _ _ _ _ _ W W H1 H2).
Defined.

(** C6, as worded, fails on the bench: the sender address in mixed case
    and the same address in lower case are different arguments; the two
    calls write the same bytes and end alike. *)
Lemma relay_script_same_for_different_from_addr :
  Bench.from_addr <> Bench.from_addr_lower /\
  (exists sb,
      relay_script_builder Bench.bench_tool Bench.from_addr Bench.to_addr
        Bench.asset_hash 399999659 341 Bench.intent_id = Ok sb /\
      relay_script_builder Bench.bench_tool Bench.from_addr_lower
        Bench.to_addr Bench.asset_hash 399999659 341 Bench.intent_id
      = Ok sb) /\
  _build_relay_script Bench.bench_tool Bench.from_addr Bench.to_addr
    Bench.asset_hash 399999659 341 Bench.intent_id
  = _build_relay_script Bench.bench_tool Bench.from_addr_lower Bench.to_addr
      Bench.asset_hash 399999659 341 Bench.intent_id.
Proof.
  split; [discriminate |].
  split; [eexists; split; vm_compute; reflexivity |].
  vm_compute. reflexivity.
Qed.

(** * Further properties of the tool *)

(** ** execute_gasless_transfer: the stages *)

(** X1: a request whose signature does not verify (recovery raises, or the
    recovered address is not [from_addr]) is turned away after the
    signature check alone: the balance is not queried, no swap is asked
    for, no script is built. *)
Theorem bad_signature_rejected_before_funding :
  forall self w from_addr to_addr asset_hash gross fee sig intent_id payload,
    intent_payload from_addr to_addr gross fee intent_id = Ok payload ->
    recover_signer w payload sig <> Ok from_addr ->
    exists err,
      execute_gasless_transfer self w from_addr to_addr asset_hash gross fee
        sig intent_id
      = ([SignatureChecked payload sig], Err err) /\
      (forall user_address,
          recover_signer w payload sig = Ok user_address ->
          err = ValueError "Invalid user signature for intent").
Proof.
  intros self w from_addr to_addr asset_hash gross fee sig intent_id payload
    Hp Hsig.
  rewrite (execute_run _ _ _ _ _ _ _ _ _ _ Hp).
  destruct (recover_signer w payload sig) as [ua | e].
  - destruct (str_eqb ua from_addr) eqn:Heq.
    + apply str_eqb_eq in Heq. subst. contradiction.
    + cbn [negb]. eexists. split; [reflexivity | reflexivity].
  - exists e. split; [reflexivity | discriminate].
Qed.

Lemma bad_signature_rejected_before_funding_witness :
  intent_payload Bench.from_addr Bench.to_addr 400000000 341 Bench.intent_id
  = Ok (Bench.bench_payload 400000000 341) /\
  recover_signer Bench.world_other_signer (Bench.bench_payload 400000000 341)
    Bench.user_signature <> Ok Bench.from_addr /\
  exists err,
    execute_gasless_transfer Bench.bench_tool Bench.world_other_signer
      Bench.from_addr Bench.to_addr Bench.asset_hash 400000000 341
      Bench.user_signature Bench.intent_id
    = ([SignatureChecked (Bench.bench_payload 400000000 341)
          Bench.user_signature], Err err) /\
    (forall user_address,
        recover_signer Bench.world_other_signer
          (Bench.bench_payload 400000000 341) Bench.user_signature
        = Ok user_address ->
        err = ValueError "Invalid user signature for intent").
Proof.
  assert (Hp : intent_payload Bench.from_addr Bench.to_addr 400000000 341
                 Bench.intent_id = Ok (Bench.bench_payload 400000000 341))
    by (vm_compute; reflexivity).
  assert (Hs : recover_signer Bench.world_other_signer
                 (Bench.bench_payload 400000000 341) Bench.user_signature
               <> Ok Bench.from_addr)
    by (vm_compute; discriminate).
  split; [exact Hp |]. split; [exact Hs |].
  exact (bad_signature_rejected_before_funding Bench.bench_tool
           Bench.world_other_signer Bench.from_addr Bench.to_addr
           Bench.asset_hash 400000000 341 Bench.user_signature
           Bench.intent_id (Bench.bench_payload 400000000 341) Hp Hs).
Defined.

(** X2: no call of [execute_gasless_transfer] returns a result, and none
    hands a transaction to the RPC node: every call ends in an exception,
    at the latest in [_build_relay_script].  Nor does a call ask the price
    feed anything: the fee is taken from the caller as it is. *)
Theorem execute_never_returns_nor_submits :
  forall self w from_addr to_addr asset_hash gross fee sig intent_id,
    (exists err,
        outcome (execute_gasless_transfer self w from_addr to_addr asset_hash
                   gross fee sig intent_id) = Err err) /\
    (forall tx,
        ~ In (TransactionSubmitted tx)
             (trace (execute_gasless_transfer self w from_addr to_addr
                       asset_hash gross fee sig intent_id))) /\
    (forall pair,
        ~ In (PriceRequested pair)
             (trace (execute_gasless_transfer self w from_addr to_addr
                       asset_hash gross fee sig intent_id))).
Proof.
  intros self w from_addr to_addr asset_hash gross fee sig intent_id.
  destruct (intent_payload_ok from_addr to_addr gross fee intent_id)
    as [payload Hp].
  rewrite (execute_run _ _ _ _ _ _ _ _ _ _ Hp).
  assert (Hg : forall ev,
             In ev (trace (_ensure_agent_has_gas self w)) ->
             (forall tx, ev <> TransactionSubmitted tx) /\
             (forall pair, ev <> PriceRequested pair)).
  { intros ev H. apply ensure_agent_has_gas_events in H as [-> | (a & r & ->)];
      split; discriminate. }
  destruct (recover_signer w payload sig) as [ua | e];
    [destruct (negb (str_eqb ua from_addr)) |]; cbv zeta;
    [| destruct (outcome (_ensure_agent_has_gas self w)) as [[] | e];
       [destruct (_build_relay_script self from_addr to_addr asset_hash
                    (gross - fee) fee intent_id) as [s | e] |] |];
    (split; [eexists; reflexivity |]);
    split; intros x Hin; cbn [trace fst] in Hin;
    repeat (destruct Hin as [Hin | Hin]; [discriminate |]);
    try contradiction;
    try (apply in_app_or in Hin as [Hin | Hin];
         [apply Hg in Hin as [H1 H2];
          first [exact (H1 _ eq_refl) | exact (H2 _ eq_refl)]
         | repeat (destruct Hin as [Hin | Hin]; [discriminate |]);
           contradiction]);
    try (apply Hg in Hin as [H1 H2];
         first [exact (H1 _ eq_refl) | exact (H2 _ eq_refl)]).
Qed.

(** The agent's balance is queried exactly for the requests whose
    signature verifies. *)
Lemma funding_reached_iff (self : GaslessRelayTool) (w : World)
    (from_addr to_addr asset_hash : pystr) (gross fee : Z)
    (sig intent_id : pystr) (payload : bytes) :
  intent_payload from_addr to_addr gross fee intent_id = Ok payload ->
  (In (BalanceQueried (script_hash (agent_acct self)))
      (trace (execute_gasless_transfer self w from_addr to_addr asset_hash
                gross fee sig intent_id))
   <-> recover_signer w payload sig = Ok from_addr).
Proof.
  intros Hp. rewrite (execute_run _ _ _ _ _ _ _ _ _ _ Hp).
  pose proof (ensure_agent_has_gas_queries self w) as Hq.
  destruct (recover_signer w payload sig) as [ua | e].
  - destruct (str_eqb ua from_addr) eqn:Heq; cbn [negb].
    + apply str_eqb_eq in Heq. subst ua. split; [reflexivity | intros _].
      cbv zeta.
      destruct (outcome (_ensure_agent_has_gas self w)) as [[] | e];
        [destruct (_build_relay_script self from_addr to_addr asset_hash
                     (gross - fee) fee intent_id) as [s | e] |];
        cbn [trace fst]; right; try apply in_or_app; auto.
    + split.
      * intros [H | []]. discriminate.
      * intros H. injection H as ->. rewrite str_eqb_refl in Heq.
        discriminate.
  - split; [intros [H | []] |]; discriminate.
Qed.

Lemma execute_trace_head (self : GaslessRelayTool) (w : World)
    (from_addr to_addr asset_hash : pystr) (gross fee : Z)
    (sig intent_id : pystr) (payload : bytes) :
  intent_payload from_addr to_addr gross fee intent_id = Ok payload ->
  exists rest,
    trace (execute_gasless_transfer self w from_addr to_addr asset_hash
             gross fee sig intent_id)
    = SignatureChecked payload sig :: rest.
Proof.
  intros Hp. unfold execute_gasless_transfer. rewrite Hp.
  rewrite bind_lift_ok, bind_emit_event. cbn [trace fst]. eauto.
Qed.

(** X3: the signature does not cover [asset_hash].  Two calls that differ
    only in the asset hash check the same payload against the same
    signature, and one of them gets as far as funding exactly when the
    other does. *)
Theorem signature_does_not_cover_asset_hash :
  forall self w from_addr to_addr asset_hash asset_hash' gross fee sig
         intent_id,
    hd_error (trace (execute_gasless_transfer self w from_addr to_addr
                       asset_hash gross fee sig intent_id))
    = hd_error (trace (execute_gasless_transfer self w from_addr to_addr
                         asset_hash' gross fee sig intent_id)) /\
    (exists payload,
        hd_error (trace (execute_gasless_transfer self w from_addr to_addr
                           asset_hash gross fee sig intent_id))
        = Some (SignatureChecked payload sig)) /\
    (In (BalanceQueried (script_hash (agent_acct self)))
        (trace (execute_gasless_transfer self w from_addr to_addr asset_hash
                  gross fee sig intent_id)) <->
     In (BalanceQueried (script_hash (agent_acct self)))
        (trace (execute_gasless_transfer self w from_addr to_addr asset_hash'
                  gross fee sig intent_id))).
Proof.
  intros self w from_addr to_addr asset_hash asset_hash' gross fee sig
    intent_id.
  destruct (intent_payload_ok from_addr to_addr gross fee intent_id)
    as [payload Hp].
  destruct (execute_trace_head self w from_addr
              to_addr asset_hash gross fee sig intent_id payload Hp)
    as [rest Hr].
  destruct (execute_trace_head self w from_addr
              to_addr asset_hash' gross fee sig intent_id payload Hp)
    as [rest' Hr'].
  rewrite Hr, Hr'. cbn [hd_error].
  split; [reflexivity |]. split; [eauto |].
  rewrite <- Hr, <- Hr'.
  rewrite (funding_reached_iff _ _ _ _ asset_hash _ _ _ _ _ Hp).
  rewrite (funding_reached_iff _ _ _ _ asset_hash' _ _ _ _ _ Hp).
  reflexivity.
Qed.

(** X4: a failure of the funding step is fatal for the request.  When the
    signature verifies and [_ensure_agent_has_gas] raises, the call ends
    with that exception after the signature check and the funding events;
    no script is built and no transaction assembled. *)
Theorem funding_failure_is_fatal :
  forall self w from_addr to_addr asset_hash gross fee sig intent_id payload
         err,
    intent_payload from_addr to_addr gross fee intent_id = Ok payload ->
    recover_signer w payload sig = Ok from_addr ->
    outcome (_ensure_agent_has_gas self w) = Err err ->
    execute_gasless_transfer self w from_addr to_addr asset_hash gross fee
      sig intent_id
    = (SignatureChecked payload sig :: trace (_ensure_agent_has_gas self w),
       Err err).
Proof.
  intros self w from_addr to_addr asset_hash gross fee sig intent_id payload
    err Hp Hsig Hfund.
  rewrite (execute_run _ _ _ _ _ _ _ _ _ _ Hp), Hsig, str_eqb_refl.
  cbn [negb]. cbv zeta. now rewrite Hfund.
Qed.

Lemma funding_failure_is_fatal_witness :
  intent_payload Bench.from_addr Bench.to_addr 400000000 341 Bench.intent_id
  = Ok (Bench.bench_payload 400000000 341) /\
  recover_signer Bench.world_swap_fails (Bench.bench_payload 400000000 341)
    Bench.user_signature = Ok Bench.from_addr /\
  outcome (_ensure_agent_has_gas Bench.bench_tool Bench.world_swap_fails)
  = Err (ExternalError "swap: 503") /\
  execute_gasless_transfer Bench.bench_tool Bench.world_swap_fails
    Bench.from_addr Bench.to_addr Bench.asset_hash 400000000 341
    Bench.user_signature Bench.intent_id
  = (SignatureChecked (Bench.bench_payload 400000000 341)
       Bench.user_signature
     :: trace (_ensure_agent_has_gas Bench.bench_tool Bench.world_swap_fails),
     Err (ExternalError "swap: 503")).
Proof.
  assert (Hp : intent_payload Bench.from_addr Bench.to_addr 400000000 341
                 Bench.intent_id = Ok (Bench.bench_payload 400000000 341))
    by (vm_compute; reflexivity).
  assert (Hs : recover_signer Bench.world_swap_fails
                 (Bench.bench_payload 400000000 341) Bench.user_signature
               = Ok Bench.from_addr)
    by reflexivity.
  assert (Hf : outcome (_ensure_agent_has_gas Bench.bench_tool
                          Bench.world_swap_fails)
               = Err (ExternalError "swap: 503"))
    by (vm_compute; reflexivity).
  split; [exact Hp |]. split; [exact Hs |]. split; [exact Hf |].
  exact (funding_failure_is_fatal Bench.bench_tool Bench.world_swap_fails
           Bench.from_addr Bench.to_addr Bench.asset_hash 400000000 341
           Bench.user_signature Bench.intent_id
           (Bench.bench_payload 400000000 341) (ExternalError "swap: 503")
           Hp Hs Hf).
Defined.

(** ** The signed payload determines the intent *)

(** A segment of characters with property [P], closed by a character
    without it, can be cut off in one way only. *)
Lemma split_at_sep (P : Z -> Prop) (x : Z) (a1 : pystr) :
  forall a2 r1 r2,
    Forall P a1 -> Forall P a2 -> ~ P x ->
    a1 ++ x :: r1 = a2 ++ x :: r2 -> a1 = a2 /\ r1 = r2.
Proof.
  induction a1 as [| c a1 IH]; intros [| d a2] r1 r2 F1 F2 Hx H;
    cbn [app] in H.
  - apply cons_inj in H as [_ H]. auto.
  - apply cons_inj in H as [-> _]. inversion F2; contradiction.
  - apply cons_inj in H as [-> _]. inversion F1; contradiction.
  - apply cons_inj in H as [-> H]. inversion F1; inversion F2; subst.
    destruct (IH a2 r1 r2) as [-> ->]; auto.
Qed.

(** *** Integers *)

Lemma digits_of_rdigits (fuel : nat) :
  forall n acc, digits_of fuel n acc = rev (rdigits fuel n) ++ acc.
Proof.
  induction fuel as [| f IH]; intros n acc; cbn [digits_of rdigits];
    [reflexivity |].
  destruct (n <? 10); [reflexivity |].
  rewrite IH. cbn [rev]. now rewrite <- app_assoc.
Qed.

Lemma rdigits_inj (f1 : nat) :
  forall f2 n1 n2,
    0 <= n1 < 2 ^ Z.of_nat f1 -> 0 <= n2 < 2 ^ Z.of_nat f2 ->
    rdigits f1 n1 = rdigits f2 n2 -> n1 = n2.
Proof.
  induction f1 as [| f1 IH]; intros [| f2] n1 n2 H1 H2 H.
  - cbn in H1, H2. lia.
  - cbn in H1. cbn [rdigits] in H.
    destruct (n2 <? 10); discriminate.
  - cbn in H2. cbn [rdigits] in H.
    destruct (n1 <? 10); discriminate.
  - rewrite Nat2Z.inj_succ, Z.pow_succ_r in H1, H2 by lia.
    cbn [rdigits] in H. unfold digit_char in H.
    destruct (Z.ltb_spec n1 10), (Z.ltb_spec n2 10).
    + apply cons_inj in H as [H _]. lia.
    + apply cons_inj in H as [_ H].
      destruct f2 as [| f2]; [cbn in H2; lia |].
      cbn [rdigits] in H. destruct (_ <? 10); discriminate.
    + apply cons_inj in H as [_ H].
      destruct f1 as [| f1]; [cbn in H1; lia |].
      cbn [rdigits] in H. destruct (_ <? 10); discriminate.
    + apply cons_inj in H as [Hd H].
      assert (n1 / 10 = n2 / 10).
      { apply (IH f2); [| | exact H]; Z.div_mod_to_equations; lia. }
      Z.div_mod_to_equations. lia.
Qed.

Lemma fuel_covers (n : Z) :
  0 <= n -> 0 <= n < 2 ^ Z.of_nat (S (Z.to_nat (Z.log2 n))).
Proof.
  intros Hn. split; [exact Hn |].
  rewrite Nat2Z.inj_succ, Z2Nat.id by apply Z.log2_nonneg.
  destruct (Z.eq_dec n 0) as [-> | Hz]; [reflexivity |].
  apply Z.log2_spec. lia.
Qed.

Lemma str_of_nonneg_inj (n1 n2 : Z) :
  0 <= n1 -> 0 <= n2 -> str_of_nonneg n1 = str_of_nonneg n2 -> n1 = n2.
Proof.
  intros H1 H2 H. unfold str_of_nonneg in H.
  rewrite !digits_of_rdigits, !app_nil_r in H.
  apply (f_equal (@rev Z)) in H. rewrite !rev_involutive in H.
  eapply rdigits_inj; [| | exact H]; now apply fuel_covers.
Qed.

Lemma digits_of_digits (fuel : nat) :
  forall n acc, 0 <= n -> Forall is_digit acc ->
                Forall is_digit (digits_of fuel n acc).
Proof.
  induction fuel as [| f IH]; intros n acc Hn Hacc; cbn [digits_of];
    [exact Hacc |].
  destruct (Z.ltb_spec n 10).
  - constructor; [unfold is_digit, digit_char; lia | exact Hacc].
  - apply IH; [apply Z.div_pos; lia |].
    constructor; [| exact Hacc].
    unfold is_digit, digit_char. pose proof (Z.mod_pos_bound n 10). lia.
Qed.

Lemma str_of_nonneg_digits (n : Z) :
  0 <= n -> Forall is_digit (str_of_nonneg n) /\ str_of_nonneg n <> [].
Proof.
  intros Hn. split.
  - apply digits_of_digits; [exact Hn | constructor].
  - unfold str_of_nonneg. cbn [digits_of].
    destruct (n <? 10); [discriminate |].
    rewrite digits_of_rdigits. intros H.
    apply app_eq_nil in H as [_ H]. discriminate.
Qed.

(** [str] is injective on [int]. *)
Lemma str_of_int_inj (n1 n2 : Z) : str_of_int n1 = str_of_int n2 -> n1 = n2.
Proof.
  unfold str_of_int.
  destruct (Z.ltb_spec n1 0) as [L1 | L1], (Z.ltb_spec n2 0) as [L2 | L2];
    intros Hs.
  - apply cons_inj in Hs as [_ Hs]. apply str_of_nonneg_inj in Hs; lia.
  - destruct (str_of_nonneg_digits n2) as [Hd Hne]; [lia |].
    rewrite <- Hs in Hd. inversion Hd; subst. unfold is_digit in *. lia.
  - destruct (str_of_nonneg_digits n1) as [Hd Hne]; [lia |].
    rewrite Hs in Hd. inversion Hd; subst. unfold is_digit in *. lia.
  - now apply str_of_nonneg_inj.
Qed.

Lemma str_of_int_chars (n : Z) : Forall is_int_char (str_of_int n).
Proof.
  unfold str_of_int.
  destruct (Z.ltb_spec n 0).
  - constructor; [left; reflexivity |].
    eapply Forall_impl; [| apply str_of_nonneg_digits; lia].
    intros c Hc. right. exact Hc.
  - eapply Forall_impl; [| apply str_of_nonneg_digits; lia].
    intros c Hc. right. exact Hc.
Qed.

(** *** Escaped strings *)

Lemma hex_digit_inj (a b : Z) :
  0 <= a < 16 -> 0 <= b < 16 -> hex_digit a = hex_digit b -> a = b.
Proof.
  unfold hex_digit. intros Ha Hb.
  destruct (Z.ltb_spec a 10), (Z.ltb_spec b 10); lia.
Qed.

Lemma u_escape_inj (a b : Z) (r1 r2 : pystr) :
  0 <= a < 65536 -> 0 <= b < 65536 ->
  u_escape a ++ r1 = u_escape b ++ r2 -> a = b /\ r1 = r2.
Proof.
  intros Ha Hb H. unfold u_escape in H. cbn [app] in H.
  do 2 (apply cons_inj in H as [_ H]).
  apply cons_inj in H as [H3 H]. apply cons_inj in H as [H2 H].
  apply cons_inj in H as [H1 H]. apply cons_inj in H as [H0 H].
  apply hex_digit_inj in H3, H2, H1, H0;
    try (apply Z.mod_pos_bound; lia).
  split; [| exact H].
  Z.div_mod_to_equations. lia.
Qed.

Lemma lor_surrogate_base (y : Z) :
  0 <= y < 1024 ->
  Z.lor 55296 y = 55296 + y /\ Z.lor 56320 y = 56320 + y.
Proof.
  intros Hy.
  assert (T : forallb (fun k => let y := Z.of_nat k in
                         (Z.lor 55296 y =? 55296 + y) &&
                         (Z.lor 56320 y =? 56320 + y)) (seq 0 1024) = true)
    by (vm_compute; reflexivity).
  rewrite forallb_forall in T.
  specialize (T (Z.to_nat y)).
  rewrite Z2Nat.id in T by lia.
  assert (In (Z.to_nat y) (seq 0 1024)) by (apply in_seq; lia).
  specialize (T H). cbv zeta in T.
  apply andb_true_iff in T as [T1 T2].
  apply Z.eqb_eq in T1. apply Z.eqb_eq in T2. auto.
Qed.

Lemma surrogate_pair_arith (n : Z) :
  0 <= n < 1048576 ->
  Z.lor 55296 (Z.land (Z.shiftr n 10) 1023) = 55296 + n / 1024 /\
  Z.lor 56320 (Z.land n 1023) = 56320 + n mod 1024.
Proof.
  intros Hn.
  change 1023 with (Z.ones 10).
  rewrite !Z.land_ones, Z.shiftr_div_pow2 by lia.
  change (2 ^ 10) with 1024.
  assert (0 <= n / 1024 < 1024) by (Z.div_mod_to_equations; lia).
  rewrite (Z.mod_small (n / 1024)) by lia.
  split.
  - now apply lor_surrogate_base.
  - apply lor_surrogate_base. apply Z.mod_pos_bound. lia.
Qed.

(** The four shapes of an escaped scalar value. *)
Lemma escape_char_shape (c : Z) :
  scalar_char c ->
  (escape_char c = [c] /\ 32 <= c <= 126 /\ c <> 34 /\ c <> 92) \/
  (exists x, escape_char c = [92; x] /\ short_escape c x) \/
  (escape_char c = u_escape c /\ 0 <= c < 55296) \/
  (escape_char c = u_escape c /\ 57343 < c < 65536) \/
  (escape_char c =
     u_escape (55296 + (c - 65536) / 1024)
       ++ u_escape (56320 + (c - 65536) mod 1024) /\
   65536 <= c < 1114112).
Proof.
  unfold scalar_char, escape_char, short_escape. intros Hc.
  destruct (Z.eqb_spec c 92); [right; left; eexists; split; [reflexivity | lia] |].
  destruct (Z.eqb_spec c 34); [right; left; eexists; split; [reflexivity | lia] |].
  destruct ((32 <=? c) && (c <=? 126)) eqn:Hp; [left; split; [reflexivity | lia] |].
  destruct (Z.eqb_spec c 8); [right; left; eexists; split; [reflexivity | lia] |].
  destruct (Z.eqb_spec c 12); [right; left; eexists; split; [reflexivity | lia] |].
  destruct (Z.eqb_spec c 10); [right; left; eexists; split; [reflexivity | lia] |].
  destruct (Z.eqb_spec c 13); [right; left; eexists; split; [reflexivity | lia] |].
  destruct (Z.eqb_spec c 9); [right; left; eexists; split; [reflexivity | lia] |].
  destruct (Z.ltb_spec c 65536).
  - right. right. destruct Hc; [left | right; left]; split; auto; lia.
  - right. right. right. right. split; [| lia].
    destruct (surrogate_pair_arith (c - 65536)) as [-> ->]; [lia |].
    reflexivity.
Qed.

Lemma u_escape_head (n : Z) :
  exists t, u_escape n = 92 :: 117 :: t.
Proof. unfold u_escape. eauto. Qed.

(** No escape of a scalar value is a prefix of the escape of another. *)
Lemma escape_char_prefix_free (c1 c2 : Z) (r1 r2 : pystr) :
  scalar_char c1 -> scalar_char c2 ->
  escape_char c1 ++ r1 = escape_char c2 ++ r2 -> c1 = c2 /\ r1 = r2.
Proof.
  intros S1 S2 H.
  destruct (escape_char_shape c1 S1)
    as [(E1 & P1) | [(x1 & E1 & P1) | [(E1 & P1) | [(E1 & P1) | (E1 & P1)]]]];
  destruct (escape_char_shape c2 S2)
    as [(E2 & P2) | [(x2 & E2 & P2) | [(E2 & P2) | [(E2 & P2) | (E2 & P2)]]]];
  rewrite E1, E2 in H; unfold short_escape in *;
  try (unfold u_escape in H; cbn [app] in H;
       apply cons_inj in H as [Hh H]; try lia;
       apply cons_inj in H as [Hx H]; lia);
  try (cbn [app] in H; apply cons_inj in H as [Hh H]; split; [lia | exact H]);
  try (cbn [app] in H; apply cons_inj in H as [Hh H];
       apply cons_inj in H as [Hx H]; split; [lia | exact H]);
  try (apply u_escape_inj in H; [exact H | lia | lia]);
  rewrite <- ?app_assoc in H;
  try (apply u_escape_inj in H as [Hhi H];
       [| try lia; Z.div_mod_to_equations; lia ..];
       exfalso; Z.div_mod_to_equations; lia).
  apply u_escape_inj in H as [Hhi H];
    [| Z.div_mod_to_equations; lia ..].
  apply u_escape_inj in H as [Hlo H];
    [| Z.div_mod_to_equations; lia ..].
  split; [Z.div_mod_to_equations; lia | exact H].
Qed.

Lemma escape_char_head (c : Z) :
  scalar_char c -> exists h t, escape_char c = h :: t /\ h <> 34.
Proof.
  intros S.
  destruct (escape_char_shape c S)
    as [(E & P) | [(x & E & P) | [(E & P) | [(E & P) | (E & P)]]]];
    rewrite E; unfold u_escape; cbn [app]; do 2 eexists;
    (split; [reflexivity | lia]).
Qed.

(** The body of a JSON string literal, up to its closing quote, determines
    the string. *)
Lemma escaped_body_split (s1 : pystr) :
  forall s2 r1 r2,
    scalar_str s1 -> scalar_str s2 ->
    flat_map escape_char s1 ++ 34 :: r1 = flat_map escape_char s2 ++ 34 :: r2 ->
    s1 = s2 /\ r1 = r2.
Proof.
  induction s1 as [| c1 s1 IH]; intros [| c2 s2] r1 r2 W1 W2 H;
    cbn [flat_map app] in H.
  - apply cons_inj in H as [_ H]. auto.
  - inversion W2 as [| ? ? Wc _]; subst.
    destruct (escape_char_head c2 Wc) as (h & t & E & Hh).
    rewrite E in H. cbn [app] in H. apply cons_inj in H as [Hq _]. congruence.
  - inversion W1 as [| ? ? Wc _]; subst.
    destruct (escape_char_head c1 Wc) as (h & t & E & Hh).
    rewrite E in H. cbn [app] in H. apply cons_inj in H as [Hq _]. congruence.
  - inversion W1 as [| ? ? Wc1 Ws1]; inversion W2 as [| ? ? Wc2 Ws2]; subst.
    rewrite <- !app_assoc in H.
    apply escape_char_prefix_free in H as [-> H]; [| assumption ..].
    destruct (IH s2 r1 r2 Ws1 Ws2 H) as [-> ->]. auto.
Qed.

Ltac peel H :=
  repeat first [ apply cons_inj in H as [_ H] | apply app_inv_head in H ].

Lemma intent_json_text_inj (from1 to1 : pystr) (gross1 fee1 : Z) (id1 : pystr)
    (from2 to2 : pystr) (gross2 fee2 : Z) (id2 : pystr) :
  scalar_str from1 -> scalar_str to1 -> scalar_str id1 ->
  scalar_str from2 -> scalar_str to2 -> scalar_str id2 ->
  dumps true (intent_data from1 to1 gross1 fee1 id1)
  = dumps true (intent_data from2 to2 gross2 fee2 id2) ->
  from1 = from2 /\ to1 = to2 /\ gross1 = gross2 /\ fee1 = fee2 /\ id1 = id2.
Proof.
  intros Sf1 St1 Si1 Sf2 St2 Si2 H.
  rewrite !intent_json_text in H.
  unfold encode_basestring_ascii, dq in H.
  change (lit ", ") with [44; 32] in H.
  rewrite <- !app_assoc in H. cbn [app] in H.
  assert (Hsep : ~ is_int_char 44) by (unfold is_int_char, is_digit; lia).
  peel H.
  apply (split_at_sep is_int_char 44) in H as [Hfee H];
    [| apply str_of_int_chars | apply str_of_int_chars | exact Hsep].
  peel H.
  apply escaped_body_split in H as [Hfrom H]; [| assumption ..].
  peel H.
  apply (split_at_sep is_int_char 44) in H as [Hgross H];
    [| apply str_of_int_chars | apply str_of_int_chars | exact Hsep].
  peel H.
  apply escaped_body_split in H as [Hid H]; [| assumption ..].
  peel H.
  apply escaped_body_split in H as [Hto H]; [| assumption ..].
  apply str_of_int_inj in Hfee. apply str_of_int_inj in Hgross.
  auto.
Qed.

Lemma scalar_check (s : pystr) :
  forallb (fun c => ((0 <=? c) && (c <? 55296))
                    || ((57343 <? c) && (c <? 1114112))) s = true ->
  scalar_str s.
Proof.
  intros H. apply Forall_forall. intros c Hc.
  rewrite forallb_forall in H. specialize (H c Hc). unfold scalar_char. lia.
Qed.

(** X6: the signed payload determines the intent.  Two requests whose
    strings hold no surrogate code point and whose payloads are the same
    bytes agree on from, to, gross_amount, fee_in_asset and intent_id: a
    signature over one payload cannot stand for another sender, recipient,
    amount, fee or intent id. *)
Theorem signed_payload_determines_intent :
  forall from1 to1 gross1 fee1 id1 from2 to2 gross2 fee2 id2 payload,
    scalar_str from1 -> scalar_str to1 -> scalar_str id1 ->
    scalar_str from2 -> scalar_str to2 -> scalar_str id2 ->
    intent_payload from1 to1 gross1 fee1 id1 = Ok payload ->
    intent_payload from2 to2 gross2 fee2 id2 = Ok payload ->
    from1 = from2 /\ to1 = to2 /\ gross1 = gross2 /\ fee1 = fee2 /\
    id1 = id2.
Proof.
  intros from1 to1 gross1 fee1 id1 from2 to2 gross2 fee2 id2 payload
    Sf1 St1 Si1 Sf2 St2 Si2 H1 H2.
  assert (A : forall f t g fee i,
             intent_payload f t g fee i = Ok (dumps true (intent_data f t g fee i))).
  { intros f t g fee i. unfold intent_payload.
    apply encode_utf8_ascii. rewrite intent_json_text. ascii_parts. }
  rewrite A in H1, H2. apply Ok_inj in H1. apply Ok_inj in H2.
  apply intent_json_text_inj; try assumption. congruence.
Qed.

Lemma signed_payload_determines_intent_witness :
  scalar_str Bench.from_addr /\ scalar_str Bench.to_addr /\
  scalar_str Bench.intent_id /\
  intent_payload Bench.from_addr Bench.to_addr 400000000 341 Bench.intent_id
  = Ok (Bench.bench_payload 400000000 341) /\
  Bench.from_addr = Bench.from_addr /\ Bench.to_addr = Bench.to_addr /\
  400000000 = 400000000 /\ 341 = 341 /\ Bench.intent_id = Bench.intent_id.
Proof.
  assert (Sf : scalar_str Bench.from_addr)
    by (apply scalar_check; reflexivity).
  assert (St : scalar_str Bench.to_addr)
    by (apply scalar_check; reflexivity).
  assert (Si : scalar_str Bench.intent_id)
    by (apply scalar_check; reflexivity).
  assert (Hp : intent_payload Bench.from_addr Bench.to_addr 400000000 341
                 Bench.intent_id = Ok (Bench.bench_payload 400000000 341))
    by (vm_compute; reflexivity).
  split; [exact Sf |]. split; [exact St |]. split; [exact Si |].
  split; [exact Hp |].
  exact (signed_payload_determines_intent Bench.from_addr Bench.to_addr
           400000000 341 Bench.intent_id Bench.from_addr Bench.to_addr
           400000000 341 Bench.intent_id (Bench.bench_payload 400000000 341)
           Sf St Si Sf St Si Hp Hp).
Defined.

(** Without the restriction to scalar values the payload does not
    determine the sender: a surrogate pair and the character it encodes
    are escaped alike. *)
Remark surrogate_pair_shares_payload :
  [55357; 56832] <> [128512] /\
  intent_payload [55357; 56832] Bench.to_addr 400000000 341 Bench.intent_id
  = intent_payload [128512] Bench.to_addr 400000000 341 Bench.intent_id.
Proof. split; [discriminate | vm_compute; reflexivity]. Qed.

(** ** The agent gas guard *)

Lemma get_gas_balance_rpc_failure (w : World) (h : UInt160) (err : exn) :
  balance_of w h = Err err ->
  _get_gas_balance w h = ([BalanceQueried h], Ok (Fin 0 0)).
Proof. intros H. unfold _get_gas_balance. now rewrite H. Qed.

(** X7: [_get_gas_balance] never raises and asks the node exactly once.
    What it returns is a finite number, never NaN or an infinity; when the
    RPC call fails, or the division does, it is zero. *)
Theorem get_gas_balance_never_raises :
  forall w h,
    exists c e,
      _get_gas_balance w h = ([BalanceQueried h], Ok (Fin c e)) /\
      (forall err, balance_of w h = Err err -> c = 0 /\ e = 0) /\
      (forall state err,
          balance_of w h = Ok state ->
          div (of_int (int_from_bytes_little state)) (of_int (10 ^ 8))
          = Err err ->
          c = 0 /\ e = 0).
Proof.
  intros w h. unfold _get_gas_balance.
  destruct (balance_of w h) as [state | err];
    cbv beta iota delta [bind emit_event lift try_except of_int app].
  - destruct (div (Fin (int_from_bytes_little state) 0) (Fin (10 ^ 8) 0))
      as [d | err] eqn:Hd.
    + apply div_fin_finite in Hd as Hf. destruct Hf as (c & e & ->).
      exists c, e. split; [reflexivity |]. split; [discriminate |].
      intros state' err' Hs. apply Ok_inj in Hs. subst state'.
      rewrite Hd. discriminate.
    + exists 0, 0. split; [reflexivity |]. split; [discriminate | auto].
  - exists 0, 0. split; [reflexivity |]. split; [auto | discriminate].
Qed.

Lemma ndigits_aux_pos (fuel : nat) (n : Z) : 1 <= ndigits_aux fuel n.
Proof.
  revert n; induction fuel as [| f IH]; intros n; cbn [ndigits_aux]; [lia |].
  destruct (n <? 10); [lia |]. specialize (IH (n / 10)). lia.
Qed.

Lemma ndigits_aux_le (fuel : nat) :
  forall n k, 1 <= k -> n < 10 ^ k -> ndigits_aux fuel n <= k.
Proof.
  induction fuel as [| f IH]; intros n k Hk Hn; cbn [ndigits_aux]; [lia |].
  destruct (Z.ltb_spec n 10); [lia |].
  assert (2 <= k).
  { destruct (Z.eq_dec k 1) as [-> | ]; [change (10 ^ 1) with 10 in Hn; lia | lia]. }
  assert (ndigits_aux f (n / 10) <= k - 1); [| lia].
  apply IH; [lia |].
  replace k with (Z.succ (k - 1)) in Hn by lia.
  rewrite Z.pow_succ_r in Hn by lia.
  Z.div_mod_to_equations. lia.
Qed.

Lemma ndigits_bounds (n : Z) :
  0 <= n < 10 ^ 28 -> 1 <= ndigits n <= 28.
Proof.
  intros Hn. unfold ndigits. rewrite Z.abs_eq by lia. split.
  - apply ndigits_aux_pos.
  - apply ndigits_aux_le; lia.
Qed.

(** The loop on an exact quotient keeps the value, stops at the ideal
    exponent at the latest, and before it only at a last digit that is
    not zero. *)
Lemma strip_to_ideal_spec (fuel : nat) :
  forall c e ideal c' e',
    0 < c -> e <= ideal ->
    strip_to_ideal fuel c e ideal = (c', e') ->
    c = c' * 10 ^ (e' - e) /\ e <= e' <= ideal /\ 0 < c' /\
    (e' - e < Z.of_nat fuel -> e' < ideal -> c' mod 10 <> 0).
Proof.
  induction fuel as [| f IH]; intros c e ideal c' e' Hc He H;
    cbn [strip_to_ideal] in H.
  - injection H as <- <-. rewrite Z.sub_diag, Z.mul_1_r.
    repeat split; try lia.
  - destruct (Z.ltb_spec e ideal) as [Hlt | Hge]; cbn [andb] in H.
    + destruct (Z.eqb_spec (c mod 10) 0) as [Hz | Hnz].
      * assert (Hc10 : c = 10 * (c / 10)) by (Z.div_mod_to_equations; lia).
        apply IH in H as (Hv & Hr & Hp & Hstop); [| lia | lia].
        split.
        { replace (e' - e) with (Z.succ (e' - (e + 1))) by lia.
          rewrite Z.pow_succ_r by lia. rewrite Hc10 at 1. rewrite Hv at 1.
          ring. }
        split; [lia |]. split; [exact Hp |].
        intros Hf Hi. apply Hstop; lia.
      * injection H as <- <-. rewrite Z.sub_diag, Z.mul_1_r.
        repeat split; try lia.
    + injection H as <- <-. rewrite Z.sub_diag, Z.mul_1_r.
      repeat split; try lia.
Qed.

Lemma fix_unchanged (c e : Z) :
  0 < c < 10 ^ 28 -> Etiny <= e <= 0 -> fix_ c e = Ok (Fin c e).
Proof.
  intros Hc He. unfold fix_.
  destruct (Z.eqb_spec c 0); [lia |].
  pose proof (ndigits_bounds (Z.abs c)) as Hd.
  rewrite Z.abs_eq in * by lia. specialize (Hd ltac:(lia)).
  unfold Etop, Etiny, Emax, Emin, prec in *.
  destruct (Z.gtb_spec (ndigits c + e - 28) (999999 - 28 + 1)); [lia |].
  destruct (Z.ltb_spec e (Z.max (ndigits c + e - 28) (-999999 - 28 + 1)));
    [lia | reflexivity].
Qed.

(** Dividing an integer of at most 28 digits by 10^8 is exact. *)
Lemma div_by_1e8_exact (a : Z) :
  0 <= a < 10 ^ 28 ->
  exists c e,
    div (Fin a 0) (Fin (10 ^ 8) 0) = Ok (Fin c e) /\
    (value c e == value a (-8))%Q.
Proof.
  intros Ha. unfold div.
  change (10 ^ 8 =? 0) with false. cbv iota.
  destruct (Z.eqb_spec a 0) as [-> | Hnz].
  { exists 0, 0. split; [reflexivity |]. unfold value. cbn. reflexivity. }
  pose proof (ndigits_bounds a Ha) as Hd.
  change (ndigits (10 ^ 8)) with 9. unfold prec.
  set (shift := 9 - ndigits a + 28 + 1).
  assert (Hs : 10 <= shift <= 37) by (subst shift; lia).
  destruct (Z.leb_spec 0 shift); [| lia].
  rewrite (Z.abs_eq a) by lia. change (Z.abs (10 ^ 8)) with (10 ^ 8).
  assert (Hnum : a * 10 ^ shift = (a * 10 ^ (shift - 8)) * 10 ^ 8).
  { rewrite <- Z.mul_assoc, <- Z.pow_add_r by lia. do 2 f_equal. lia. }
  assert (Hq : a * 10 ^ shift / 10 ^ 8 = a * 10 ^ (shift - 8)).
  { rewrite Hnum. apply Z.div_mul. discriminate. }
  assert (Hr : (a * 10 ^ shift) mod 10 ^ 8 = 0).
  { rewrite Hnum. apply Z.mod_mul. discriminate. }
  rewrite Hr, Hq. change (0 =? 0) with true. cbv iota.
  assert (Hqpos : 0 < a * 10 ^ (shift - 8)).
  { apply Z.mul_pos_pos; [lia | apply Z.pow_pos_nonneg; lia]. }
  destruct (strip_to_ideal (Z.to_nat shift) (a * 10 ^ (shift - 8))
              (0 - 0 - shift) (0 - 0)) as [c' e'] eqn:Hst.
  apply strip_to_ideal_spec in Hst as (Hv & Hre & Hp & Hstop); [| lia | lia].
  rewrite Z2Nat.id in Hstop by lia.
  replace (e' - (0 - 0 - shift)) with (e' + shift) in * by lia.
  (* the loop went at least down to the exponent -8 *)
  assert (He8 : -8 <= e').
  { destruct (Z.le_gt_cases (-8) e') as [| Hlt]; [assumption | exfalso].
    apply Hstop; [lia | lia |].
    assert (Hc' : c' = a * 10 ^ (- 8 - e')).
    { apply (Z.mul_reg_r _ _ (10 ^ (e' + shift)));
        [apply Z.pow_nonzero; lia |].
      rewrite <- Hv, <- Z.mul_assoc, <- Z.pow_add_r by lia.
      do 2 f_equal. lia. }
    rewrite Hc'.
    replace (- 8 - e') with (Z.succ (- 8 - e' - 1)) by lia.
    rewrite Z.pow_succ_r by lia.
    rewrite Z.mul_assoc, (Z.mul_comm a 10), <- Z.mul_assoc, Z.mul_comm.
    apply Z.mod_mul. discriminate. }
  assert (Hle : c' <= a).
  { assert (Ha' : a = c' * 10 ^ (e' + 8)).
    { apply (Z.mul_reg_r _ _ (10 ^ (shift - 8)));
        [apply Z.pow_nonzero; lia |].
      rewrite Hv, <- Z.mul_assoc, <- Z.pow_add_r by lia.
      do 2 f_equal. lia. }
    assert (0 < 10 ^ (e' + 8)) by (apply Z.pow_pos_nonneg; lia).
    nia. }
  change (Z.sgn (10 ^ 8)) with 1. rewrite Z.sgn_pos by lia.
  rewrite !Z.mul_1_l.
  exists c', e'. split.
  - apply fix_unchanged; [lia |]. unfold Etiny, Emin, prec. lia.
  - rewrite (value_scaled c' e' (- shift)) by lia.
    rewrite (value_scaled a (-8) (- shift)) by lia.
    replace (e' - - shift) with (e' + shift) by lia.
    replace (-8 - - shift) with (shift - 8) by lia.
    rewrite <- Hv. reflexivity.
Qed.

(** X8: a balance of fewer than 10^28 base units is reported exactly:
    when the node answers, the Decimal [_get_gas_balance] returns denotes
    the raw little-endian integer divided by 10^8, with no rounding. *)
Theorem gas_balance_is_exact :
  forall w h state,
    balance_of w h = Ok state ->
    0 <= int_from_bytes_little state < 10 ^ 28 ->
    exists c e,
      _get_gas_balance w h = ([BalanceQueried h], Ok (Fin c e)) /\
      (value c e == value (int_from_bytes_little state) (-8))%Q.
Proof.
  intros w h state Hrpc Hraw.
  destruct (div_by_1e8_exact _ Hraw) as (c & e & Hdiv & Hval).
  exists c, e. split; [| exact Hval].
  unfold _get_gas_balance. rewrite Hrpc.
  cbv beta iota delta [bind emit_event lift try_except of_int app].
  rewrite Hdiv. reflexivity.
Qed.

Lemma gas_balance_is_exact_witness :
  balance_of Bench.world_ok (script_hash (agent_acct Bench.bench_tool))
  = Ok Bench.balance_at_minimum /\
  0 <= int_from_bytes_little Bench.balance_at_minimum < 10 ^ 28 /\
  exists c e,
    _get_gas_balance Bench.world_ok (script_hash (agent_acct Bench.bench_tool))
    = ([BalanceQueried (script_hash (agent_acct Bench.bench_tool))],
       Ok (Fin c e)) /\
    (value c e == value (int_from_bytes_little Bench.balance_at_minimum) (-8))%Q.
Proof.
  assert (Hr : 0 <= int_from_bytes_little Bench.balance_at_minimum < 10 ^ 28)
    by (split; [vm_compute; discriminate | vm_compute; reflexivity]).
  split; [reflexivity |]. split; [exact Hr |].
  exact (gas_balance_is_exact Bench.world_ok
           (script_hash (agent_acct Bench.bench_tool))
           Bench.balance_at_minimum eq_refl Hr).
Defined.

Lemma lt_zero_positive (mc me : Z) :
  0 < mc -> lt (Fin 0 0) (Fin mc me) = Ok true.
Proof.
  intros Hm. unfold lt. f_equal. apply Z.ltb_lt.
  rewrite Z.mul_0_l. apply Z.mul_pos_pos; [exact Hm |].
  apply Z.pow_pos_nonneg; lia.
Qed.

(** X9: a failed balance query forces a top-up.  When the RPC call fails
    and the configured minimum is a positive number, a swap is requested,
    and the guard succeeds or fails with the swap. *)
Theorem failed_balance_query_forces_swap :
  forall self w mc me err,
    min_agent_gas_balance (config self) = Fin mc me -> 0 < mc ->
    balance_of w (script_hash (agent_acct self)) = Err err ->
    _ensure_agent_has_gas self w =
    ([BalanceQueried (script_hash (agent_acct self));
      SwapRequested (lit "100000000") (address (agent_acct self))],
     swap w (lit "100000000") (address (agent_acct self))).
Proof.
  intros self w mc me err Hmin Hpos Hrpc.
  destruct (ensure_agent_has_gas_run self w) as (c & e & Hb & ->).
  rewrite (get_gas_balance_rpc_failure _ _ _ Hrpc) in Hb.
  injection Hb as <- <-.
  now rewrite Hmin, lt_zero_positive.
Qed.

Lemma failed_balance_query_forces_swap_witness :
  min_agent_gas_balance (config Bench.bench_tool) = Fin 1 (-3) /\
  0 < 1 /\
  balance_of Bench.world_rpc_down (script_hash (agent_acct Bench.bench_tool))
  = Err (ExternalError "rpc: timeout") /\
  _ensure_agent_has_gas Bench.bench_tool Bench.world_rpc_down =
  ([BalanceQueried (script_hash (agent_acct Bench.bench_tool));
    SwapRequested (lit "100000000") (address (agent_acct Bench.bench_tool))],
   swap Bench.world_rpc_down (lit "100000000")
     (address (agent_acct Bench.bench_tool))).
Proof.
  split; [reflexivity |]. split; [lia |]. split; [reflexivity |].
  apply (failed_balance_query_forces_swap Bench.bench_tool
           Bench.world_rpc_down 1 (-3) (ExternalError "rpc: timeout"));
    [reflexivity | lia | reflexivity].
Defined.

(** X10: the swap the guard asks for does not depend on the shortfall.  A
    run of [_ensure_agent_has_gas] queries the balance once and requests
    at most one swap, always of the amount 100000000 and always to the
    agent's own address. *)
Theorem ensure_agent_has_gas_fixed_swap :
  forall self w,
    trace (_ensure_agent_has_gas self w)
    = [BalanceQueried (script_hash (agent_acct self))] \/
    trace (_ensure_agent_has_gas self w)
    = [BalanceQueried (script_hash (agent_acct self));
       SwapRequested (lit "100000000") (address (agent_acct self))].
Proof.
  intros self w.
  destruct (ensure_agent_has_gas_run self w) as (c & e & _ & ->).
  destruct (lt (Fin c e) (min_agent_gas_balance (config self)))
    as [[|] | err]; cbn [trace fst]; auto.
Qed.

(** X11: with a finite configured minimum the guard raises exactly when a
    swap was needed and the swap raised; the exception is the swap's. *)
Theorem ensure_agent_has_gas_fails_with_swap :
  forall self w mc me err,
    min_agent_gas_balance (config self) = Fin mc me ->
    (outcome (_ensure_agent_has_gas self w) = Err err <->
     In (SwapRequested (lit "100000000") (address (agent_acct self)))
        (trace (_ensure_agent_has_gas self w)) /\
     swap w (lit "100000000") (address (agent_acct self)) = Err err).
Proof.
  intros self w mc me err Hmin.
  destruct (ensure_agent_has_gas_run self w) as (c & e & _ & ->).
  rewrite Hmin. cbn [lt].
  destruct (_ <? _); cbn [trace outcome fst snd].
  - split; [intros H; split; [right; left; reflexivity | exact H] |].
    intros [_ H]. exact H.
  - split; [discriminate |]. intros [[H | []] _]. discriminate.
Qed.

Lemma ensure_agent_has_gas_fails_with_swap_witness :
  min_agent_gas_balance (config Bench.bench_tool) = Fin 1 (-3) /\
  (outcome (_ensure_agent_has_gas Bench.bench_tool Bench.world_swap_fails)
   = Err (ExternalError "swap: 503") <->
   In (SwapRequested (lit "100000000")
         (address (agent_acct Bench.bench_tool)))
      (trace (_ensure_agent_has_gas Bench.bench_tool Bench.world_swap_fails))
   /\
   swap Bench.world_swap_fails (lit "100000000")
     (address (agent_acct Bench.bench_tool))
   = Err (ExternalError "swap: 503")).
Proof.
  split; [reflexivity |].
  apply (ensure_agent_has_gas_fails_with_swap Bench.bench_tool
           Bench.world_swap_fails 1 (-3) (ExternalError "swap: 503")).
  reflexivity.
Defined.

(** ** The relay script: how far it gets, and what it writes *)

Lemma encode_push_int_ok_iff (z : Z) :
  (exists x, encode_push_int z = Ok x) <-> - 2 ^ 255 <= z < 2 ^ 255.
Proof.
  split.
  - intros [x H]. apply encode_push_int_shape in H
      as [[Hz _] | (i & Hi & F & _)].
    + assert (2 ^ 5 <= 2 ^ 255) by (apply Z.pow_le_mono_r; lia).
      change (2 ^ 5) with 32 in *. lia.
    + unfold fits in F.
      assert (Hk : Z.of_nat (2 ^ i) <= 32).
      { change 32 with (Z.of_nat (2 ^ 5)). apply Nat2Z.inj_le.
        apply Nat.pow_le_mono_r; lia. }
      assert (0 < Z.of_nat (2 ^ i)).
      { apply (Nat2Z.inj_lt 0). apply Nat.neq_0_lt_0, Nat.pow_nonzero.
        discriminate. }
      assert (2 ^ (8 * Z.of_nat (2 ^ i) - 1) <= 2 ^ 255)
        by (apply Z.pow_le_mono_r; lia).
      lia.
  - intros Hz. unfold encode_push_int.
    repeat match goal with
           | |- context [if ?b then _ else _] => destruct b eqn:?
           end; eauto.
    unfold fits in *. change (8 * 32 - 1) with 255 in *. lia.
Qed.

Lemma encode_push_data_ok_iff (b : bytes) :
  (exists x, encode_push_data b = Ok x) <-> Z.of_nat (List.length b) < 2 ^ 32.
Proof.
  unfold encode_push_data. change (2 ^ 32) with 4294967296.
  destruct (Z.ltb_spec (Z.of_nat (List.length b)) 256);
    [split; [lia | eauto] |].
  destruct (Z.ltb_spec (Z.of_nat (List.length b)) 65536);
    [split; [lia | eauto] |].
  destruct (Z.ltb_spec (Z.of_nat (List.length b)) 4294967296);
    [split; [lia | eauto] |].
  split; [intros [x Hx]; discriminate | lia].
Qed.

Lemma from_string_length (s : pystr) (h : UInt160) :
  from_string s = Ok h -> List.length (to_array160 h) = 20%nat.
Proof.
  unfold from_string.
  destruct (negb _); [discriminate |].
  destruct (fromhex _) as [d |]; cbn [rbind]; [| discriminate].
  destruct (negb (Z.of_nat (List.length (rev d)) =? 20)) eqn:Hl;
    [discriminate |].
  intros H. apply Ok_inj in H. subst h. cbn [to_array160].
  apply negb_false_iff, Z.eqb_eq in Hl. lia.
Qed.

Lemma emit_instr_ok (i : instr) (sb : ScriptBuilder) (b : bytes) :
  encode_instr i = Ok b ->
  emit_instr i sb = Ok (mkBuilder (emitted sb ++ [i]) (buffer sb ++ b)).
Proof. intros H. unfold emit_instr. now rewrite H. Qed.

Lemma encode_program_each (l : list instr) (s : bytes) :
  encode_program l = Ok s ->
  Forall (fun i => exists b, encode_instr i = Ok b) l.
Proof.
  revert s; induction l as [| i l IH]; intros s H; constructor.
  - apply encode_program_ok_inv in H as (b & _ & Hb & _). eauto.
  - apply encode_program_ok_inv in H as (_ & br & _ & Hr & _). eauto.
Qed.

(** X12: [_build_relay_script] never returns a script.  It gets as far
    as the system invocation exactly when the three address arguments and
    the configured relay contract hash parse as 160-bit hashes,
    [intent_id] can be encoded as UTF-8 into fewer than 2^32 bytes, and
    both amounts fit a signed 256-bit integer, and raises AttributeError
    there; otherwise it raises the exception of the parse or of the push
    that failed. *)
Theorem build_relay_script_never_returns :
  forall self from_addr to_addr asset_hash net burn intent_id,
    (forall s,
        _build_relay_script self from_addr to_addr asset_hash net burn
          intent_id <> Ok s) /\
    ((exists sb,
         relay_script_builder self from_addr to_addr asset_hash net burn
           intent_id = Ok sb)
     <->
     (exists f t a c ib,
         from_string from_addr = Ok f /\ from_string to_addr = Ok t /\
         from_string asset_hash = Ok a /\
         from_string (relay_contract_hash (config self)) = Ok c /\
         encode_utf8 intent_id = Ok ib /\
         Z.of_nat (List.length ib) < 2 ^ 32 /\
         - 2 ^ 255 <= burn < 2 ^ 255 /\ - 2 ^ 255 <= net < 2 ^ 255)) /\
    (forall sb,
        relay_script_builder self from_addr to_addr asset_hash net burn
          intent_id = Ok sb ->
        _build_relay_script self from_addr to_addr asset_hash net burn
          intent_id = Err (AttributeError "to_bytes")) /\
    (forall err,
        relay_script_builder self from_addr to_addr asset_hash net burn
          intent_id = Err err ->
        _build_relay_script self from_addr to_addr asset_hash net burn
          intent_id = Err err).
Proof.
  intros self from_addr to_addr asset_hash net burn intent_id.
  split.
  { intros s. rewrite build_relay_script_run.
    destruct (relay_script_builder self from_addr to_addr asset_hash net
                burn intent_id); discriminate. }
  split; [| split; intros x H; rewrite build_relay_script_run, H;
            reflexivity].
  split.
  - intros [sb H]. apply relay_script_builder_calls in H
      as (f & t & a & c & ib & Hf & Ht & Ha & Hc & Hi & _ & He).
    exists f, t, a, c, ib. do 5 (split; [assumption |]).
    apply encode_program_each in He.
    inversion He as [| ? ? Hib He1]; subst.
    inversion He1 as [| ? ? Hburn He2]; subst.
    inversion He2 as [| ? ? Hnet _]; subst.
    cbn [encode_instr] in Hib, Hburn, Hnet.
    split; [now apply encode_push_data_ok_iff |].
    split; now apply encode_push_int_ok_iff.
  - intros (f & t & a & c & ib & Hf & Ht & Ha & Hc & Hi & Hlen & Hburn & Hnet).
    apply encode_push_data_ok_iff in Hlen as [xi Hxi].
    apply encode_push_int_ok_iff in Hburn as [xb Hxb].
    apply encode_push_int_ok_iff in Hnet as [xn Hxn].
    assert (Hh : forall h s, from_string s = Ok h ->
                        exists x, encode_push_data (to_array160 h) = Ok x).
    { intros h s Hs. apply encode_push_data_ok_iff.
      rewrite (from_string_length _ _ Hs). reflexivity. }
    destruct (Hh _ _ Hf) as [xf Hxf]. destruct (Hh _ _ Ht) as [xt Hxt].
    destruct (Hh _ _ Ha) as [xa Hxa]. destruct (Hh _ _ Hc) as [xc Hxc].
    unfold relay_script_builder.
    rewrite Hf, Ht, Ha, Hi. cbn [rbind].
    unfold emit_push_bytes, emit_push_int, emit_push_uint160, emit.
    rewrite (emit_instr_ok (IPushData ib) _ xi Hxi). cbn [rbind].
    rewrite (emit_instr_ok (IPushInt burn) _ xb Hxb). cbn [rbind].
    rewrite (emit_instr_ok (IPushInt net) _ xn Hxn). cbn [rbind].
    rewrite (emit_instr_ok (IPushData (to_array160 a)) _ xa Hxa). cbn [rbind].
    rewrite (emit_instr_ok (IPushData (to_array160 t)) _ xt Hxt). cbn [rbind].
    rewrite (emit_instr_ok (IPushData (to_array160 f)) _ xf Hxf). cbn [rbind].
    rewrite (emit_instr_ok (IPushInt 0) _ [16] eq_refl). cbn [rbind].
    rewrite (emit_instr_ok (IPushInt 7) _ [23] eq_refl). cbn [rbind].
    rewrite (emit_instr_ok (IOp PACK) _ [192] eq_refl). cbn [rbind].
    replace (encode_utf8 (lit "transferWithFeeFromAmount"))
      with (Ok (lit "transferWithFeeFromAmount"))
      by (symmetry; apply encode_utf8_ascii, is_ascii_check; reflexivity).
    cbn [rbind].
    rewrite (emit_instr_ok (IPushData (lit "transferWithFeeFromAmount")) _
               (12 :: 25 :: lit "transferWithFeeFromAmount") eq_refl).
    cbn [rbind]. rewrite Hc. cbn [rbind].
    rewrite (emit_instr_ok (IPushData (to_array160 c)) _ xc Hxc). cbn [rbind].
    eauto.
Qed.

Lemma octets_app (a b : bytes) : octets a -> octets b -> octets (a ++ b).
Proof. intros. apply Forall_app. now split. Qed.

Lemma le_bytes_octets (k : nat) (z : Z) : octets (le_bytes k z).
Proof.
  revert z; induction k as [| k IH]; intros z; cbn [le_bytes]; constructor.
  - apply Z.mod_pos_bound. lia.
  - apply IH.
Qed.

Lemma utf8_char_octets (c : Z) (b : bytes) :
  wf_char c -> utf8_char c = Ok b -> octets b.
Proof.
  unfold wf_char, utf8_char. intros W H.
  destruct (Z.ltb_spec c 128);
    [| destruct (Z.ltb_spec c 2048);
       [| destruct ((55296 <=? c) && (c <=? 57343)); [discriminate |];
          destruct (Z.ltb_spec c 65536)]];
  apply Ok_inj in H; subst b;
  repeat constructor; Z.div_mod_to_equations; lia.
Qed.

Lemma encode_utf8_octets (s : pystr) :
  forall b, wf_str s -> encode_utf8 s = Ok b -> octets b.
Proof.
  induction s as [| c s IH]; intros b W H.
  - cbn in H. apply Ok_inj in H. subst. constructor.
  - apply encode_utf8_cons in H as (bc & bs & Hc & Hs & ->).
    inversion W; subst.
    apply octets_app; [eapply utf8_char_octets | apply IH]; eassumption.
Qed.

Lemma hex_val_range (c h : Z) : hex_val c = Some h -> 0 <= h < 16.
Proof.
  unfold hex_val. intros H.
  repeat match type of H with
         | context [if ?b then _ else _] => destruct b eqn:?
         end; try discriminate; injection H as <-; lia.
Qed.

Lemma fromhex_octets (n : nat) :
  forall s b, (List.length s <= n)%nat -> fromhex s = Ok b -> octets b.
Proof.
  induction n as [| n IH]; intros s b Hn H.
  - destruct s; [| cbn in Hn; lia]. cbn in H. apply Ok_inj in H. subst.
    constructor.
  - destruct s as [| c r]; [cbn in H; apply Ok_inj in H; subst; constructor |].
    cbn [fromhex] in H. cbn [List.length] in Hn.
    destruct (is_space c); [apply (IH r); [lia | exact H] |].
    destruct r as [| d r']; [discriminate |].
    destruct (hex_val c) as [h |] eqn:Hh; [| discriminate].
    destruct (hex_val d) as [l |] eqn:Hl; [| discriminate].
    unfold rmap in H.
    destruct (fromhex r') as [br |] eqn:Hr; cbn [rbind] in H; [| discriminate].
    apply Ok_inj in H. subst b.
    apply hex_val_range in Hh. apply hex_val_range in Hl.
    constructor; [lia |]. apply (IH r'); [cbn [List.length] in Hn; lia | exact Hr].
Qed.

Lemma from_string_octets (s : pystr) (h : UInt160) :
  from_string s = Ok h -> octets (to_array160 h).
Proof.
  unfold from_string.
  destruct (negb _); [discriminate |].
  destruct (fromhex _) as [d |] eqn:Hd; cbn [rbind]; [| discriminate].
  destruct (negb _); [discriminate |].
  intros H. apply Ok_inj in H. subst h. cbn [to_array160].
  apply Forall_rev. eapply fromhex_octets; [apply Nat.le_refl | exact Hd].
Qed.

Lemma encode_push_data_octets (b x : bytes) :
  octets b -> encode_push_data b = Ok x -> octets x.
Proof.
  unfold encode_push_data, PUSHDATA1, PUSHDATA2, PUSHDATA4. intros Hb H.
  repeat match type of H with
         | context [if ?c then _ else _] => destruct c
         end; try discriminate; apply Ok_inj in H; subst x;
    (constructor; [lia |]); apply octets_app;
    auto using le_bytes_octets.
Qed.

Lemma encode_push_int_octets (z : Z) (x : bytes) :
  encode_push_int z = Ok x -> octets x.
Proof.
  intros H. apply encode_push_int_shape in H
    as [[Hz ->] | (i & Hi & _ & ->)].
  - unfold PUSH0. repeat constructor; lia.
  - constructor; [lia | apply le_bytes_octets].
Qed.

Lemma encode_instr_octets (i : instr) (x : bytes) :
  data_octets i -> encode_instr i = Ok x -> octets x.
Proof.
  destruct i as [b | z | op | name]; cbn [data_octets encode_instr];
    intros Hd H.
  - eapply encode_push_data_octets; eassumption.
  - eapply encode_push_int_octets; eassumption.
  - apply Ok_inj in H. subst x. destruct op; repeat constructor; cbn; lia.
  - unfold rmap in H.
    destruct (to_bytes4 name) as [h |] eqn:L; cbn [rbind] in H;
      [| discriminate].
    apply Ok_inj in H. subst x. apply to_bytes4_ok in L as [_ ->].
    constructor; [unfold SYSCALL; lia | apply le_bytes_octets].
Qed.

Lemma encode_program_octets (l : list instr) :
  forall s, Forall data_octets l -> encode_program l = Ok s -> octets s.
Proof.
  induction l as [| i l IH]; intros s Hl H.
  - cbn in H. apply Ok_inj in H. subst. constructor.
  - apply encode_program_ok_inv in H as (b & br & Hb & Hr & ->).
    inversion Hl; subst.
    apply octets_app; [eapply encode_instr_octets | apply IH]; eassumption.
Qed.

(** X14: for a well-formed [intent_id], what [_build_relay_script] has
    written to its builder when it comes to the system invocation is a
    sequence of octets. *)
Theorem relay_script_is_octets :
  forall self from_addr to_addr asset_hash net burn intent_id sb,
    wf_str intent_id ->
    relay_script_builder self from_addr to_addr asset_hash net burn intent_id
    = Ok sb ->
    octets (to_array sb).
Proof.
  intros self from_addr to_addr asset_hash net burn intent_id sb W H.
  apply relay_script_builder_calls in H
    as (f & t & a & c & ib & Hf & Ht & Ha & Hc & Hi & _ & He).
  apply from_string_octets in Hf, Ht, Ha, Hc.
  pose proof (encode_utf8_octets _ _ W Hi) as Hib.
  eapply encode_program_octets; [| exact He].
  repeat constructor; try assumption; lia.
Qed.

Lemma relay_script_is_octets_witness :
  wf_str Bench.intent_id /\
  relay_script_builder Bench.bench_tool Bench.from_addr Bench.to_addr
    Bench.asset_hash 399999659 341 Bench.intent_id
  = Ok (Bench.bench_builder 400000000 341) /\
  octets (to_array (Bench.bench_builder 400000000 341)).
Proof.
  assert (W : wf_str Bench.intent_id)
    by (apply is_ascii_wf, is_ascii_check; reflexivity).
  assert (H : relay_script_builder Bench.bench_tool Bench.from_addr
                Bench.to_addr Bench.asset_hash 399999659 341 Bench.intent_id
              = Ok (Bench.bench_builder 400000000 341))
    by (vm_compute; reflexivity).
  split; [exact W |]. split; [exact H |].
  exact (relay_script_is_octets Bench.bench_tool Bench.from_addr
           Bench.to_addr Bench.asset_hash 399999659 341 Bench.intent_id
           (Bench.bench_builder 400000000 341) W H).
Defined.

(** ** The fee quote *)

Lemma round_half_even_nonneg (a drop : Z) : 0 <= a -> 0 <= round_half_even a drop.
Proof.
  intros Ha. unfold round_half_even.
  assert (0 <= a / 10 ^ drop).
  { destruct (Z.le_gt_cases 0 drop).
    - apply Z.div_pos; [lia | apply Z.pow_pos_nonneg; lia].
    - rewrite Z.pow_neg_r by lia. now rewrite Z.div_0_r. }
  destruct (_ || _); lia.
Qed.

Lemma fix_nonneg (c e : Z) (d : Decimal) :
  0 <= c -> fix_ c e = Ok d -> exists c' e', d = Fin c' e' /\ 0 <= c'.
Proof.
  intros Hc. unfold fix_.
  destruct (c =? 0); [intros H; apply Ok_inj in H; subst; eexists _, _; split; [reflexivity | lia] |].
  destruct (_ >? Etop); [discriminate |].
  destruct (e <? _).
  - pose proof (round_half_even_nonneg (Z.abs c)
                  (Z.max (ndigits (Z.abs c) + e - prec) Etiny - e)
                  (Z.abs_nonneg c)) as Hq.
    set (q := round_half_even _ _) in *.
    destruct (ndigits q >? prec); (destruct (_ >? Etop); [discriminate |]);
      intros H; apply Ok_inj in H; subst; eexists _, _;
      (split; [reflexivity |]).
    + assert (0 <= q / 10) by (apply Z.div_pos; lia).
      apply Z.mul_nonneg_nonneg; [| assumption].
      pose proof (Z.sgn_nonneg c). lia.
    + apply Z.mul_nonneg_nonneg; [| assumption].
      pose proof (Z.sgn_nonneg c). lia.
  - intros H; apply Ok_inj in H; subst; eauto.
Qed.

Lemma strip_to_ideal_nonneg (fuel : nat) :
  forall coeff exp ideal,
    0 <= coeff -> 0 <= fst (strip_to_ideal fuel coeff exp ideal).
Proof.
  induction fuel as [| f IH]; intros coeff exp ideal H; cbn [strip_to_ideal].
  - exact H.
  - destruct (_ && _); [| exact H]. apply IH. apply Z.div_pos; lia.
Qed.

Lemma div_nonneg (c1 e1 c2 e2 : Z) (d : Decimal) :
  0 <= c1 -> 0 < c2 -> div (Fin c1 e1) (Fin c2 e2) = Ok d ->
  exists c e, d = Fin c e /\ 0 <= c.
Proof.
  intros H1 H2. unfold div.
  destruct (c2 =? 0) eqn:E2; [apply Z.eqb_eq in E2; lia |].
  destruct (c1 =? 0); [apply fix_nonneg; lia |].
  set (shift := ndigits c2 - ndigits c1 + prec + 1).
  set (num := if 0 <=? shift then Z.abs c1 * 10 ^ shift else Z.abs c1).
  set (den := if 0 <=? shift then Z.abs c2 else Z.abs c2 * 10 ^ (- shift)).
  assert (Hnum : 0 <= num).
  { subst num. destruct (0 <=? shift) eqn:Hs; [| lia].
    apply Z.leb_le in Hs. apply Z.mul_nonneg_nonneg; [lia |].
    apply Z.pow_nonneg. lia. }
  assert (Hq : 0 <= num / den).
  { destruct (Z.eq_dec den 0) as [-> | Hd]; [now rewrite Z.div_0_r |].
    apply Z.div_pos; [exact Hnum |].
    subst den. destruct (0 <=? shift); [lia |].
    assert (0 <= 10 ^ (- shift)) by (apply Z.pow_nonneg; lia).
    assert (0 <= Z.abs c2 * 10 ^ (- shift))
      by (apply Z.mul_nonneg_nonneg; lia).
    lia. }
  destruct (num mod den =? 0).
  - pose proof (strip_to_ideal_nonneg (Z.to_nat shift) (num / den)
                  (e1 - e2 - shift) (e1 - e2) Hq) as Hs.
    destruct (strip_to_ideal _ _ _ _) as [coeff exp']. cbn [fst] in Hs.
    apply fix_nonneg.
    apply Z.mul_nonneg_nonneg; [| exact Hs].
    apply Z.mul_nonneg_nonneg; apply Z.sgn_nonneg; lia.
  - apply fix_nonneg.
    apply Z.mul_nonneg_nonneg;
      [apply Z.mul_nonneg_nonneg; apply Z.sgn_nonneg; lia |].
    destruct ((num / den) mod 5 =? 0); lia.
Qed.

Lemma mul_nonneg (c1 e1 c2 e2 : Z) (d : Decimal) :
  0 <= c1 -> 0 <= c2 -> mul (Fin c1 e1) (Fin c2 e2) = Ok d ->
  exists c e, d = Fin c e /\ 0 <= c.
Proof. intros H1 H2. cbn [mul]. apply fix_nonneg. now apply Z.mul_nonneg_nonneg. Qed.

Lemma add_nonneg (c1 e1 c2 e2 : Z) (d : Decimal) :
  0 <= c1 -> 0 <= c2 -> add (Fin c1 e1) (Fin c2 e2) = Ok d ->
  exists c e, d = Fin c e /\ 0 <= c.
Proof.
  intros H1 H2. cbn [add]. apply fix_nonneg.
  apply Z.add_nonneg_nonneg; apply Z.mul_nonneg_nonneg;
    try assumption; apply Z.pow_nonneg; lia.
Qed.

Lemma to_int_nonneg (c e n : Z) : 0 <= c -> to_int (Fin c e) = Ok n -> 0 <= n.
Proof.
  intros Hc. cbn [to_int]. destruct (0 <=? e) eqn:He; intros H;
    apply Ok_inj in H; subst n.
  - apply Z.mul_nonneg_nonneg; [exact Hc | apply Z.pow_nonneg; lia].
  - apply Z.leb_gt in He.
    apply Z.quot_pos; [exact Hc | apply Z.pow_pos_nonneg; lia].
Qed.

(** X15: for a positive price, a non-negative fee in the native token and
    a non-negative slippage setting, a returned quote is never negative:
    [fee_in_asset] and [burn_amount] are equal and at least zero. *)
Theorem quote_nonnegative_for_positive_price :
  forall self w asset_symbol f ef p ep intent_id q,
    price_feed w (asset_symbol ++ lit "_" ++ lit "GAS")
    = PriceData (Some (Fin p ep)) ->
    0 < p -> 0 <= f -> 0 <= slippage_bps (config self) ->
    outcome (estimate_gas_cost self w asset_symbol (Fin f ef) intent_id)
    = Ok q ->
    0 <= q_fee_in_asset q /\ q_burn_amount q = q_fee_in_asset q.
Proof.
  intros self w asset_symbol f ef p ep intent_id q Hfeed Hp Hf Hs.
  pose proof (get_price_run w asset_symbol (lit "GAS")) as Hrun.
  rewrite Hfeed in Hrun.
  rewrite (estimate_with_price _ _ _ _ _ _ Hrun).
  destruct (div (Fin f ef) (Fin p ep)) as [d1 |] eqn:E1; cbn [rbind];
    [| discriminate].
  apply div_nonneg in E1 as (c1 & x1 & -> & H1); [| assumption ..].
  unfold of_int.
  destruct (mul (Fin c1 x1) (Fin (slippage_bps (config self)) 0))
    as [d2 |] eqn:E2; cbn [rbind]; [| discriminate].
  apply mul_nonneg in E2 as (c2 & x2 & -> & H2); [| assumption ..].
  destruct (div (Fin c2 x2) (Fin 10000 0)) as [d3 |] eqn:E3; cbn [rbind];
    [| discriminate].
  apply div_nonneg in E3 as (c3 & x3 & -> & H3); [| assumption | lia].
  destruct (add (Fin c1 x1) (Fin c3 x3)) as [d4 |] eqn:E4; cbn [rbind];
    [| discriminate].
  apply add_nonneg in E4 as (c4 & x4 & -> & H4); [| assumption ..].
  destruct (mul (Fin c4 x4) (Fin (10 ^ 8) 0)) as [d5 |] eqn:E5; cbn [rbind];
    [| discriminate].
  apply mul_nonneg in E5 as (c5 & x5 & -> & H5); [| assumption | lia].
  destruct (to_int (Fin c5 x5)) as [n |] eqn:E6; cbn [rbind];
    [| discriminate].
  apply to_int_nonneg in E6; [| assumption].
  intros H. apply Ok_inj in H. subst q. cbn. auto.
Qed.

Lemma quote_nonnegative_for_positive_price_witness :
  price_feed Bench.world_ok (lit "NEO" ++ lit "_" ++ lit "GAS")
  = PriceData (Some (Fin 427 (-1))) /\
  0 < 427 /\ 0 <= 12 /\ 0 <= slippage_bps (config Bench.bench_tool) /\
  outcome (estimate_gas_cost Bench.bench_tool Bench.world_ok (lit "NEO")
             (Fin 12 (-5)) None)
  = Ok Bench.bench_quote /\
  0 <= q_fee_in_asset Bench.bench_quote /\
  q_burn_amount Bench.bench_quote = q_fee_in_asset Bench.bench_quote.
Proof.
  assert (Hq : outcome (estimate_gas_cost Bench.bench_tool Bench.world_ok
                          (lit "NEO") (Fin 12 (-5)) None)
               = Ok Bench.bench_quote)
    by (vm_compute; reflexivity).
  split; [reflexivity |]. split; [lia |]. split; [lia |].
  split; [vm_compute; discriminate |]. split; [exact Hq |].
  apply (quote_nonnegative_for_positive_price Bench.bench_tool Bench.world_ok
           (lit "NEO") 12 (-5) 427 (-1) None Bench.bench_quote);
    [reflexivity | lia | lia | vm_compute; discriminate | exact Hq].
Defined.

Lemma estimate_gas_cost_trace (self : GaslessRelayTool) (w : World)
    (asset_symbol : pystr) (fee_gas : pyfloat) (intent_id : option pystr) :
  trace (estimate_gas_cost self w asset_symbol fee_gas intent_id)
  = [PriceRequested (asset_symbol ++ lit "_GAS")].
Proof.
  pose proof (get_price_run w asset_symbol (lit "GAS")) as Hrun.
  unfold estimate_gas_cost. rewrite Hrun.
  destruct (price_feed w _) as [| [p |]]; try reflexivity;
    rewrite trace_bind; cbn [trace outcome fst snd app];
    repeat (rewrite trace_bind, trace_lift, outcome_lift; cbn [app];
            match goal with
            | |- context [match ?r with _ => _ end] => destruct r
            end; try reflexivity).
Qed.

(** X16: [estimate_gas_cost] talks to the outside once, asking the price
    of the pair "<asset_symbol>_GAS"; it never queries a balance, asks for
    a swap or touches a transaction.  A quote it returns repeats the fee
    as burn amount, has 8 decimals whatever the asset, and echoes the
    [intent_id] it was given. *)
Theorem estimate_gas_cost_only_asks_price :
  forall self w asset_symbol fee_gas intent_id,
    trace (estimate_gas_cost self w asset_symbol fee_gas intent_id)
    = [PriceRequested (asset_symbol ++ lit "_GAS")] /\
    forall q,
      outcome (estimate_gas_cost self w asset_symbol fee_gas intent_id)
      = Ok q ->
      q_burn_amount q = q_fee_in_asset q /\ q_asset_decimals q = 8 /\
      q_intent_id q = intent_id /\ q_source q = lit "flamingo_oracle".
Proof.
  intros self w asset_symbol fee_gas intent_id.
  pose proof (get_price_run w asset_symbol (lit "GAS")) as Hrun.
  split.
  - apply estimate_gas_cost_trace.
  - intros q.
    destruct (price_feed w _) as [| [p |]].
    + unfold estimate_gas_cost. rewrite Hrun. discriminate.
    + rewrite (estimate_with_price _ _ _ _ _ _ Hrun).
      repeat match goal with
             | |- context [rbind ?r _] => destruct r; cbn [rbind]
             end; try discriminate.
      intros H. apply Ok_inj in H. subst q. cbn. auto.
    + rewrite (estimate_with_price _ _ _ _ _ _ Hrun).
      repeat match goal with
             | |- context [rbind ?r _] => destruct r; cbn [rbind]
             end; try discriminate.
      intros H. apply Ok_inj in H. subst q. cbn. auto.
Qed.

(** ** config.py and mcp_server.py *)

Import McpServer.

(** X17: the default [relay_contract_hash] of [NeoNetworkConfig] is not a
    160-bit hash, so a tool built on the default configuration can build
    no relay script: [_build_relay_script] raises for every input, and
    [execute_gasless_transfer] never gets to a script or a transaction. *)
Theorem default_config_builds_no_script :
  forall self,
    config self = Config.default_config ->
    (forall from_addr to_addr asset_hash net burn intent_id,
        exists err,
          _build_relay_script self from_addr to_addr asset_hash net burn
            intent_id = Err err) /\
    (forall w from_addr to_addr asset_hash gross fee sig intent_id ev,
        In ev (trace (execute_gasless_transfer self w from_addr to_addr
                        asset_hash gross fee sig intent_id)) ->
        (forall s, ev <> ScriptBuilt s) /\
        (forall tx, ev <> TransactionAssembled tx)).
Proof.
  intros self Hcfg.
  assert (Hno : forall from_addr to_addr asset_hash net burn intent_id,
             exists err,
               _build_relay_script self from_addr to_addr asset_hash net burn
                 intent_id = Err err).
  { intros from_addr to_addr asset_hash net burn intent_id.
    rewrite build_relay_script_run.
    destruct (relay_script_builder self from_addr to_addr asset_hash net burn
                intent_id) as [sb | err] eqn:H; [| eauto].
    apply relay_script_builder_calls in H
      as (f & t & a & c & ib & _ & _ & _ & Hc & _).
    rewrite Hcfg in Hc. discriminate. }
  split; [exact Hno |].
  intros w from_addr to_addr asset_hash gross fee sig intent_id ev.
  destruct (intent_payload_ok from_addr to_addr gross fee intent_id)
    as [payload Hp].
  rewrite (execute_run _ _ _ _ _ _ _ _ _ _ Hp).
  destruct (Hno from_addr to_addr asset_hash (gross - fee) fee intent_id)
    as [err ->].
  assert (Hg : In ev (trace (_ensure_agent_has_gas self w)) ->
               (forall s, ev <> ScriptBuilt s) /\
               (forall tx, ev <> TransactionAssembled tx)).
  { intros H. apply ensure_agent_has_gas_events in H as [-> | (a & r & ->)];
      split; discriminate. }
  destruct (recover_signer w payload sig) as [ua | e];
    [destruct (negb (str_eqb ua from_addr)) |]; cbv zeta;
    [| destruct (outcome (_ensure_agent_has_gas self w)) as [[] | e] |];
    cbn [trace fst]; intros [<- | Hin];
    try (split; discriminate); try contradiction; auto.
Qed.

Lemma default_config_builds_no_script_witness :
  config Bench.default_tool = Config.default_config /\
  (forall from_addr to_addr asset_hash net burn intent_id,
      exists err,
        _build_relay_script Bench.default_tool from_addr to_addr asset_hash
          net burn intent_id = Err err) /\
  (forall w from_addr to_addr asset_hash gross fee sig intent_id ev,
      In ev (trace (execute_gasless_transfer Bench.default_tool w from_addr
                      to_addr asset_hash gross fee sig intent_id)) ->
      (forall s, ev <> ScriptBuilt s) /\
      (forall tx, ev <> TransactionAssembled tx)).
Proof.
  split; [reflexivity |].
  apply (default_config_builds_no_script Bench.default_tool). reflexivity.
Defined.

(** X18: [execute_gasless_transfer_tool] reads its seven parameters in the
    order from_addr, to_addr, asset_hash, gross_amount, fee_in_asset,
    user_signature, intent_id.  It raises KeyError exactly when one of
    them is absent, and the key of the exception is the first absent one;
    with all seven present the tool is called. *)
Theorem execute_tool_missing_parameter :
  forall tool_instance w params,
    (forall key,
        execute_gasless_transfer_tool tool_instance w params = KeyError key
        <-> find (fun kp => negb (snd kp)) (execute_keys params)
            = Some (key, false)) /\
    ((exists m, execute_gasless_transfer_tool tool_instance w params = Called m)
     <-> forallb snd (execute_keys params) = true).
Proof.
  intros tool_instance w [f t a g fee s i].
  unfold execute_gasless_transfer_tool, subscript, execute_keys, contains.
  cbn [p_from_addr p_to_addr p_asset_hash p_gross_amount p_fee_in_asset
       p_user_signature p_intent_id].
  destruct f, t, a, g, fee, s, i; cbn [find forallb snd negb andb]; split;
    try (intros key; split; intros H; inversion H; reflexivity);
    try (split; [intros [m H]; discriminate | discriminate]);
    try (split; [reflexivity | eauto]).
Qed.

(** X19: the handler [execute_gasless_transfer_tool] never produces a
    response: whatever the parameters, it raises KeyError or the call of
    the tool raises; and it never submits a transaction. *)
Theorem execute_tool_never_responds :
  forall tool_instance w params,
    response (execute_gasless_transfer_tool tool_instance w params) = None /\
    forall tx,
      ~ In (TransactionSubmitted tx)
           (run_trace (execute_gasless_transfer_tool tool_instance w params)).
Proof.
  intros tool_instance w [f t a g fee s i].
  unfold execute_gasless_transfer_tool, subscript.
  cbn [p_from_addr p_to_addr p_asset_hash p_gross_amount p_fee_in_asset
       p_user_signature p_intent_id].
  destruct f as [f |]; [| split; [reflexivity | intros tx []]].
  destruct t as [t |]; [| split; [reflexivity | intros tx []]].
  destruct a as [a |]; [| split; [reflexivity | intros tx []]].
  destruct g as [g |]; [| split; [reflexivity | intros tx []]].
  destruct fee as [fee |]; [| split; [reflexivity | intros tx []]].
  destruct s as [s |]; [| split; [reflexivity | intros tx []]].
  destruct i as [i |]; [| split; [reflexivity | intros tx []]].
  cbn [response run_trace].
  destruct (intent_payload_ok f t g fee i) as [payload Hp].
  pose proof (execute_run tool_instance w f t a g fee s i payload Hp) as Hrun.
  assert (Hg : forall tx,
             ~ In (TransactionSubmitted tx)
                  (trace (_ensure_agent_has_gas tool_instance w))).
  { intros tx H. apply ensure_agent_has_gas_events in H as [H | (x & r & H)];
      discriminate. }
  rewrite Hrun.
  destruct (recover_signer w payload s) as [ua | e];
    [destruct (negb (str_eqb ua f)) |]; cbv zeta;
    [| destruct (outcome (_ensure_agent_has_gas tool_instance w))
         as [[] | e];
       [destruct (_build_relay_script tool_instance f t a (g - fee) fee i)
          as [sc | e] |] |];
    (split; [reflexivity |]); intros tx Hin; cbn [trace fst] in Hin;
    (destruct Hin as [Hin | Hin]; [discriminate |]);
    try contradiction;
    try (apply in_app_or in Hin as [Hin | Hin];
         [exact (Hg _ Hin)
         | repeat (destruct Hin as [Hin | Hin]; [discriminate |]);
           contradiction]);
    try exact (Hg _ Hin).
Qed.

(** X20: [estimate_gas_cost_tool] never raises KeyError: every call
    reaches the tool and asks one price, that of the pair NEO_GAS when
    [asset_symbol] is absent.  The handler cannot tell an absent
    [intent_id] from a null one, nor an absent [fee_gas] from 0.00012. *)
Theorem estimate_tool_defaults :
  forall tool_instance w params,
    (exists m, estimate_gas_cost_tool tool_instance w params = Called m) /\
    run_trace (estimate_gas_cost_tool tool_instance w params)
    = [PriceRequested
         (match p_asset_symbol params with
          | Some s => s
          | None => lit "NEO"
          end ++ lit "_GAS")] /\
    estimate_gas_cost_tool tool_instance w
      {| p_asset_symbol := p_asset_symbol params;
         p_fee_gas := p_fee_gas params;
         p_est_intent_id := None |}
    = estimate_gas_cost_tool tool_instance w
        {| p_asset_symbol := p_asset_symbol params;
           p_fee_gas := p_fee_gas params;
           p_est_intent_id := Some None |} /\
    estimate_gas_cost_tool tool_instance w
      {| p_asset_symbol := p_asset_symbol params;
         p_fee_gas := None;
         p_est_intent_id := p_est_intent_id params |}
    = estimate_gas_cost_tool tool_instance w
        {| p_asset_symbol := p_asset_symbol params;
           p_fee_gas := Some (Fin 12 (-5));
           p_est_intent_id := p_est_intent_id params |}.
Proof.
  intros tool_instance w [sym fee id].
  unfold estimate_gas_cost_tool, get.
  cbn [p_asset_symbol p_fee_gas p_est_intent_id].
  split; [eauto |]. split; [| split; reflexivity].
  cbn [run_trace]. apply estimate_gas_cost_trace.
Qed.
